(** * Verification of the LEDE firmware builder ([lede/builder.py])

    A shallow embedding of the [Builder] class: every method that the
    properties below talk about is a monadic program over an explicit
    state (the builder object, the file system, the log, the standard
    streams and the list of calls made to external collaborators).

    Python [str] values are Rocq [string]s holding the UTF-8 encoding of the
    text; every pattern the builder looks for is ASCII, so prefix and
    substring tests on the encoding agree with the tests on the text. *)

From Stdlib Require Import String Ascii ZArith List Bool Lia DecimalString.
From stdpp Require Import base gmap strings list fin_maps.

Local Open Scope string_scope.
Local Open Scope list_scope.

(** ** Python string primitives *)

Module Py.

Definition LF : ascii := "010"%char.
Definition CR : ascii := "013"%char.
Definition nl : string := String LF "".

Definition eqb_ascii (a b : ascii) : bool := Ascii.eqb a b.

(** [line.startswith(p)] *)
Fixpoint startswith (line p : string) {struct p} : bool :=
  match p, line with
  | EmptyString, _ => true
  | String a p', String b line' => eqb_ascii a b && startswith line' p'
  | String _ _, EmptyString => false
  end.

(** [line.endswith(p)] for a one-character [p] *)
Fixpoint endswith_char (s : string) (c : ascii) : bool :=
  match s with
  | EmptyString => false
  | String a EmptyString => eqb_ascii a c
  | String _ s' => endswith_char s' c
  end.

(** [needle in hay] on strings: substring test *)
Fixpoint contains (needle hay : string) : bool :=
  startswith hay needle ||
  match hay with
  | EmptyString => false
  | String _ hay' => contains needle hay'
  end.

(** [x in l] on a list of strings *)
Definition mem (x : string) (l : list string) : bool :=
  existsb (String.eqb x) l.

(** [s.split(sep)] for a one-character separator *)
Fixpoint split_aux (sep : ascii) (acc : string) (s : string) : list string :=
  match s with
  | EmptyString => [acc]
  | String c s' =>
      if eqb_ascii c sep then acc :: split_aux sep EmptyString s'
      else split_aux sep (acc +:+ String c EmptyString) s'
  end.
Definition split (sep : ascii) (s : string) : list string :=
  split_aux sep EmptyString s.

(** [sep.join(l)] *)
Fixpoint join (sep : string) (l : list string) : string :=
  match l with
  | [] => EmptyString
  | [x] => x
  | x :: l' => x +:+ sep +:+ join sep l'
  end.

(** [l[-n:]] *)
Definition last_n {A} (n : nat) (l : list A) : list A :=
  skipn (length l - n) l.

(** The text has ASCII characters only *)
Fixpoint is_ascii (s : string) : bool :=
  match s with
  | EmptyString => true
  | String c s' => (nat_of_ascii c <=? 127)%nat && is_ascii s'
  end.

(** [s.lower()]. On ASCII text the letters A-Z become a-z and nothing else
    changes. On any other text the case mapping of Unicode applies, which
    is not written out here: [unicode_lower] stands for it, and nothing is
    assumed about it. *)
Definition lower_ascii (c : ascii) : ascii :=
  let n := nat_of_ascii c in
  if (65 <=? n)%nat && (n <=? 90)%nat then ascii_of_nat (n + 32) else c.
Fixpoint lower_letters (s : string) : string :=
  match s with
  | EmptyString => EmptyString
  | String c s' => String (lower_ascii c) (lower_letters s')
  end.
Definition lower (unicode_lower : string -> string) (s : string) : string :=
  if is_ascii s then lower_letters s else unicode_lower s.

(** Iterating over a file opened in text mode: the lines of the content,
    each with its line end, where ["\r"] and ["\r\n"] are read as
    ["\n"] (universal newlines). *)
Fixpoint readlines_aux (acc : string) (s : string) : list string :=
  match s with
  | EmptyString => if String.eqb acc EmptyString then [] else [acc]
  | String c s' =>
      if eqb_ascii c LF then (acc +:+ nl) :: readlines_aux EmptyString s'
      else if eqb_ascii c CR then
        match s' with
        | String c2 s'' =>
            if eqb_ascii c2 LF then (acc +:+ nl) :: readlines_aux EmptyString s''
            else (acc +:+ nl) :: readlines_aux EmptyString s'
        | EmptyString => [acc +:+ nl]
        end
      else readlines_aux (acc +:+ String c EmptyString) s'
  end.
Definition readlines (content : string) : list string :=
  readlines_aux EmptyString content.

(** One-byte line boundaries of [str.splitlines]:
    LF, VT, FF, CR, FS, GS, RS. *)
Definition is_linebreak1 (c : ascii) : bool :=
  let n := nat_of_ascii c in
  ((10 <=? n)%nat && (n <=? 13)%nat) || ((28 <=? n)%nat && (n <=? 30)%nat).

(** [s.splitlines()]: the boundaries are the one-byte ones, ["\r\n"],
    and the encodings of U+0085 (C2 85), U+2028 and U+2029
    (E2 80 A8, E2 80 A9). Line ends are dropped. *)
Fixpoint splitlines_aux (acc : string) (s : string) : list string :=
  match s with
  | EmptyString => if String.eqb acc EmptyString then [] else [acc]
  | String c s' =>
      if eqb_ascii c CR then
        match s' with
        | String c2 s'' =>
            if eqb_ascii c2 LF then acc :: splitlines_aux EmptyString s''
            else acc :: splitlines_aux EmptyString s'
        | EmptyString => [acc]
        end
      else if is_linebreak1 c then acc :: splitlines_aux EmptyString s'
      else if eqb_ascii c "194"%char then
        match s' with
        | String c2 s'' =>
            if eqb_ascii c2 "133"%char then acc :: splitlines_aux EmptyString s''
            else splitlines_aux (acc +:+ String c EmptyString) s'
        | EmptyString => [acc +:+ String c EmptyString]
        end
      else if eqb_ascii c "226"%char then
        match s' with
        | String c2 (String c3 s''') =>
            if eqb_ascii c2 "128"%char
               && (eqb_ascii c3 "168"%char || eqb_ascii c3 "169"%char)
            then acc :: splitlines_aux EmptyString s'''
            else splitlines_aux (acc +:+ String c EmptyString) s'
        | _ => splitlines_aux (acc +:+ String c EmptyString) s'
        end
      else splitlines_aux (acc +:+ String c EmptyString) s'
  end.
Definition splitlines (s : string) : list string :=
  splitlines_aux EmptyString s.

(** [bytes.decode('utf-8')]: the strict decoder accepts exactly the
    well-formed sequences (no overlong forms, no surrogates, nothing
    above U+10FFFF). *)
Definition in_range (lo hi : nat) (c : ascii) : bool :=
  let n := nat_of_ascii c in (lo <=? n)%nat && (n <=? hi)%nat.

Fixpoint utf8_valid_aux (pending : list (nat * nat)) (s : string) : bool :=
  match s with
  | EmptyString => match pending with [] => true | _ => false end
  | String c s' =>
      match pending with
      | (lo, hi) :: rest => in_range lo hi c && utf8_valid_aux rest s'
      | [] =>
          let n := nat_of_ascii c in
          if (n <=? 127)%nat then utf8_valid_aux [] s'
          else if in_range 194 223 c then utf8_valid_aux [(128, 191)] s'
          else if (n =? 224)%nat then utf8_valid_aux [(160, 191); (128, 191)] s'
          else if in_range 225 236 c || in_range 238 239 c
               then utf8_valid_aux [(128, 191); (128, 191)] s'
          else if (n =? 237)%nat then utf8_valid_aux [(128, 159); (128, 191)] s'
          else if (n =? 240)%nat
               then utf8_valid_aux [(144, 191); (128, 191); (128, 191)] s'
          else if in_range 241 243 c
               then utf8_valid_aux [(128, 191); (128, 191); (128, 191)] s'
          else if (n =? 244)%nat
               then utf8_valid_aux [(128, 143); (128, 191); (128, 191)] s'
          else false
      end
  end.
Definition utf8_valid (s : string) : bool := utf8_valid_aux [] s.

End Py.

(** ** [os.path] on POSIX *)

Module Path.

(** [os.path.join(a, *p)] *)
Definition join2 (path b : string) : string :=
  if Py.startswith b "/" then b
  else if String.eqb path "" || Py.endswith_char path "/"%char then path +:+ b
  else path +:+ "/" +:+ b.
Definition join (a : string) (p : list string) : string :=
  fold_left join2 p a.

(** [os.path.normpath(path)] *)
Definition norm_step (initial_slashes : nat) (new_comps : list string)
    (comp : string) : list string :=
  if String.eqb comp "" || String.eqb comp "." then new_comps
  else if negb (String.eqb comp "..")
          || (Nat.eqb initial_slashes 0
              && match new_comps with [] => true | _ => false end)
          || match List.last (map Some new_comps) None with
             | Some l => String.eqb l ".."
             | None => false
             end
  then new_comps ++ [comp]
  else removelast new_comps.

Fixpoint slashes (n : nat) : string :=
  match n with O => "" | S n' => "/" +:+ slashes n' end.

Definition normpath (path : string) : string :=
  if String.eqb path "" then "."
  else
    let initial_slashes :=
      if Py.startswith path "/" then
        if Py.startswith path "//" && negb (Py.startswith path "///")
        then 2%nat else 1%nat
      else 0%nat in
    let comps := Py.split "/"%char path in
    let new_comps := fold_left (norm_step initial_slashes) comps [] in
    let p := slashes initial_slashes +:+ Py.join "/" new_comps in
    if String.eqb p "" then "." else p.

(** [os.path.abspath(path)], with the process's working directory [cwd] *)
Definition abspath (cwd path : string) : string :=
  normpath (if Py.startswith path "/" then path else join cwd [path]).

End Path.

(** ** Data model *)

(** The exceptions that can leave a builder method. [BuilderStop] is the
    builder's own; the others are raised by Python or by a library. *)
Inductive exn : Type :=
| BuilderStop
| TypeError
| AttributeError
| KeyError
| IndexError
| FileNotFoundError
| IsADirectoryError
| NotADirectoryError
| SameFileError
| UnicodeDecodeError
| CalledProcessError
| GitCommandError
| RemoteError.

Inductive Res (A : Type) : Type :=
| Ok (a : A)
| Raise (e : exn).
Arguments Ok {A} a.
Arguments Raise {A} e.

Inductive Level : Type := DEBUG | INFO | WARNING | ERROR.


(** What git keeps on disk for one working tree, as far as the builder
    looks at it. *)
Record Remote : Type := mkRemote {
  remote_name : string;
  refs : list string
}.

Record Diff : Type := mkDiff {
  change_type : string;
  a_path : string;
  b_path : string
}.

Record RepoState : Type := mkRepoState {
  heads : list string;
  active_branch : option string;     (* [None]: detached HEAD *)
  remotes : list Remote;
  head_commit_diff : list Diff;      (* [repo.head.commit.diff()] *)
  index_diff : list Diff;            (* [repo.index.diff(None)] *)
  untracked_files : list string
}.

(** A [git.Repo] object: a handle on the working tree at [working_dir];
    its state is read from and written to the file system. *)
Record Repo : Type := mkRepo { working_dir : string }.

Inductive Kind : Type :=
| KFile (content : string)
| KDir (entries : list string)
| KRepo (st : RepoState).

(** The file system is a flat map: every path the builder names is looked
    up directly, and a directory carries the listing [os.listdir] gives. *)
Record Node : Type := mkNode { kind : Kind; mtime : Z }.

(** The named tuple [RemoteWalker] yields for one repository. *)
Record RemoteSpec : Type := mkRemoteSpec {
  name : string;
  uri : string;
  branch : string;
  fetch : bool
}.

(** The configuration keys the modelled methods read. *)
Record Config : Type := mkConfig {
  build_dir : string;
  build_name : string;
  build_config : string;
  build_config_always : string;
  remote_repos : list string;
  feeds_create_always : string;
  feeds_update_always : string;
  feeds_install_always : string;
  miner_mac : string;
  deploy_target : string;
  deploy_ssh_hostname : option string;       (* [ssh.get('hostname', None)] *)
  deploy_ssh_password : option string;       (* [ssh.get('password', None)] *)
  deploy_ssh_username : string;
  deploy_ssh_hostname_suffix : option string;
  deploy_remove_uuid : string;
  deploy_reboot : string
}.

(** *** Calls to external collaborators *)

Record ProcCall : Type := mkProcCall {
  pc_args : list string;
  pc_cwd : option string;
  pc_env_path : option string;   (* [Some p]: the environment is a copy with PATH set to [p] *)
  pc_capture : bool;             (* stdout piped *)
  pc_umask : option Z            (* [preexec_fn] setting the file-mode mask *)
}.

Inductive GitCall : Type :=
| GClone (uri path branch : string)
| GFetch (path remote : string)
| GCreateHead (path branch remote : string)
| GCheckout (path branch : string)
| GPull (path remote : string)
| GDiffHead (path : string)         (* what git runs for [repo.head.commit.diff()] *)
| GDiffIndex (path : string)        (* ... for [repo.index.diff(None)] *)
| GUntracked (path : string).       (* ... for [repo.untracked_files] *)

Inductive RemoteCall : Type :=
| Connect (hostname username : string) (password : option string)
| OpenSftp
| SshRun (args : list string)
| Chdir (path : string)
| SftpOpen (path mode : string)
| FileWrite (data : string)
| FileClose
| Put (localpath remotepath : string)
| Listdir (path : string)
| Remove (path : string)
| Disconnect.

Inductive Outcome : Type :=
| Failed
| Done
| Listed (names : list string).

Inductive Call : Type :=
| CProc (c : ProcCall)
| CGit (c : GitCall)
| CRemote (c : RemoteCall) (o : Outcome)
| COpen (path mode : string).     (* a local file opened for writing *)

(** The world outside the builder. Every collaborator answers as a
    function of the calls made so far (and of the file system where it
    reads it), so nothing is assumed about git servers, external tools,
    or the target device. *)
Record Host : Type := mkHost {
  getcwd : string;
  environ_PATH : option string;
  (** [subprocess.run]: exit status zero?, captured stdout, files afterwards *)
  run_process : list Call -> ProcCall -> gmap string Node ->
                bool * string * gmap string Node;
  (** [git.Repo.clone_from], [remote.fetch()], [remote.pull()]:
      [None] when the git command fails *)
  git_clone : list Call -> gmap string Node -> string -> string -> string ->
              option RepoState;
  (** the files a clone that failed leaves behind: git may have removed
      what it wrote, or not (a checkout that fails after the objects were
      received leaves the repository in place) *)
  git_clone_left : list Call -> gmap string Node -> string -> string -> string ->
                   gmap string Node;
  git_fetch : list Call -> RepoState -> string -> option RepoState;
  git_pull : list Call -> RepoState -> string -> option RepoState;
  (** [branch.checkout()] fails when git refuses to switch *)
  git_checkout_ok : list Call -> RepoState -> string -> bool;
  (** the queries of [status], for which GitPython runs the git executable:
      does the command succeed? *)
  git_query_ok : list Call -> GitCall -> bool;
  (** [lede.config.RemoteWalker(config.remote, fetch)] *)
  RemoteWalker : bool -> list RemoteSpec;
  (** [termcolor.colored] *)
  colored : string -> string -> string;
  (** the target device behind [lede.ssh.SSHManager] *)
  device_ok : list Call -> RemoteCall -> bool;
  device_listdir : list Call -> string -> list string;
  (** [str.lower] on text that is not ASCII *)
  str_lower : string -> string
}.

(** *** The state threaded through every method *)

Record State : Type := mkState {
  (* the builder object *)
  _working_dir : option string;
  _repos : list (string * option Repo);     (* OrderedDict *)
  (* the machine *)
  fs : gmap string Node;
  clock : Z;
  (* what the run leaves behind *)
  log : list (Level * string);
  stdout : list string;
  stderr : list string;
  calls : list Call
}.

Definition set_working_dir (v : option string) (s : State) : State :=
  mkState v (_repos s) (fs s) (clock s) (log s) (stdout s) (stderr s) (calls s).
Definition set_repos (v : list (string * option Repo)) (s : State) : State :=
  mkState (_working_dir s) v (fs s) (clock s) (log s) (stdout s) (stderr s) (calls s).
Definition set_fs (v : gmap string Node) (s : State) : State :=
  mkState (_working_dir s) (_repos s) v (clock s) (log s) (stdout s) (stderr s) (calls s).
Definition set_clock (v : Z) (s : State) : State :=
  mkState (_working_dir s) (_repos s) (fs s) v (log s) (stdout s) (stderr s) (calls s).
Definition set_log (v : list (Level * string)) (s : State) : State :=
  mkState (_working_dir s) (_repos s) (fs s) (clock s) v (stdout s) (stderr s) (calls s).
Definition set_stdout (v : list string) (s : State) : State :=
  mkState (_working_dir s) (_repos s) (fs s) (clock s) (log s) v (stderr s) (calls s).
Definition set_stderr (v : list string) (s : State) : State :=
  mkState (_working_dir s) (_repos s) (fs s) (clock s) (log s) (stdout s) v (calls s).
Definition set_calls (v : list Call) (s : State) : State :=
  mkState (_working_dir s) (_repos s) (fs s) (clock s) (log s) (stdout s) (stderr s) v.

(** ** The state and exception monad *)

Definition M (A : Type) : Type := State -> Res A * State.

Definition ret {A} (a : A) : M A := fun s => (Ok a, s).
Definition raise {A} (e : exn) : M A := fun s => (Raise e, s).
Definition bind {A B} (m : M A) (k : A -> M B) : M B :=
  fun s => match m s with
           | (Ok a, s') => k a s'
           | (Raise e, s') => (Raise e, s')
           end.
Definition gets {A} (f : State -> A) : M A := fun s => (Ok (f s), s).
Definition modify (f : State -> State) : M unit := fun s => (Ok tt, f s).

Declare Scope py_scope.
Delimit Scope py_scope with py.
Notation "'let!' x ':=' m 'in' k" := (bind m (fun x => k))
  (at level 10, x name, m at level 100, k at level 200) : py_scope.
Notation "m '>>' k" := (bind m (fun _ => k))
  (at level 180, right associativity) : py_scope.
Local Open Scope py_scope.

(** [for x in l: body x] *)
Fixpoint for_ {A} (l : list A) (body : A -> M unit) : M unit :=
  match l with
  | [] => ret tt
  | x :: l' => body x >> for_ l' body
  end.

(** [if c: body] *)
Definition when (c : bool) (body : M unit) : M unit :=
  if c then body else ret tt.

(** A [with] block: [leave] runs on every exit of [body]; an exception
    of [leave] replaces the one of [body]. *)
Definition finally {A} (body : M A) (leave : M unit) : M A :=
  fun s => match body s with
           | (r, s1) =>
               match leave s1 with
               | (Ok _, s2) => (r, s2)
               | (Raise e, s2) => (Raise e, s2)
               end
           end.

(** A value that must be a [str]: [None] makes [os.path.join] raise. *)
Definition fspath (o : option string) : M string :=
  match o with
  | Some p => ret p
  | None => raise TypeError
  end.

Definition logging (lvl : Level) (msg : string) : M unit :=
  modify (fun s => set_log (log s ++ [(lvl, msg)]) s).
Definition sys_stdout_write (data : string) : M unit :=
  modify (fun s => set_stdout (stdout s ++ [data]) s).
Definition sys_stderr_write (data : string) : M unit :=
  modify (fun s => set_stderr (stderr s ++ [data]) s).
(** [print(a, b, ...)] *)
Definition print (args : list string) : M unit :=
  sys_stdout_write (Py.join " " args +:+ Py.nl).
Definition record (c : Call) : M unit :=
  modify (fun s => set_calls (calls s ++ [c]) s).

(** *** Local files *)

Definition os_path_exists (path : string) : M bool :=
  gets (fun s => match fs s !! path with Some _ => true | None => false end).

Definition os_path_getmtime (path : string) : M Z :=
  let! o := gets (fun s => fs s !! path) in
  match o with
  | Some n => ret (mtime n)
  | None => raise FileNotFoundError
  end.

Definition os_listdir (path : string) : M (list string) :=
  let! o := gets (fun s => fs s !! path) in
  match o with
  | None => raise FileNotFoundError
  | Some n =>
      match kind n with
      | KFile _ => raise NotADirectoryError
      | KDir entries => ret entries
      | KRepo _ => ret [".git"]
      end
  end.

Definition os_makedirs (path : string) : M unit :=
  modify (fun s => set_fs (<[path := mkNode (KDir []) (clock s)]> (fs s)) s).

(** [open(path, 'r')] followed by reading: the whole content *)
Definition open_r (path : string) : M string :=
  let! o := gets (fun s => fs s !! path) in
  match o with
  | None => raise FileNotFoundError
  | Some n =>
      match kind n with
      | KFile c => ret c
      | _ => raise IsADirectoryError
      end
  end.

Definition put_file (path content : string) : M unit :=
  modify (fun s => set_clock (clock s + 1)
                     (set_fs (<[path := mkNode (KFile content) (clock s)]> (fs s)) s)).

(** [open(path, 'w')]: the file is created or truncated at once *)
Definition open_w (path : string) : M unit :=
  let! o := gets (fun s => fs s !! path) in
  match o with
  | Some (mkNode (KDir _) _) | Some (mkNode (KRepo _) _) => raise IsADirectoryError
  | _ => record (COpen path "w") >> put_file path ""
  end.

(** [open(path, 'a')]: the content is kept *)
Definition open_a (path : string) : M unit :=
  let! o := gets (fun s => fs s !! path) in
  match o with
  | Some (mkNode (KDir _) _) | Some (mkNode (KRepo _) _) => raise IsADirectoryError
  | Some (mkNode (KFile _) _) => record (COpen path "a")
  | None => record (COpen path "a") >> put_file path ""
  end.

(** [file.write(data)] on a file opened for writing at [path]: the data
    goes to the end of what the file holds. *)
Definition file_write (path data : string) : M unit :=
  let! o := gets (fun s => fs s !! path) in
  match o with
  | Some (mkNode (KFile c) _) => put_file path (c +:+ data)
  | _ => put_file path data
  end.

(** [shutil.copy] helper: [os.path.basename] *)
Definition basename (p : string) : string :=
  List.last (Py.split "/"%char p) "".

(** ** Ordered dictionaries ([collections.OrderedDict]) *)

Fixpoint od_get {V} (k : string) (d : list (string * V)) : option V :=
  match d with
  | [] => None
  | (k', v) :: d' => if String.eqb k k' then Some v else od_get k d'
  end.

(** [d[k] = v]: an existing key keeps its place *)
Fixpoint od_set {V} (k : string) (v : V) (d : list (string * V)) : list (string * V) :=
  match d with
  | [] => [(k, v)]
  | (k', v') :: d' =>
      if String.eqb k k' then (k', v) :: d' else (k', v') :: od_set k v d'
  end.

(** ** Formatting helpers *)

Definition dq : string := String "034"%char "".
Definition tab : string := String "009"%char "".

(** [str(x)] of an optional string inside [format] *)
Definition fmt_opt (o : option string) : string :=
  match o with
  | Some p => p
  | None => "None"
  end.

(** ** The builder *)

Section Builder.

Variable host : Host.
Variable config : Config.
Variable argv : list string.

Definition LEDE : string := "lede".
Definition LUCI : string := "luci".
Definition LINUX : string := "linux".
Definition CGMINER : string := "cgminer".
Definition FEEDS_CONF_SRC : string := "feeds.conf.default".
Definition FEEDS_CONF_DST : string := "feeds.conf".
Definition CONFIG_NAME : string := ".config".

(** [self._build_dir], fixed by [__init__] *)
Definition _build_dir : string :=
  Path.join (Path.abspath (getcwd host) (build_dir config)) [build_name config].

(** [_run(args..., path=..., output=..., init=...)]; any failure of
    [subprocess.run] (the command cannot start, or exits non-zero under
    [check=True]) is [CalledProcessError]. *)
Definition _run (args : list string) (path : list string) (output : bool)
    (init : option Z) : M (option string) :=
  let! cwd := gets _working_dir in
  let! env_path :=
    match path with
    | [] => ret None
    | _ :: _ =>
        match environ_PATH host with
        | Some p => ret (Some (Py.join ":" (path ++ [p])))
        | None => raise KeyError
        end
    end in
  match args with
  | [] => raise IndexError
  | _ :: _ =>
      match env_path with
      | Some p => logging DEBUG ("Set PATH environment variable to '" +:+ p +:+ "'")
      | None => ret tt
      end >>
      logging DEBUG ("Run '" +:+ Py.join " " args +:+ "' in '" +:+ fmt_opt cwd +:+ "'") >>
      let call := mkProcCall args cwd env_path output init in
      let! s := gets (fun s => s) in
      let r := run_process host (calls s) call (fs s) in
      record (CProc call) >>
      modify (set_fs (snd r)) >>
      if fst (fst r) then ret (if output then Some (snd (fst r)) else None)
      else raise CalledProcessError
  end.

(** [self._repos[name]] *)
Definition _get_repo (name : string) : M (option Repo) :=
  let! d := gets _repos in
  match od_get name d with
  | Some r => ret r
  | None => raise KeyError
  end.

(** [repo.working_dir] on what [_get_repo] returned *)
Definition attr_working_dir (repo : option Repo) : M string :=
  match repo with
  | Some r => ret (working_dir r)
  | None => raise AttributeError
  end.

Definition _get_repo_path (name : string) : string :=
  Path.join _build_dir [name].

Definition _get_config_paths : M (string * string) :=
  let! lede_dir := gets _working_dir in
  let config_src_path := Path.abspath (getcwd host) (build_config config) in
  let! lede_dir := fspath lede_dir in
  let config_dst_path := Path.join lede_dir [CONFIG_NAME] in
  ret (config_src_path, config_dst_path).

Definition CONFIG_LIBC_glibc : string := "CONFIG_LIBC=" +:+ dq +:+ "glibc" +:+ dq.

Definition _use_glibc : M bool :=
  let! paths := _get_config_paths in
  let config_path := fst paths in
  let! content := open_r config_path in
  ret (existsb (fun line => Py.startswith line CONFIG_LIBC_glibc) (Py.readlines content)).

Definition _get_hostname : string :=
  let mac := miner_mac config in
  "miner-" +:+ Py.lower (str_lower host) (Py.join "" (Py.last_n 3 (Py.split ":"%char mac))).

(** *** Repositories *)

Inductive GitOpen : Type :=
| Opened (r : Repo)
| NoSuchPathError
| InvalidGitRepositoryError.

(** [git.Repo(path)] *)
Definition git_Repo (path : string) : M GitOpen :=
  let! o := gets (fun s => fs s !! path) in
  ret match o with
      | None => NoSuchPathError
      | Some n =>
          match kind n with
          | KRepo _ => Opened (mkRepo path)
          | _ => InvalidGitRepositoryError
          end
      end.

(** The body of the loop of [_init_repos]; [error] is the local flag. *)
Definition init_repo (error : bool) (name : string) : M bool :=
  let path := _get_repo_path name in
  logging DEBUG ("Init repo '" +:+ name +:+ "' in '" +:+ path +:+ "'") >>
  let! o := git_Repo path in
  let! re :=
    match o with
    | Opened r => ret (Some r, error)
    | NoSuchPathError =>
        logging DEBUG ("Missing directory '" +:+ path +:+ "'") >> ret (None, error)
    | InvalidGitRepositoryError =>
        let! l := os_listdir path in
        match l with
        | _ :: _ =>
            logging ERROR ("Invalid Git repository '" +:+ path +:+ "'") >> ret (None, true)
        | [] =>
            logging WARNING ("Empty Git repository '" +:+ path +:+ "'") >> ret (None, error)
        end
    end in
  modify (fun s => set_repos (od_set name (fst re) (_repos s)) s) >>
  ret (snd re).

Fixpoint init_loop (names : list string) (error : bool) : M bool :=
  match names with
  | [] => ret error
  | name :: names' => let! error := init_repo error name in init_loop names' error
  end.

Definition _init_repos : M unit :=
  let! error := init_loop (remote_repos config) false in
  if error then raise BuilderStop else ret tt.

Definition __init__ : M unit :=
  modify (set_working_dir None) >>
  modify (set_repos []) >>
  _init_repos.

(** Reading and writing the state git keeps for a repository object *)
Definition repo_state (repo : Repo) : M RepoState :=
  let! o := gets (fun s => fs s !! working_dir repo) in
  match o with
  | Some (mkNode (KRepo st) _) => ret st
  | _ => raise GitCommandError
  end.

Definition put_repo_state (repo : Repo) (st : RepoState) : M unit :=
  modify (fun s => set_fs (<[working_dir repo := mkNode (KRepo st) (clock s)]> (fs s)) s).

(** [git.Repo.clone_from(uri, path, branch=branch, ...)] *)
Definition clone_from (uri path branch : string) : M Repo :=
  let! s := gets (fun s => s) in
  record (CGit (GClone uri path branch)) >>
  match git_clone host (calls s) (fs s) uri path branch with
  | Some st => put_repo_state (mkRepo path) st >> ret (mkRepo path)
  | None =>
      modify (set_fs (git_clone_left host (calls s) (fs s) uri path branch)) >>
      raise GitCommandError
  end.

(** [repo_remote.fetch()] *)
Definition remote_fetch (repo : Repo) (r : Remote) : M unit :=
  let! st := repo_state repo in
  let! h := gets calls in
  record (CGit (GFetch (working_dir repo) (remote_name r))) >>
  match git_fetch host h st (remote_name r) with
  | Some st' => put_repo_state repo st'
  | None => raise GitCommandError
  end.

(** [repo_remote.pull()] *)
Definition remote_pull (repo : Repo) (r : Remote) : M unit :=
  let! st := repo_state repo in
  let! h := gets calls in
  record (CGit (GPull (working_dir repo) (remote_name r))) >>
  match git_pull host h st (remote_name r) with
  | Some st' => put_repo_state repo st'
  | None => raise GitCommandError
  end.

(** [repo.create_head(branch, ref).set_tracking_branch(ref)] *)
Definition create_head (repo : Repo) (branch : string) (r : Remote) : M unit :=
  let! st := repo_state repo in
  record (CGit (GCreateHead (working_dir repo) branch (remote_name r))) >>
  put_repo_state repo
    (mkRepoState (heads st ++ [branch]) (active_branch st) (remotes st)
       (head_commit_diff st) (index_diff st) (untracked_files st)).

(** [branch.checkout()] *)
Definition checkout (repo : Repo) (branch : string) : M unit :=
  let! st := repo_state repo in
  let! h := gets calls in
  record (CGit (GCheckout (working_dir repo) branch)) >>
  if git_checkout_ok host h st branch then
    put_repo_state repo
      (mkRepoState (heads st) (Some branch) (remotes st)
         (head_commit_diff st) (index_diff st) (untracked_files st))
  else raise GitCommandError.

(** [repo.active_branch]: a detached HEAD raises [TypeError] *)
Definition repo_active_branch (repo : Repo) : M string :=
  let! st := repo_state repo in
  match active_branch st with
  | Some b => ret b
  | None => raise TypeError
  end.

(** Lines 201-213: look the repository up, then clone it, or fetch when
    asked to *)
Definition acquire_repo (remote : RemoteSpec) : M Repo :=
  let path := _get_repo_path (name remote) in
  let! repo := _get_repo (name remote) in
  logging DEBUG ("Start preparing remote '" +:+ name remote +:+ "' in '" +:+ path +:+ "'") >>
  match repo with
  | None =>
      logging INFO ("Cloning remote '" +:+ name remote +:+ "'") >>
      let! r := clone_from (uri remote) path (branch remote) in
      modify (fun s => set_repos (od_set (name remote) (Some r) (_repos s)) s) >>
      ret r
  | Some r =>
      (if fetch remote then
         logging INFO ("Fetching remote '" +:+ name remote +:+ "'") >>
         let! st := repo_state r in
         for_ (remotes st) (remote_fetch r)
       else ret tt) >>
      ret r
  end.

(** Lines 215-222: the [for ... else] over the remotes of the repository *)
Fixpoint track_branch (repo : Repo) (branch : string) (rs : list Remote) : M unit :=
  match rs with
  | [] =>
      logging ERROR ("Branch '" +:+ branch +:+ "' does not exist") >>
      raise BuilderStop
  | r :: rs' =>
      if Py.mem branch (refs r) then create_head repo branch r
      else track_branch repo branch rs'
  end.

(** Lines 214-222 *)
Definition ensure_branch (remote : RemoteSpec) (repo : Repo) : M unit :=
  let! st := repo_state repo in
  if negb (Py.mem (branch remote) (heads st))
  then track_branch repo (branch remote) (remotes st)
  else ret tt.

(** Lines 223-228 *)
Definition switch_and_pull (remote : RemoteSpec) (repo : Repo) : M unit :=
  let! st := repo_state repo in
  (if Py.mem (branch remote) (heads st) then ret tt else raise IndexError) >>
  let! active := repo_active_branch repo in
  when (negb (String.eqb active (branch remote))) (checkout repo (branch remote)) >>
  when (fetch remote)
    (let! st := repo_state repo in for_ (remotes st) (remote_pull repo)).

Definition _prepare_repo (remote : RemoteSpec) : M unit :=
  let! repo := acquire_repo remote in
  ensure_branch remote repo >>
  switch_and_pull remote repo.

(** *** Feeds and configuration *)

Definition yes (v : string) : bool := String.eqb v "yes".

Definition _prepare_feeds : M unit :=
  logging INFO "Preparing feeds..." >>
  let! lede_dir := gets _working_dir in
  let! luci := _get_repo LUCI in
  let! luci_dir := attr_working_dir luci in
  let! lede_dir := fspath lede_dir in
  let feeds_src_path := Path.join lede_dir [FEEDS_CONF_SRC] in
  let feeds_dst_path := Path.join lede_dir [FEEDS_CONF_DST] in
  let feeds_create := yes (feeds_create_always config) in
  let feeds_update := yes (feeds_update_always config) in
  let feeds_install := yes (feeds_install_always config) in
  let! present := os_path_exists feeds_dst_path in
  let! flags :=
    if negb present || feeds_create then
      logging DEBUG ("Creating '" +:+ feeds_dst_path +:+ "'") >>
      let! feeds_src := open_r feeds_src_path in
      open_w feeds_dst_path >>
      for_ (Py.readlines feeds_src)
        (fun line => when (negb (Py.contains LUCI line)) (file_write feeds_dst_path line)) >>
      file_write feeds_dst_path ("src-link " +:+ LUCI +:+ " " +:+ luci_dir +:+ Py.nl) >>
      ret (true, true)
    else ret (feeds_update, feeds_install) in
  when (fst flags)
    (logging DEBUG "Updating feeds" >>
     _run [Path.join "scripts" ["feeds"]; "update"; "-a"] [] false None >> ret tt) >>
  when (snd flags)
    (logging DEBUG "Installing feeds" >>
     _run [Path.join "scripts" ["feeds"]; "install"; "-a"] [] false None >> ret tt).

(** [shutil.copy(src, dst)] *)
Definition shutil_copy (src dst : string) : M unit :=
  let! o := gets (fun s => fs s !! dst) in
  let dst :=
    match o with
    | Some (mkNode (KDir _) _) | Some (mkNode (KRepo _) _) => Path.join dst [basename src]
    | _ => dst
    end in
  if String.eqb src dst then raise SameFileError
  else
    let! content := open_r src in
    open_w dst >> file_write dst content.

Definition _prepare_config : M unit :=
  logging INFO "Preparing config..." >>
  let! linux := _get_repo LINUX in
  let! linux_dir := attr_working_dir linux in
  let! cgminer := _get_repo CGMINER in
  let! cgminer_dir := attr_working_dir cgminer in
  let! paths := _get_config_paths in
  let config_src_path := fst paths in
  let config_dst_path := snd paths in
  let config_copy := yes (build_config_always config) in
  let! present := os_path_exists config_dst_path in
  let default_config := negb present in
  when default_config
    (logging DEBUG "Creating default configuration" >>
     _run ["make"; "defconfig"] [] false None >> ret tt) >>
  let! config_src_time := os_path_getmtime config_src_path in
  let! config_dst_time := os_path_getmtime config_dst_path in
  when (default_config || (config_dst_time <? config_src_time)%Z || config_copy)
    (logging DEBUG ("Copy config from '" +:+ config_src_path +:+ "'") >>
     shutil_copy config_src_path config_dst_path >>
     logging DEBUG ("Set external kernel tree to '" +:+ linux_dir +:+ "'") >>
     logging DEBUG ("Set external CGMiner tree to '" +:+ cgminer_dir +:+ "'") >>
     open_a config_dst_path >>
     file_write config_dst_path
       ("CONFIG_EXTERNAL_KERNEL_TREE=" +:+ dq +:+ linux_dir +:+ dq +:+ Py.nl) >>
     file_write config_dst_path
       ("CONFIG_EXTERNAL_CGMINER_TREE=" +:+ dq +:+ cgminer_dir +:+ dq +:+ Py.nl) >>
     logging DEBUG "Creating full configuration file" >>
     _run ["make"; "defconfig"] [] false None >> ret tt).

(** [output.decode('utf-8')] *)
Definition decode_utf8 (output : option string) : M string :=
  match output with
  | None => raise AttributeError
  | Some b => if Py.utf8_valid b then ret b else raise UnicodeDecodeError
  end.

(** The keys the builder writes itself and keeps out of the stored diff *)
Definition configs : list string :=
  ["CONFIG_EXTERNAL_KERNEL_TREE"; "CONFIG_EXTERNAL_CGMINER_TREE"].

Definition _config_lede : M unit :=
  let! paths := _get_config_paths in
  let config_dst_path := fst paths in
  let config_src_path := snd paths in
  let! config_src_time := os_path_getmtime config_src_path in
  _run ["make"; "menuconfig"] [] false None >>
  let! t := os_path_getmtime config_src_path in
  if (t =? config_src_time)%Z then
    logging INFO "Configuration file has not been changed"
  else
    logging INFO ("Saving changes in configuration to '" +:+ config_dst_path +:+ "'...") >>
    open_w config_dst_path >>
    let! output := _run [Path.join "scripts" ["diffconfig.sh"]] [] true None in
    let! text := decode_utf8 output in
    for_ (Py.splitlines text)
      (fun line =>
         when (negb (existsb (fun c => Py.startswith line c) configs))
           (file_write config_dst_path line >> file_write config_dst_path Py.nl)).

Definition _config_kernel : M unit :=
  _run ["make"; "kernel_menuconfig"] [] false None >> ret tt.

(** Lines 341-344 of [prepare] *)
Definition make_build_dir : M unit :=
  logging INFO "Preparing build directory...'" >>
  let! present := os_path_exists _build_dir in
  when (negb present)
    (logging DEBUG ("Creating build directory '" +:+ _build_dir +:+ "'") >>
     os_makedirs _build_dir).

Definition prepare (fetch : bool) : M unit :=
  make_build_dir >>
  for_ (RemoteWalker host fetch) _prepare_repo >>
  let! lede := _get_repo LEDE in
  let! lede_dir := attr_working_dir lede in
  modify (set_working_dir (Some lede_dir)) >>
  _prepare_feeds >>
  _prepare_config.

Definition config_ (kernel : bool) : M unit :=
  if negb kernel then
    logging INFO "Start LEDE configuration...'" >> _config_lede
  else
    logging INFO "Start Linux kernel configuration...'" >> _config_kernel.

(** *** Deployment *)

(** One operation on the device behind [lede.ssh.SSHManager] and its
    file-transfer channel; a failing operation raises. *)
Definition remote_call (c : RemoteCall) : M Outcome :=
  let! h := gets calls in
  if device_ok host h c then
    let o := match c with
             | Listdir p => Listed (device_listdir host h p)
             | _ => Done
             end in
    record (CRemote c o) >> ret o
  else record (CRemote c Failed) >> raise RemoteError.

Definition remote_do (c : RemoteCall) : M unit :=
  remote_call c >> ret tt.

Definition sftp_listdir (path : string) : M (list string) :=
  let! o := remote_call (Listdir path) in
  match o with
  | Listed l => ret l
  | _ => ret []
  end.

Record Image : Type := mkImage { boot_bin : string; fit_itb : string }.

(** [_write_uenv(stream)], the stream being the remote file *)
Definition _write_uenv : M unit :=
  remote_do (FileWrite ("ethaddr=" +:+ miner_mac config +:+ Py.nl)).

Definition MARKER : string := ".extroot-uuid".
Definition MARKER_PATH : string := "etc/.extroot-uuid".

Definition _deploy_ssh_sd (image : Image) : M unit :=
  let hostname := deploy_ssh_hostname config in
  let password := deploy_ssh_password config in
  let username := deploy_ssh_username config in
  let hostname :=
    match hostname with
    | Some (String c h) => String c h
    | _ =>
        let hostname_suffix :=
          match deploy_ssh_hostname_suffix config with
          | Some x => x
          | None => ""
          end in
        _get_hostname +:+ hostname_suffix
    end in
  remote_do (Connect hostname username password) >>
  finally
    (remote_do OpenSftp >>
     remote_do (SshRun ["mount"; "/dev/mmcblk0p1"; "/mnt"]) >>
     remote_do (Chdir "/mnt") >>
     logging INFO "Creating 'uEnv.txt'..." >>
     remote_do (SftpOpen "uEnv.txt" "w") >>
     finally _write_uenv (remote_do FileClose) >>
     logging INFO "Loading 'BOOT.bin'..." >>
     remote_do (Put (boot_bin image) "BOOT.bin") >>
     logging INFO "Loading 'fit.itb'..." >>
     remote_do (Put (fit_itb image) "fit.itb") >>
     remote_do (SshRun ["umount"; "/mnt"]) >>
     remote_do (SshRun ["mount"; "/dev/mmcblk0p2"; "/mnt"]) >>
     remote_do (Chdir "/mnt") >>
     let! found :=
       if yes (deploy_remove_uuid config)
       then let! l := sftp_listdir "etc" in ret (Py.mem MARKER l)
       else ret false in
     when found
       (logging INFO "Removing extroot UUID..." >>
        remote_do (Remove MARKER_PATH)) >>
     remote_do (SshRun ["umount"; "/mnt"]) >>
     when (yes (deploy_reboot config)) (remote_do (SshRun ["reboot"])))
    (remote_do Disconnect).

Definition deploy : M unit :=
  let target := deploy_target config in
  logging INFO "Start deploying Miner firmware..." >>
  let! working_dir := gets _working_dir in
  let! glibc := _use_glibc in
  let! working_dir := fspath working_dir in
  let generic_dir :=
    Path.join working_dir
      ["bin"; "targets"; "zynq"; if negb glibc then "generic" else "generic-glibc"] in
  if String.eqb target "sd" then
    let image :=
      mkImage (Path.join generic_dir ["uboot-zynq-miner-sd"; "BOOT.bin"])
              (Path.join generic_dir ["lede-zynq-miner-sd-squashfs-fit.itb"]) in
    _deploy_ssh_sd image
  else
    logging ERROR ("Unsupported target '" +:+ target +:+ "' for firmware image").

(** *** Status *)

(** [s[0]] of a string *)
Definition first_char (s : string) : M string :=
  match s with
  | EmptyString => raise IndexError
  | String c _ => ret (String c "")
  end.

Definition get_diff_path (diff : Diff) : M string :=
  let! c := first_char (change_type diff) in
  if String.eqb c "R" then ret (a_path diff +:+ " -> " +:+ b_path diff)
  else ret (a_path diff).

Definition print_diffs (color : string) (diffs : list Diff) : M unit :=
  for_ diffs
    (fun d =>
       let! change_type := first_char (change_type d) in
       let! path := get_diff_path d in
       print [tab +:+ change_type; colored host path color]).

Definition nonempty {A} (l : list A) : bool :=
  match l with
  | [] => false
  | _ :: _ => true
  end.

(** A query of git on a working tree. GitPython runs the git executable
    for it; a command that fails raises [GitCommandError]. What the query
    answers is read from the state of the repository. *)
Definition git_query (q : GitCall) : M unit :=
  let! h := gets calls in
  record (CGit q) >>
  if git_query_ok host h q then ret tt else raise GitCommandError.

(** [repo.untracked_files], a property: every access asks git again *)
Definition repo_untracked_files (repo : Repo) : M (list string) :=
  git_query (GUntracked (working_dir repo)) >>
  let! st := repo_state repo in
  ret (untracked_files st).

(** The body of the loop of [status]; [clean] is the local flag. *)
Definition status_repo (item : string * option Repo) : M unit :=
  match snd item with
  | None => raise AttributeError
  | Some repo =>
      let! active := repo_active_branch repo in
      logging INFO ("Status for '" +:+ fst item +:+ "' (" +:+ active +:+ ")") >>
      git_query (GDiffHead (working_dir repo)) >>
      let! st := repo_state repo in
      let indexed_files := head_commit_diff st in
      when (nonempty indexed_files)
        (print ["Changes to be committed:"] >>
         print_diffs "green" indexed_files >>
         print []) >>
      git_query (GDiffIndex (working_dir repo)) >>
      let! st := repo_state repo in
      let staged_files := index_diff st in
      when (nonempty staged_files)
        (print ["Changes not staged for commit:"] >>
         print_diffs "red" staged_files >>
         print []) >>
      let! untracked := repo_untracked_files repo in
      when (nonempty untracked)
        (print ["Untracked files:"] >>
         let! untracked := repo_untracked_files repo in
         for_ untracked
           (fun f => print [colored host (tab +:+ f) "red"]) >>
         print []) >>
      let clean := negb (nonempty indexed_files) && negb (nonempty staged_files)
                   && negb (nonempty untracked) in
      when clean
        (print ["nothing to commit, working tree clean"] >> print [])
  end.

Definition status : M unit :=
  let! items := gets _repos in
  for_ items status_repo.

(** *** Toolchain *)

Definition target_name (glibc : bool) : string :=
  if glibc then "target-arm_cortex-a9+neon_glibc-2.24_eabi"
  else "target-arm_cortex-a9+neon_musl-1.1.16_eabi".

Definition toolchain_name (glibc : bool) : string :=
  if glibc then "toolchain-arm_cortex-a9+neon_gcc-5.4.0_glibc-2.24_eabi"
  else "toolchain-arm_cortex-a9+neon_gcc-5.4.0_musl-1.1.16_eabi".

Definition export_staging_line : string :=
  "export STAGING_DIR=" +:+ dq +:+ "${TARGET}" +:+ dq +:+ ";" +:+ Py.nl.

Definition export_path_line : string :=
  "export PATH=" +:+ dq +:+ "${TOOLCHAIN}/bin:$PATH" +:+ dq +:+ ";" +:+ Py.nl.

Definition toolchain : M unit :=
  logging INFO "Preparing toolchain environment...'" >>
  let! glibc := _use_glibc in
  let! working_dir := gets _working_dir in
  let! working_dir := fspath working_dir in
  let staging_dir := Path.join working_dir ["staging_dir"] in
  let target_dir := Path.join staging_dir [target_name glibc] in
  let toolchain_dir := Path.join staging_dir [toolchain_name glibc] in
  let! target_present := os_path_exists target_dir in
  if negb target_present then
    let msg := "Target directory '" +:+ target_dir +:+ "' does not exist" in
    logging ERROR msg >>
    sys_stdout_write ("echo " +:+ msg +:+ ";" +:+ Py.nl) >>
    raise BuilderStop
  else
    let! toolchain_present := os_path_exists toolchain_dir in
    if negb toolchain_present then
      let msg := "Toolchain directory '" +:+ toolchain_dir +:+ "' does not exist" in
      logging ERROR msg >>
      sys_stdout_write ("echo " +:+ msg +:+ ";" +:+ Py.nl) >>
      raise BuilderStop
    else
      let env_path := match environ_PATH host with Some p => p | None => "" end in
      sys_stderr_write ("# set environment with command:" +:+ Py.nl) >>
      sys_stderr_write
        ("# eval $(./lede.py " +:+ Py.join " " argv +:+ " 2>/dev/null)" +:+ Py.nl) >>
      sys_stdout_write ("TARGET=" +:+ dq +:+ target_dir +:+ dq +:+ ";" +:+ Py.nl) >>
      sys_stdout_write ("TOOLCHAIN=" +:+ dq +:+ toolchain_dir +:+ dq +:+ ";" +:+ Py.nl) >>
      sys_stdout_write export_staging_line >>
      when (negb (Py.contains (toolchain_dir +:+ "/bin") env_path))
        (sys_stdout_write export_path_line).

End Builder.

(** ** The remaining methods: [clean], [build], [debug] *)

(** The keys under [build] that only [Builder.build] reads *)
Record BuildKeys : Type := mkBuildKeys {
  build_jobs : option Z;                    (* [build.get('jobs', 1)] *)
  build_verbose : option string;            (* [build.get('verbose', 'no')] *)
  build_xilinx_sdk : string;
  build_aliases : list (string * string)    (* the mapping [build.aliases] *)
}.

(** [str(n)] of an integer, as [format] prints it *)
Definition str_of_int (z : Z) : string := NilZero.string_of_int (Z.to_int z).

Section BuilderRest.

Variable host : Host.
Variable keys : BuildKeys.
(** [os.path.expanduser], which reads the user database of the machine *)
Variable expanduser : string -> string.

(** [repo.git.clean('-dxf')]: GitPython runs the git executable in the
    working tree and raises [GitCommandError] when it fails. *)
Definition git_clean (repo : Repo) : M unit :=
  let! s := gets (fun s => s) in
  let call := mkProcCall ["git"; "clean"; "-dxf"] (Some (working_dir repo)) None true None in
  let r := run_process host (calls s) call (fs s) in
  record (CProc call) >>
  modify (set_fs (snd r)) >>
  if fst (fst r) then ret tt else raise GitCommandError.

(** The body of the loop of [clean] *)
Definition purge_repo (item : string * option Repo) : M unit :=
  match snd item with
  | None => ret tt
  | Some repo =>
      logging DEBUG ("Purging '" +:+ fst item +:+ "'") >>
      git_clean repo
  end.

Definition clean (purge : bool) : M unit :=
  logging INFO "Start cleaning LEDE build directory...'" >>
  if negb purge then
    _run host ["make"; "clean"] [] false None >> ret tt
  else
    let! items := gets _repos in
    for_ items purge_repo.

(** [aliases[target]] *)
Definition alias_of (target : string) : M string :=
  match od_get target (build_aliases keys) with
  | Some a => ret a
  | None => raise KeyError
  end.

(** The generator ['{}/install'.format(aliases[target]) for target in targets] *)
Fixpoint install_targets (targets : list string) : M (list string) :=
  match targets with
  | [] => ret []
  | target :: targets' =>
      let! a := alias_of target in
      let! rest := install_targets targets' in
      ret ((a +:+ "/install") :: rest)
  end.

(** [build(targets, verbose)]; no targets is [None] or the empty list *)
Definition build (targets : list string) (verbose : bool) : M unit :=
  logging INFO "Start building LEDE...'" >>
  let jobs := match build_jobs keys with Some j => j | None => 1%Z end in
  let verbose :=
    verbose || yes (match build_verbose keys with Some v => v | None => "no" end) in
  let xilinx_sdk := Path.abspath (getcwd host) (expanduser (build_xilinx_sdk keys)) in
  let xilinx_bin := Path.join xilinx_sdk ["bin"] in
  let args := ["make"; "-j" +:+ str_of_int jobs] ++ (if verbose then ["V=s"] else []) in
  let! extra := install_targets targets in
  _run host (args ++ extra) [xilinx_bin] false (Some 18%Z) >> ret tt.

Definition debug : M unit := ret tt.

End BuilderRest.

(** ** Relations between the state before and after a step *)

(** [m] relates every state to the state it leaves *)
Definition stepwise {A} (R : State -> State -> Prop) (m : M A) : Prop :=
  forall s, R s (snd (m s)).

(** Only the log and the standard streams may differ. *)
Definition same_world (s s' : State) : Prop :=
  fs s' = fs s /\ calls s' = calls s /\ _repos s' = _repos s
  /\ _working_dir s' = _working_dir s /\ clock s' = clock s.

(** The builder object is the same. *)
Definition same_store (s s' : State) : Prop :=
  _repos s' = _repos s /\ _working_dir s' = _working_dir s.

(** The calls made in between all satisfy [P]. *)
Definition calls_all (P : Call -> bool) (s s' : State) : Prop :=
  exists new, calls s' = calls s ++ new /\ forallb P new = true.

(** The queries of [status] *)
Definition is_git_query (c : Call) : bool :=
  match c with
  | CGit (GDiffHead _) | CGit (GDiffIndex _) | CGit (GUntracked _) => true
  | _ => false
  end.

(** The call [clean] makes in the working tree of [repo] *)
Definition git_clean_call (repo : Repo) : ProcCall :=
  mkProcCall ["git"; "clean"; "-dxf"] (Some (working_dir repo)) None true None.

(** The files once the processes [cs] have run one after the other, the
    first of them after the calls [h] *)
Fixpoint files_after (host : Host) (h : list Call) (cs : list ProcCall)
    (files : gmap string Node) : gmap string Node :=
  match cs with
  | [] => files
  | c :: cs' => files_after host (h ++ [CProc c]) cs' (snd (run_process host h c files))
  end.

(** Does the process at position [i] of [cs] exit with status zero, when
    the ones before it have run? (Yes, past the end of [cs].) *)
Definition exits_ok (host : Host) (h : list Call) (files : gmap string Node)
    (cs : list ProcCall) (i : nat) : bool :=
  match nth_error cs i with
  | Some c =>
      fst (fst (run_process host (h ++ map CProc (take i cs)) c
                  (files_after host h (take i cs) files)))
  | None => true
  end.

(** Git operations that stay on the local disk *)
Definition is_local_git (c : Call) : bool :=
  match c with
  | CGit (GCreateHead _ _ _) | CGit (GCheckout _ _) => true
  | _ => false
  end.

Definition is_remote (c : Call) : bool :=
  match c with
  | CRemote _ _ => true
  | _ => false
  end.

Definition is_failed (c : Call) : bool :=
  match c with
  | CRemote _ Failed => true
  | _ => false
  end.

Definition is_listdir (c : Call) : bool :=
  match c with
  | CRemote (Listdir _) _ => true
  | _ => false
  end.

Definition is_reboot (c : Call) : bool :=
  match c with
  | CRemote (SshRun ["reboot"]) _ => true
  | _ => false
  end.

Definition is_connect (c : Call) : bool :=
  match c with
  | CRemote (Connect _ _ _) _ => true
  | _ => false
  end.

Definition is_disconnect (c : Call) : bool :=
  match c with
  | CRemote Disconnect _ => true
  | _ => false
  end.

(** Nothing but the device was worked on: every call in between is an
    operation of the SSH session, and local files and builder object are
    what they were. *)
Definition device_only (s s' : State) : Prop :=
  calls_all is_remote s s' /\ fs s' = fs s /\ same_store s s'.

(** The session bracket of a deployment: either the connection failed and
    nothing else was tried, or it succeeded and the one [Disconnect] is the
    last call. *)
Definition session_bracket (new : list Call) : bool :=
  match new with
  | [CRemote (Connect _ _ _) Failed] => true
  | CRemote (Connect _ _ _) Done :: rest =>
      is_disconnect (List.last rest (COpen "" ""))
      && Nat.eqb (length (List.filter is_disconnect rest)) 1
      && negb (existsb is_connect rest)
  | _ => false
  end.

(** No remote file is left open: every successful [SftpOpen] is followed
    by a [FileClose]. [opened] tells whether a file is open so far. *)
Fixpoint file_bracket (opened : bool) (cs : list Call) : bool :=
  match cs with
  | [] => negb opened
  | CRemote (SftpOpen _ _) Done :: cs' => file_bracket true cs'
  | CRemote FileClose _ :: cs' => file_bracket false cs'
  | _ :: cs' => file_bracket opened cs'
  end.

(** The hostname [_deploy_ssh_sd] connects to *)
Definition deploy_hostname (host : Host) (config : Config) : string :=
  match deploy_ssh_hostname config with
  | Some (String c h) => String c h
  | _ =>
      _get_hostname host config
      +:+ match deploy_ssh_hostname_suffix config with
          | Some x => x
          | None => ""
          end
  end.

(** The character [c] does not occur in [s] *)
Fixpoint no_char (c : ascii) (s : string) : bool :=
  match s with
  | EmptyString => true
  | String a s' => negb (Py.eqb_ascii a c) && no_char c s'
  end.

(** ** What the properties are stated with *)

(** The answer of the glibc test on the file at [path], when it is a
    readable regular file. *)
Definition glibc_flag_at (files : gmap string Node) (path : string) : option bool :=
  match files !! path with
  | Some (mkNode (KFile c) _) =>
      Some (existsb (fun line => Py.startswith line CONFIG_LIBC_glibc) (Py.readlines c))
  | _ => None
  end.

(** [dir] is one of the components of a PATH value *)
Definition is_path_component (dir env_path : string) : bool :=
  Py.mem dir (Py.split ":"%char env_path).

(** The same host with another value of the PATH environment variable *)
Definition with_PATH (p : option string) (h : Host) : Host :=
  mkHost (getcwd h) p (run_process h) (git_clone h) (git_clone_left h) (git_fetch h)
    (git_pull h) (git_checkout_ok h) (git_query_ok h) (RemoteWalker h) (colored h)
    (device_ok h) (device_listdir h) (str_lower h).

(** The value [os.environ.get('PATH', '')] *)
Definition env_path_of (h : Host) : string :=
  match environ_PATH h with
  | Some p => p
  | None => ""
  end.

(** The directories [toolchain] resolves below the working directory [d] *)
Definition target_dir_of (d : string) (glibc : bool) : string :=
  Path.join (Path.join d ["staging_dir"]) [target_name glibc].
Definition toolchain_dir_of (d : string) (glibc : bool) : string :=
  Path.join (Path.join d ["staging_dir"]) [toolchain_name glibc].
Definition toolchain_bin_of (d : string) (glibc : bool) : string :=
  toolchain_dir_of d glibc +:+ "/bin".

(** The three bindings [toolchain] always writes to stdout on success *)
Definition toolchain_bindings (d : string) (glibc : bool) : list string :=
  ["TARGET=" +:+ dq +:+ target_dir_of d glibc +:+ dq +:+ ";" +:+ Py.nl;
   "TOOLCHAIN=" +:+ dq +:+ toolchain_dir_of d glibc +:+ dq +:+ ";" +:+ Py.nl;
   export_staging_line].

(** What [_init_repos] finds at a repository path *)
Definition invalid_nonempty (files : gmap string Node) (path : string) : bool :=
  match files !! path with
  | Some (mkNode (KDir (_ :: _)) _) => true
  | _ => false
  end.

Definition is_regular_file (files : gmap string Node) (path : string) : bool :=
  match files !! path with
  | Some (mkNode (KFile _) _) => true
  | _ => false
  end.

(** The repository object [_init_repos] stores for a path *)
Definition probe (files : gmap string Node) (path : string) : option Repo :=
  match files !! path with
  | Some (mkNode (KRepo _) _) => Some (mkRepo path)
  | _ => None
  end.

(** The log lines of one round of the loop of [_init_repos] *)
Definition init_entries (host : Host) (config : Config) (files : gmap string Node)
    (name : string) : list (Level * string) :=
  let path := _get_repo_path host config name in
  (DEBUG, "Init repo '" +:+ name +:+ "' in '" +:+ path +:+ "'")
  :: match files !! path with
     | None => [(DEBUG, "Missing directory '" +:+ path +:+ "'")]
     | Some (mkNode (KDir []) _) => [(WARNING, "Empty Git repository '" +:+ path +:+ "'")]
     | Some (mkNode (KDir (_ :: _)) _) => [(ERROR, "Invalid Git repository '" +:+ path +:+ "'")]
     | Some _ => []
     end.


(** The store after the loop of [_init_repos] over [names] *)
Definition stored (host : Host) (config : Config) (files : gmap string Node)
    (names : list string) (d : list (string * option Repo)) :
    list (string * option Repo) :=
  fold_left (fun d name => od_set name (probe files (_get_repo_path host config name)) d)
    names d.

(** The state right after [acquire_repo] cloned the repository of
    [remote] with git answering [st] *)
Definition cloned (host : Host) (config : Config) (remote : RemoteSpec)
    (st : RepoState) (s : State) : State :=
  let path := _get_repo_path host config (name remote) in
  set_repos (od_set (name remote) (Some (mkRepo path)) (_repos s))
    (set_fs (<[path := mkNode (KRepo st) (clock s)]> (fs s))
       (set_calls (calls s ++ [CGit (GClone (uri remote) path (branch remote))])
          (set_log (log s ++ [(DEBUG, "Start preparing remote '" +:+ name remote
                                      +:+ "' in '" +:+ path +:+ "'");
                              (INFO, "Cloning remote '" +:+ name remote +:+ "'")]) s))).

(** The error line of [_prepare_repo] *)
Definition branch_missing (branch : string) : Level * string :=
  (ERROR, "Branch '" +:+ branch +:+ "' does not exist").

(** The same state with [l] in front of its log *)
Definition relog (l : list (Level * string)) (s : State) : State :=
  set_log (l ++ log s) s.

(** A computation that neither reads the log nor does anything to it but
    add lines at its end *)
Definition log_framed {A} (m : M A) : Prop :=
  forall l s, m (relog l s) = (fst (m s), relog l (snd (m s))).

(** A line of the extracted diff that starts with one of the derived keys *)
Definition is_derived (line : string) : bool :=
  existsb (fun c => Py.startswith line c) configs.

(** The lines of the diff that [_config_lede] stores *)
Definition kept_lines (text : string) : list string :=
  List.filter (fun line => negb (is_derived line)) (Py.splitlines text).

(** What writing each line followed by a newline produces *)
Fixpoint unlines (ls : list string) : string :=
  match ls with
  | [] => ""
  | l :: ls' => l +:+ Py.nl +:+ unlines ls'
  end.

Definition is_directory (files : gmap string Node) (path : string) : bool :=
  match files !! path with
  | Some (mkNode (KDir _) _) | Some (mkNode (KRepo _) _) => true
  | _ => false
  end.

(** No line feed and no carriage return *)
Fixpoint no_eol (s : string) : bool :=
  match s with
  | EmptyString => true
  | String c s' => negb (Py.eqb_ascii c Py.LF) && negb (Py.eqb_ascii c Py.CR) && no_eol s'
  end.

(** No line feed *)
Fixpoint no_lf (s : string) : bool :=
  match s with
  | EmptyString => true
  | String c s' => negb (Py.eqb_ascii c Py.LF) && no_lf s'
  end.

(** The calls [_config_lede] makes to the build system *)
Definition menuconfig_call (d : string) : ProcCall :=
  mkProcCall ["make"; "menuconfig"] (Some d) None false None.
Definition diffconfig_call (d : string) : ProcCall :=
  mkProcCall [Path.join "scripts" ["diffconfig.sh"]] (Some d) None true None.

(** Between two call histories only external processes were run: no file
    was opened for writing, no git or device operation was made. *)
Definition only_processes (before after : list Call) : Prop :=
  exists procs, after = before ++ map CProc procs.

(** The external processes of the host leave the file at [path] alone. *)
Definition keeps (host : Host) (path : string) : Prop :=
  forall h c files, snd (run_process host h c files) !! path = files !! path.

(** A step of the builder that writes no file itself *)
Definition quiet (host : Host) (path : string) (s s' : State) : Prop :=
  _working_dir s' = _working_dir s
  /\ only_processes (calls s) (calls s')
  /\ (keeps host path -> fs s' !! path = fs s !! path).

(** The commands of the deployment that mount and unmount *)
Definition mount1 : RemoteCall := SshRun ["mount"; "/dev/mmcblk0p1"; "/mnt"].
Definition mount2 : RemoteCall := SshRun ["mount"; "/dev/mmcblk0p2"; "/mnt"].
Definition umount : RemoteCall := SshRun ["umount"; "/mnt"].

(** The mount and unmount commands of a history, in order *)
Fixpoint mounting (cs : list Call) : list RemoteCall :=
  match cs with
  | [] => []
  | CRemote (SshRun (cmd :: args)) _ :: cs' =>
      if String.eqb cmd "mount" || String.eqb cmd "umount"
      then SshRun (cmd :: args) :: mounting cs'
      else mounting cs'
  | _ :: cs' => mounting cs'
  end.

(** The paths of the remove calls of a history, in order *)
Fixpoint removes (cs : list Call) : list string :=
  match cs with
  | [] => []
  | CRemote (Remove p) _ :: cs' => p :: removes cs'
  | _ :: cs' => removes cs'
  end.

(** The history has exactly one remove call, on the marker file, placed
    after the first mount and unmount and the second mount, and before any
    further unmount. *)
Definition removed_in_window (new : list Call) : Prop :=
  exists pre o post,
    new = pre ++ CRemote (Remove MARKER_PATH) o :: post
    /\ mounting pre = [mount1; umount; mount2]
    /\ removes pre = []
    /\ removes post = []
    /\ (mounting post = [] \/ mounting post = [umount]).

(** What a history does about the marker file, given the listing of
    [etc] it obtained *)
Definition marker_handling (new : list Call) : Prop :=
  forall l, In (CRemote (Listdir "etc") (Listed l)) new ->
            if Py.mem MARKER l then removed_in_window new else removes new = [].

(** A computation that is quiet from every state *)
Definition quiet_from (host : Host) (path : string) {A} (m : M A) : Prop :=
  forall s, quiet host path s (snd (m s)).

(** All the strings of a list, one after the other *)
Fixpoint concat_all (ls : list string) : string :=
  match ls with
  | [] => ""
  | l :: ls' => l +:+ concat_all ls'
  end.

(** The lines of the feeds template that [_prepare_feeds] takes over *)
Definition kept_feeds (template : string) : list string :=
  List.filter (fun line => negb (Py.contains LUCI line)) (Py.readlines template).

(** The manifest [_prepare_feeds] writes from a template *)
Definition feeds_manifest (template luci_dir : string) : string :=
  concat_all (kept_feeds template) +:+ "src-link " +:+ LUCI +:+ " " +:+ luci_dir +:+ Py.nl.

Definition feeds_call (d action : string) : ProcCall :=
  mkProcCall [Path.join "scripts" ["feeds"]; action; "-a"] (Some d) None false None.
Definition defconfig_call (d : string) : ProcCall :=
  mkProcCall ["make"; "defconfig"] (Some d) None false None.

(** The two lines [_prepare_config] appends to the generated configuration *)
Definition kernel_tree_line (linux_dir : string) : string :=
  "CONFIG_EXTERNAL_KERNEL_TREE=" +:+ dq +:+ linux_dir +:+ dq +:+ Py.nl.
Definition cgminer_tree_line (cgminer_dir : string) : string :=
  "CONFIG_EXTERNAL_CGMINER_TREE=" +:+ dq +:+ cgminer_dir +:+ dq +:+ Py.nl.

(** ** A concrete machine, used to run the methods on examples *)

Module Sample.

Definition file (c : string) : Node := mkNode (KFile c) 10.
Definition dir (l : list string) : Node := mkNode (KDir l) 10.

Definition cfg (target : string) : Config :=
  mkConfig "build" "miner" "configs/miner.config" "no"
    ["lede"; "luci"; "linux"; "cgminer"]
    "no" "no" "no"
    "00:0A:35:FF:EE:01"
    target None None "root" None "yes" "no".

Definition lede_dir : string := "/home/u/build/miner/lede".

Definition host (env_path : option string) : Host :=
  mkHost "/home/u" env_path
    (fun _ _ files => (true, "", files))
    (fun _ _ _ _ b => Some (mkRepoState [b] (Some b) [mkRemote "origin" [b]] [] [] []))
    (fun _ files _ _ _ => files)
    (fun _ st _ => Some st)
    (fun _ st _ => Some st)
    (fun _ _ _ => true)
    (fun _ _ => true)
    (fun f => [mkRemoteSpec "lede" "https://git.example/lede.git" "master" f])
    (fun text _ => text)
    (fun _ _ => true)
    (fun _ _ => [".extroot-uuid"; "passwd"])
    (fun text => text).

Definition glibc_line : string := CONFIG_LIBC_glibc +:+ Py.nl.

(** The authored configuration selects glibc, the generated one in the
    build tree does not mention it. *)
Definition files : gmap string Node :=
  <["/home/u/configs/miner.config" := file ("CONFIG_TARGET_zynq=y" +:+ Py.nl +:+ glibc_line)]>
  (<["/home/u/build/miner/lede/.config" := file ("CONFIG_TARGET_zynq=y" +:+ Py.nl)]>
  (<["/home/u/build/miner/lede/staging_dir/target-arm_cortex-a9+neon_glibc-2.24_eabi" := dir []]>
  (<["/home/u/build/miner/lede/staging_dir/toolchain-arm_cortex-a9+neon_gcc-5.4.0_glibc-2.24_eabi" := dir ["bin"]]>
   ∅))).

Definition st (files : gmap string Node) : State :=
  mkState (Some lede_dir) [] files 100 [] [] [] [].

Definition repo_at (b : string) : Node :=
  mkNode (KRepo (mkRepoState [b] (Some b) [mkRemote "origin" [b]] []
                   [mkDiff "M" "Makefile" "Makefile"] ["notes.txt"])) 10.

(** [lede] is cloned, [luci] is not, [linux] is. *)
Definition status_repos : list (string * option Repo) :=
  [("lede", Some (mkRepo "/home/u/build/miner/lede"));
   ("luci", None);
   ("linux", Some (mkRepo "/home/u/build/miner/linux"))].

Definition status_files : gmap string Node :=
  <["/home/u/build/miner/lede" := repo_at "master"]>
  (<["/home/u/build/miner/linux" := repo_at "miner"]> ∅).

Definition status_st : State :=
  mkState None status_repos status_files 100 [] [] [] [].

(** [lede] is a repository, [luci] and [cgminer] hold stray files,
    [linux] is missing. *)
Definition init_files : gmap string Node :=
  <["/home/u/build/miner/lede" := repo_at "master"]>
  (<["/home/u/build/miner/luci" := dir ["README"]]>
  (<["/home/u/build/miner/cgminer" := dir ["a.out"; "core"]]> ∅)).

Definition init_st : State := mkState None [] init_files 100 [] [] [] [].

(** A host whose [RemoteWalker] yields the given repositories *)
Definition host_walking (walk : list RemoteSpec) : Host :=
  mkHost "/home/u" None
    (fun _ _ files => (true, "", files))
    (fun _ _ _ _ b => Some (mkRepoState [b] (Some b) [mkRemote "origin" [b]] [] [] []))
    (fun _ files _ _ _ => files)
    (fun _ st _ => Some st)
    (fun _ st _ => Some st)
    (fun _ _ _ => true)
    (fun _ _ => true)
    (fun _ => walk)
    (fun text _ => text)
    (fun _ _ => true)
    (fun _ _ => [])
    (fun text => text).

Definition lede_spec : RemoteSpec :=
  mkRemoteSpec "lede" "https://git.example/lede.git" "master" false.
Definition luci_spec : RemoteSpec :=
  mkRemoteSpec "luci" "https://git.example/luci.git" "v9" false.
Definition linux_spec : RemoteSpec :=
  mkRemoteSpec "linux" "https://git.example/linux.git" "master" false.

(** [lede] and [luci] are cloned, both with the single branch [master]
    locally and on [origin]; [linux] is not cloned. *)
Definition prepare_files : gmap string Node :=
  <["/home/u/build/miner" := dir ["lede"; "luci"]]>
  (<["/home/u/build/miner/lede" := repo_at "master"]>
  (<["/home/u/build/miner/luci" := repo_at "master"]> ∅)).

Definition prepare_st : State :=
  mkState None
    [("lede", Some (mkRepo "/home/u/build/miner/lede"));
     ("luci", Some (mkRepo "/home/u/build/miner/luci"));
     ("linux", None)]
    prepare_files 100 [] [] [] [].

(** The directory of [luci] exists and is empty. *)
Definition empty_files : gmap string Node :=
  <["/home/u/build/miner/luci" := dir []]> ∅.

Definition empty_st : State := mkState None [] empty_files 100 [] [] [] [].

(** An interactive session that changed the generated configuration, and
    a diff helper that reports three settings, one of them derived. *)
Definition diff_output : string :=
  "CONFIG_PACKAGE_cgminer=y" +:+ Py.nl
  +:+ "CONFIG_EXTERNAL_KERNEL_TREE=" +:+ dq +:+ "/home/u/build/miner/linux" +:+ dq +:+ Py.nl
  +:+ "CONFIG_TARGET_zynq=y" +:+ Py.nl.

Definition editing_host : Host :=
  mkHost "/home/u" None
    (fun _ call files =>
       if Py.mem "menuconfig" (pc_args call)
       then (true, "", <["/home/u/build/miner/lede/.config" :=
                          mkNode (KFile ("CONFIG_TARGET_zynq=y" +:+ Py.nl)) 50]> files)
       else (true, diff_output, files))
    (fun _ _ _ _ _ => None)
    (fun _ files _ _ _ => files)
    (fun _ st _ => Some st)
    (fun _ st _ => Some st)
    (fun _ _ _ => true)
    (fun _ _ => true)
    (fun _ => [])
    (fun text _ => text)
    (fun _ _ => true)
    (fun _ _ => [])
    (fun text => text).

(** A prepared build tree whose feed manifest exists; updating the feeds
    is forced, creating the manifest is not. *)
Definition feeds_cfg : Config :=
  mkConfig "build" "miner" "configs/miner.config" "no"
    ["lede"; "luci"]
    "no" "yes" "no"
    "00:0A:35:FF:EE:01"
    "sd" None None "root" None "yes" "no".

Definition feeds_files : gmap string Node :=
  <["/home/u/build/miner/lede/feeds.conf" :=
      file ("src-git packages https://git.example/packages.git" +:+ Py.nl
            +:+ "src-link luci /home/u/build/miner/luci" +:+ Py.nl)]>
  (<["/home/u/build/miner/lede/feeds.conf.default" :=
      file ("src-git packages https://git.example/packages.git" +:+ Py.nl
            +:+ "src-git luci https://git.example/luci.git" +:+ Py.nl)]> ∅).

Definition feeds_st : State :=
  mkState (Some lede_dir)
    [("lede", Some (mkRepo "/home/u/build/miner/lede"));
     ("luci", Some (mkRepo "/home/u/build/miner/luci"))]
    feeds_files 100 [] [] [] [].

(** The same build tree before the feed manifest was ever created *)
Definition fresh_feeds_st : State :=
  mkState (Some lede_dir)
    [("lede", Some (mkRepo "/home/u/build/miner/lede"));
     ("luci", Some (mkRepo "/home/u/build/miner/luci"))]
    (delete "/home/u/build/miner/lede/feeds.conf" feeds_files) 100 [] [] [] [].

(** A configuration that keeps the marker file, names the device by an
    empty hostname and a suffix, and asks for no restart. *)
Definition keep_uuid_cfg : Config :=
  mkConfig "build" "miner" "configs/miner.config" "no"
    ["lede"; "luci"; "linux"; "cgminer"]
    "no" "no" "no"
    "00:0A:35:FF:EE:01"
    "sd" (Some "") None "root" (Some ".lan") "no" "no".

(** A build tree in which everything is cloned and prepared: the feed
    manifest exists and the generated configuration is not older than the
    authored one. *)
Definition ready_files : gmap string Node :=
  <["/home/u/build/miner" := dir ["lede"; "luci"; "linux"; "cgminer"]]>
  (<["/home/u/build/miner/lede" := repo_at "master"]>
  (<["/home/u/build/miner/lede/feeds.conf" :=
       file ("src-link luci /home/u/build/miner/luci" +:+ Py.nl)]>
  (<["/home/u/build/miner/lede/.config" := file ("CONFIG_TARGET_zynq=y" +:+ Py.nl)]>
  (<["/home/u/configs/miner.config" := file ("CONFIG_TARGET_zynq=y" +:+ Py.nl)]> ∅)))).

Definition ready_repos : list (string * option Repo) :=
  [("lede", Some (mkRepo "/home/u/build/miner/lede"));
   ("luci", Some (mkRepo "/home/u/build/miner/luci"));
   ("linux", Some (mkRepo "/home/u/build/miner/linux"));
   ("cgminer", Some (mkRepo "/home/u/build/miner/cgminer"))].

(** Before [prepare] *)
Definition ready_st : State := mkState None ready_repos ready_files 100 [] [] [] [].

(** After it *)
Definition prepared_st : State :=
  mkState (Some lede_dir) ready_repos ready_files 100 [] [] [] [].

(** The authored configuration was edited after the generated one was
    made. *)
Definition stale_st : State :=
  mkState (Some lede_dir) ready_repos
    (<["/home/u/configs/miner.config" :=
         mkNode (KFile ("CONFIG_TARGET_zynq=y" +:+ Py.nl +:+ glibc_line)) 20]> ready_files)
    100 [] [] [] [].

(** A host on which [make menuconfig] changes the generated configuration
    and the diff helper fails. *)
Definition broken_diff_host : Host :=
  mkHost "/home/u" None
    (fun _ call files =>
       if Py.mem "menuconfig" (pc_args call)
       then (true, "", <["/home/u/build/miner/lede/.config" :=
                          mkNode (KFile ("CONFIG_TARGET_zynq=y" +:+ Py.nl)) 50]> files)
       else (false, "", files))
    (fun _ _ _ _ _ => None)
    (fun _ files _ _ _ => files)
    (fun _ st _ => Some st)
    (fun _ st _ => Some st)
    (fun _ _ _ => true)
    (fun _ _ => true)
    (fun _ => [])
    (fun text _ => text)
    (fun _ _ => true)
    (fun _ _ => [])
    (fun text => text).



(** A host on which every clone fails at the checkout, after the objects
    were received: the repository is left at the path, on no branch. *)
Definition half_clone_host : Host :=
  mkHost "/home/u" None
    (fun _ _ files => (true, "", files))
    (fun _ _ _ _ _ => None)
    (fun _ files _ path b =>
       <[path := mkNode (KRepo (mkRepoState [] None [mkRemote "origin" [b]] [] [] [])) 60]>
         files)
    (fun _ st _ => Some st)
    (fun _ st _ => Some st)
    (fun _ _ _ => true)
    (fun _ _ => true)
    (fun _ => [])
    (fun text _ => text)
    (fun _ _ => true)
    (fun _ _ => [])
    (fun text => text).

(** A host on which git fails in the working tree of [luci] *)
Definition failing_clean_host : Host :=
  mkHost "/home/u" None
    (fun _ call files =>
       (negb (String.eqb (fmt_opt (pc_cwd call)) "/home/u/build/miner/luci"), "", files))
    (fun _ _ _ _ _ => None)
    (fun _ files _ _ _ => files)
    (fun _ st _ => Some st)
    (fun _ st _ => Some st)
    (fun _ _ _ => true)
    (fun _ _ => true)
    (fun _ => [])
    (fun text _ => text)
    (fun _ _ => true)
    (fun _ _ => [])
    (fun text => text).

End Sample.

(** ** Stepping through monadic code *)

Ltac run :=
  cbv beta iota zeta delta
      [bind ret raise gets modify when finally fspath logging record
       sys_stdout_write sys_stderr_write print];
  cbn [_working_dir _repos fs clock log stdout stderr calls
       set_working_dir set_repos set_fs set_clock set_log set_stdout set_stderr
       set_calls fst snd].

Lemma bind_ok {A B} (m : M A) (k : A -> M B) s a s' :
  m s = (Ok a, s') -> bind m k s = k a s'.
Proof. intros H. unfold bind. now rewrite H. Qed.

Lemma bind_raise {A B} (m : M A) (k : A -> M B) s e s' :
  m s = (Raise e, s') -> bind m k s = (Raise e, s').
Proof. intros H. unfold bind. now rewrite H. Qed.

(** ** C4: where the C-library flag is read from *)

Section UseGlibc.

Variable host : Host.
Variable config : Config.

Lemma get_config_paths_ok s d :
  _working_dir s = Some d ->
  _get_config_paths host config s
  = (Ok (Path.abspath (getcwd host) (build_config config), Path.join d [CONFIG_NAME]), s).
Proof.
  intros Hd. unfold _get_config_paths. run. rewrite Hd. reflexivity.
Qed.

Lemma use_glibc_ok s d c t :
  _working_dir s = Some d ->
  fs s !! Path.abspath (getcwd host) (build_config config) = Some (mkNode (KFile c) t) ->
  _use_glibc host config s
  = (Ok (existsb (fun line => Py.startswith line CONFIG_LIBC_glibc) (Py.readlines c)), s).
Proof.
  intros Hd Hf. unfold _use_glibc.
  rewrite (bind_ok _ _ _ _ _ (get_config_paths_ok s d Hd)).
  unfold open_r. run. rewrite Hf. reflexivity.
Qed.

End UseGlibc.

(** C4: the glibc test opens the authored configuration, the
    file named by [build.config] made absolute, and answers whether one of
    its lines starts with the glibc setting; the generated configuration in
    the build tree is not consulted. *)
Theorem use_glibc_reads_authored_config host config s d b :
  _working_dir s = Some d ->
  glibc_flag_at (fs s) (Path.abspath (getcwd host) (build_config config)) = Some b ->
  _use_glibc host config s = (Ok b, s).
Proof.
  intros Hd Hf. unfold glibc_flag_at in Hf.
  destruct (fs s !! _) as [[[c| |] t]|] eqn:E; try discriminate.
  injection Hf as <-. eapply use_glibc_ok; eauto.
Qed.

Lemma use_glibc_reads_authored_config_witness :
  _use_glibc (Sample.host None) (Sample.cfg "sd") (Sample.st Sample.files)
  = (Ok true, Sample.st Sample.files).
Proof.
  apply (use_glibc_reads_authored_config (Sample.host None) (Sample.cfg "sd")
           (Sample.st Sample.files) Sample.lede_dir true).
  - reflexivity.
  - vm_compute. reflexivity.
Defined.

(** C4, the destination path is not what is read: the flag is the one of
    the authored file even when the configuration at the destination path
    says otherwise. *)
Lemma use_glibc_not_from_destination :
  fst (_get_config_paths (Sample.host None) (Sample.cfg "sd") (Sample.st Sample.files))
  = Ok ("/home/u/configs/miner.config", "/home/u/build/miner/lede/.config")
  /\ glibc_flag_at Sample.files "/home/u/build/miner/lede/.config" = Some false
  /\ fst (_use_glibc (Sample.host None) (Sample.cfg "sd") (Sample.st Sample.files))
     = Ok true.
Proof. repeat split; vm_compute; reflexivity. Qed.

(** ** String facts *)

Lemma app_cons x (a b : string) : String x a +:+ b = String x (a +:+ b).
Proof. reflexivity. Qed.

Lemma app_nil_l (b : string) : "" +:+ b = b.
Proof. reflexivity. Qed.

Lemma append_assoc (a b c : string) : (a +:+ b) +:+ c = a +:+ (b +:+ c).
Proof.
  induction a as [|x a IH]; [reflexivity|].
  rewrite !app_cons. f_equal. exact IH.
Qed.

Lemma append_nil_r (a : string) : a +:+ "" = a.
Proof.
  induction a as [|x a IH]; [reflexivity|].
  rewrite app_cons. f_equal. exact IH.
Qed.

Lemma eqb_ascii_refl c : Py.eqb_ascii c c = true.
Proof. apply Ascii.eqb_refl. Qed.

Lemma startswith_app (p r : string) : Py.startswith (p +:+ r) p = true.
Proof.
  induction p as [|x p IH]; [reflexivity|].
  rewrite app_cons. cbn [Py.startswith]. now rewrite eqb_ascii_refl, IH.
Qed.

Lemma contains_here (n hay : string) :
  Py.startswith hay n = true -> Py.contains n hay = true.
Proof. intros H. destruct hay; cbn [Py.contains]; now rewrite H. Qed.

Lemma contains_cons (n hay : string) c :
  Py.contains n hay = true -> Py.contains n (String c hay) = true.
Proof. intros H. cbn [Py.contains]. rewrite H. apply orb_true_r. Qed.

Lemma contains_app_l (n a b : string) :
  Py.contains n b = true -> Py.contains n (a +:+ b) = true.
Proof.
  intros H. induction a as [|x a IH]; [exact H|].
  rewrite app_cons. now apply contains_cons.
Qed.

Lemma contains_middle (pre x post : string) :
  Py.contains x (pre +:+ x +:+ post) = true.
Proof. apply contains_app_l, contains_here, startswith_app. Qed.

Lemma mem_In x l : Py.mem x l = true <-> In x l.
Proof.
  unfold Py.mem. rewrite existsb_exists. split.
  - intros (y & Hy & E). apply String.eqb_eq in E. now subst.
  - intros H. exists x. split; [exact H | apply String.eqb_refl].
Qed.

Lemma mem_false_In x l : Py.mem x l = false <-> ~ In x l.
Proof.
  rewrite <- mem_In. destruct (Py.mem x l); split; intros H; congruence.
Qed.

Lemma split_aux_factor sep x s : forall acc,
  In x (Py.split_aux sep acc s) ->
  exists pre post, acc +:+ s = pre +:+ x +:+ post.
Proof.
  induction s as [|c s IH]; intros acc H; cbn [Py.split_aux] in H.
  - destruct H as [<-|[]]. exists "", "". reflexivity.
  - destruct (Py.eqb_ascii c sep).
    + destruct H as [<-|H].
      * exists "", (String c s). reflexivity.
      * apply IH in H as (pre & post & E). rewrite app_nil_l in E.
        exists (acc +:+ String c pre), post.
        rewrite E, append_assoc, app_cons. reflexivity.
    + apply IH in H as (pre & post & E). exists pre, post.
      rewrite <- E, append_assoc. reflexivity.
Qed.

(** A component of a PATH value occurs in it as a substring. *)
Lemma component_contains dir p :
  is_path_component dir p = true -> Py.contains dir p = true.
Proof.
  unfold is_path_component, Py.split. intros H. apply mem_In in H.
  apply split_aux_factor in H as (pre & post & E). rewrite app_nil_l in E.
  rewrite E. apply contains_middle.
Qed.

Lemma glibc_flag_at_file files p b :
  glibc_flag_at files p = Some b ->
  exists c t, files !! p = Some (mkNode (KFile c) t)
              /\ b = existsb (fun line => Py.startswith line CONFIG_LIBC_glibc)
                             (Py.readlines c).
Proof.
  unfold glibc_flag_at. intros H.
  destruct (files !! p) as [[[c| |] t]|]; try discriminate.
  injection H as <-. eauto.
Qed.

Lemma use_glibc_flag host config s d b :
  _working_dir s = Some d ->
  glibc_flag_at (fs s) (Path.abspath (getcwd host) (build_config config)) = Some b ->
  _use_glibc host config s = (Ok b, s).
Proof.
  intros Hd Hf. apply glibc_flag_at_file in Hf as (c & t & Hf & ->).
  eapply use_glibc_ok; eauto.
Qed.

(** ** C5: the PATH line of [toolchain] *)

Section Toolchain.

Variable config : Config.
Variable argv : list string.

(** A successful run of [toolchain]: what goes to stdout *)
Lemma toolchain_stdout host s d b :
  _working_dir s = Some d ->
  glibc_flag_at (fs s) (Path.abspath (getcwd host) (build_config config)) = Some b ->
  is_Some (fs s !! target_dir_of d b) ->
  is_Some (fs s !! toolchain_dir_of d b) ->
  exists s',
    toolchain host config argv s = (Ok tt, s')
    /\ stdout s' = stdout s ++ toolchain_bindings d b
                   ++ (if Py.contains (toolchain_bin_of d b) (env_path_of host)
                       then [] else [export_path_line]).
Proof.
  intros Hd Hf [nt Ht] [nc Hc]. unfold toolchain.
  run.
  erewrite (use_glibc_flag host config _ d b); [|exact Hd|exact Hf].
  run. rewrite Hd.
  unfold os_path_exists. run.
  fold (target_dir_of d b). fold (toolchain_dir_of d b).
  rewrite Ht. cbn [negb]. run.
  rewrite Hc. cbn [negb]. run.
  fold (toolchain_bin_of d b). fold (env_path_of host).
  destruct (Py.contains (toolchain_bin_of d b) (env_path_of host));
    cbn [negb]; run; eexists; (split; [reflexivity|]); cbn [stdout];
    unfold toolchain_bindings; rewrite <- ?app_assoc; reflexivity.
Qed.

End Toolchain.

(** C5: on a successful run, the PATH line is written exactly
    when the toolchain's [bin] directory does not occur in the PATH value
    as a substring. A PATH that has the directory as a component therefore
    never gets the line, and between two hosts that differ only in PATH,
    one holding the directory and one not, the output differs by exactly
    that last line. *)
Theorem toolchain_path_line host config argv s d b :
  _working_dir s = Some d ->
  glibc_flag_at (fs s) (Path.abspath (getcwd host) (build_config config)) = Some b ->
  is_Some (fs s !! target_dir_of d b) ->
  is_Some (fs s !! toolchain_dir_of d b) ->
  let bin := toolchain_bin_of d b in
  (exists s',
      toolchain host config argv s = (Ok tt, s')
      /\ stdout s' = stdout s ++ toolchain_bindings d b
                     ++ (if Py.contains bin (env_path_of host)
                         then [] else [export_path_line]))
  /\ (is_path_component bin (env_path_of host) = true ->
      Py.contains bin (env_path_of host) = true)
  /\ (forall p1 p2,
        Py.contains bin p1 = true ->
        Py.contains bin p2 = false ->
        fst (toolchain (with_PATH (Some p1) host) config argv s) = Ok tt
        /\ fst (toolchain (with_PATH (Some p2) host) config argv s) = Ok tt
        /\ stdout (snd (toolchain (with_PATH (Some p2) host) config argv s))
           = stdout (snd (toolchain (with_PATH (Some p1) host) config argv s))
             ++ [export_path_line]).
Proof.
  intros Hd Hf Ht Hc bin. split; [|split].
  - now apply toolchain_stdout.
  - apply component_contains.
  - intros p1 p2 H1 H2.
    destruct (toolchain_stdout config argv (with_PATH (Some p1) host) s d b Hd Hf Ht Hc)
      as (s1 & E1 & O1).
    destruct (toolchain_stdout config argv (with_PATH (Some p2) host) s d b Hd Hf Ht Hc)
      as (s2 & E2 & O2).
    rewrite E1, E2. cbn [fst snd]. rewrite O1, O2.
    unfold env_path_of, with_PATH. cbn [environ_PATH].
    fold bin. rewrite H1, H2. rewrite app_nil_r, <- app_assoc. auto.
Qed.

Lemma toolchain_path_line_witness :
  stdout (snd (toolchain (Sample.host (Some "/usr/bin:/bin")) (Sample.cfg "sd") ["toolchain"]
                 (Sample.st Sample.files)))
  = toolchain_bindings Sample.lede_dir true ++ [export_path_line].
Proof.
  destruct (toolchain_path_line (Sample.host (Some "/usr/bin:/bin")) (Sample.cfg "sd")
              ["toolchain"] (Sample.st Sample.files) Sample.lede_dir true)
    as ((s' & E & O) & _).
  - reflexivity.
  - vm_compute. reflexivity.
  - vm_compute. eauto.
  - vm_compute. eauto.
  - rewrite E. cbn [snd]. rewrite O. reflexivity.
Defined.

(** C5, being a PATH component does not decide the line: here the [bin]
    directory is not a component of PATH (it only occurs inside a longer
    component), and the PATH line is not written. *)
Lemma toolchain_path_line_not_by_component :
  let env_path :=
    "/usr/bin:/mnt/home/u/build/miner/lede/staging_dir/toolchain-arm_cortex-a9+neon_gcc-5.4.0_glibc-2.24_eabi/bin" in
  let run := toolchain (Sample.host (Some env_path)) (Sample.cfg "sd") ["toolchain"]
               (Sample.st Sample.files) in
  is_path_component (toolchain_bin_of Sample.lede_dir true) env_path = false
  /\ fst run = Ok tt
  /\ stdout (snd run) = toolchain_bindings Sample.lede_dir true.
Proof. repeat split; vm_compute; reflexivity. Qed.

(** ** C1: deploying to an unsupported target *)

(** The glibc test changes nothing and never raises the builder's stop. *)
Lemma use_glibc_pure host config s :
  snd (_use_glibc host config s) = s
  /\ fst (_use_glibc host config s) <> Raise BuilderStop.
Proof.
  unfold _use_glibc, _get_config_paths, open_r. run.
  destruct (_working_dir s) as [d|]; run; [|split; [reflexivity|discriminate]].
  destruct (fs s !! _) as [[[c| |] t]|]; run; split;
    reflexivity || discriminate.
Qed.

(** C1: with a deploy target other than [sd], [deploy] makes no call to any
    collaborator and does not raise the builder's stop; on a prepared
    builder whose authored configuration is readable it logs the error and
    returns normally. *)
Theorem deploy_unsupported_target_returns host config s :
  deploy_target config <> "sd" ->
  fst (deploy host config s) <> Raise BuilderStop
  /\ calls (snd (deploy host config s)) = calls s
  /\ (forall d b,
        _working_dir s = Some d ->
        glibc_flag_at (fs s) (Path.abspath (getcwd host) (build_config config)) = Some b ->
        deploy host config s
        = (Ok tt,
           set_log (log s ++ [(INFO, "Start deploying Miner firmware...");
                              (ERROR, "Unsupported target '" +:+ deploy_target config
                                      +:+ "' for firmware image")]) s)).
Proof.
  intros Ht. apply String.eqb_neq in Ht.
  unfold deploy. rewrite Ht. run.
  match goal with
  | |- context [_use_glibc host config ?s1] =>
      destruct (use_glibc_pure host config s1) as [Hs Hr];
      destruct (_use_glibc host config s1) as [[g|e] s2] eqn:E
  end; cbn [fst snd] in Hs, Hr; subst s2.
  - split; [|split].
    + destruct (_working_dir s); run; discriminate.
    + destruct (_working_dir s); run; reflexivity.
    + intros d b Hd Hf. rewrite Hd. run.
      unfold set_log. cbn. rewrite <- app_assoc. reflexivity.
  - split; [|split].
    + cbn [fst]. congruence.
    + reflexivity.
    + intros d b Hd Hf.
      erewrite (use_glibc_flag host config _ d b) in E; [|exact Hd|exact Hf].
      discriminate.
Qed.

Lemma deploy_unsupported_target_returns_witness :
  fst (deploy (Sample.host None) (Sample.cfg "usb") (Sample.st Sample.files)) = Ok tt
  /\ calls (snd (deploy (Sample.host None) (Sample.cfg "usb") (Sample.st Sample.files))) = [].
Proof.
  destruct (deploy_unsupported_target_returns (Sample.host None) (Sample.cfg "usb")
              (Sample.st Sample.files)) as (_ & Hc & H).
  - discriminate.
  - split; [|exact Hc].
    rewrite (H Sample.lede_dir true); [reflexivity | reflexivity | vm_compute; reflexivity].
Defined.

(** ** Loops *)

Lemma for_app {A} (l1 l2 : list A) (f : A -> M unit) s :
  for_ (l1 ++ l2) f s = bind (for_ l1 f) (fun _ => for_ l2 f) s.
Proof.
  revert s. induction l1 as [|x l1 IH]; intros s; [reflexivity|].
  cbn [for_ app]. unfold bind.
  destruct (f x s) as [[u|e] s1]; [rewrite IH; reflexivity | reflexivity].
Qed.

Lemma for_raise_here {A} (x : A) (l : list A) (f : A -> M unit) s e s' :
  f x s = (Raise e, s') -> for_ (x :: l) f s = (Raise e, s').
Proof. intros H. cbn [for_]. now apply bind_raise. Qed.

(** A loop over a list with an item that always fails does not complete. *)
Lemma for_never_ok {A} (x : A) (l : list A) (f : A -> M unit) :
  In x l ->
  (forall s, exists e, f x s = (Raise e, s)) ->
  forall s, fst (for_ l f s) <> Ok tt.
Proof.
  intros Hin Hf. induction l as [|y l IH]; intros s; [destruct Hin|].
  cbn [for_]. unfold bind.
  destruct Hin as [->|Hin].
  - destruct (Hf s) as [e ->]. discriminate.
  - destruct (f y s) as [[u|e] s1]; [now apply IH | discriminate].
Qed.

(** ** C10: [status] needs every repository cloned *)

Lemma status_repo_none host name s :
  status_repo host (name, None) s = (Raise AttributeError, s).
Proof. reflexivity. Qed.

(** C10: when a configured repository is not cloned ([None] in the store),
    [status] never completes; it raises [AttributeError] at the first such
    repository, after reporting exactly the repositories before it, and
    reports neither that repository nor any later one. *)
Theorem status_fails_on_uncloned host s :
  (forall name, In (name, None) (_repos s) -> fst (status host s) <> Ok tt)
  /\ (forall pre name post s1,
        _repos s = pre ++ (name, None) :: post ->
        for_ pre (status_repo host) s = (Ok tt, s1) ->
        status host s = (Raise AttributeError, s1)).
Proof.
  split.
  - intros name Hin. unfold status. run.
    apply (for_never_ok (name, None)); [exact Hin|].
    intros s'. exists AttributeError. apply status_repo_none.
  - intros pre name post s1 Hr Hpre. unfold status. run.
    rewrite Hr, for_app. rewrite (bind_ok _ _ _ _ _ Hpre).
    apply for_raise_here, status_repo_none.
Qed.

Lemma status_fails_on_uncloned_witness :
  status (Sample.host None) Sample.status_st
  = (Raise AttributeError,
     snd (for_ [("lede", Some (mkRepo "/home/u/build/miner/lede"))]
            (status_repo (Sample.host None)) Sample.status_st))
  /\ map fst (log (snd (status (Sample.host None) Sample.status_st))) = [INFO].
Proof.
  assert (E : status (Sample.host None) Sample.status_st
              = (Raise AttributeError,
                 snd (for_ [("lede", Some (mkRepo "/home/u/build/miner/lede"))]
                        (status_repo (Sample.host None)) Sample.status_st))).
  { apply (proj2 (status_fails_on_uncloned (Sample.host None) Sample.status_st)
             [("lede", Some (mkRepo "/home/u/build/miner/lede"))] "luci"
             [("linux", Some (mkRepo "/home/u/build/miner/linux"))]).
    - reflexivity.
    - vm_compute. reflexivity. }
  split; [exact E|]. rewrite E. vm_compute. reflexivity.
Defined.

(** ** Ordered dictionaries *)

Lemma od_get_set_eq {V} k (v : V) d : od_get k (od_set k v d) = Some v.
Proof.
  induction d as [|[k' v'] d IH]; cbn [od_set od_get].
  - now rewrite String.eqb_refl.
  - destruct (String.eqb k k') eqn:E; cbn [od_get]; rewrite E; [reflexivity | exact IH].
Qed.

Lemma od_get_set_ne {V} k k' (v : V) d :
  k <> k' -> od_get k' (od_set k v d) = od_get k' d.
Proof.
  intros Hne. induction d as [|[k0 v0] d IH]; cbn [od_set od_get].
  - apply String.eqb_neq in Hne. rewrite String.eqb_sym in Hne. now rewrite Hne.
  - destruct (String.eqb k k0) eqn:E; cbn [od_get].
    + apply String.eqb_eq in E. subst k0.
      assert (String.eqb k' k = false) as -> by (apply String.eqb_neq; congruence).
      reflexivity.
    + destruct (String.eqb k' k0); [reflexivity | exact IH].
Qed.

(** ** C2: [_init_repos] checks every repository before it stops *)

Section InitRepos.

Variable host : Host.
Variable config : Config.

Abbreviation path_of := (_get_repo_path host config).

Lemma init_repo_spec error name s :
  is_regular_file (fs s) (path_of name) = false ->
  init_repo host config error name s
  = (Ok (error || invalid_nonempty (fs s) (path_of name)),
     set_repos (od_set name (probe (fs s) (path_of name)) (_repos s))
       (set_log (log s ++ init_entries host config (fs s) name) s)).
Proof.
  intros Hf. unfold init_repo, git_Repo, os_listdir, is_regular_file,
    invalid_nonempty, probe, init_entries in *. run.
  destruct (fs s !! path_of name) as [[[c|[|x l]|st] t]|] eqn:E; try discriminate;
    run; cbn [kind]; run; rewrite ?E; cbn [kind]; run;
    rewrite ?orb_false_r, ?orb_true_r, <- ?app_assoc; reflexivity.
Qed.

Lemma init_loop_spec names : forall error s,
  (forall name, In name names -> is_regular_file (fs s) (path_of name) = false) ->
  init_loop host config names error s
  = (Ok (error || existsb (fun name => invalid_nonempty (fs s) (path_of name)) names),
     set_repos (stored host config (fs s) names (_repos s))
       (set_log (log s ++ flat_map (init_entries host config (fs s)) names) s)).
Proof.
  induction names as [|name names IH]; intros error s Hf.
  - cbn [init_loop existsb flat_map stored fold_left]. run.
    rewrite orb_false_r, app_nil_r. now destruct s.
  - cbn [init_loop]. rewrite (bind_ok _ _ _ _ _ (init_repo_spec error name s (Hf name (or_introl eq_refl)))).
    rewrite IH by (intros n Hn; apply Hf; now right).
    cbn [existsb flat_map stored fold_left]. run.
    rewrite orb_assoc, <- app_assoc. reflexivity.
Qed.

Lemma stored_get files names name : forall d,
  In name names \/ od_get name d = Some (probe files (path_of name)) ->
  od_get name (stored host config files names d) = Some (probe files (path_of name)).
Proof.
  induction names as [|n names IH]; intros d H; cbn [stored fold_left].
  - destruct H as [[]|H]. exact H.
  - apply IH. destruct (String.eqb_spec n name) as [->|Hne].
    + right. apply od_get_set_eq.
    + destruct H as [[E|H]|H]; [congruence | now left |].
      right. now rewrite od_get_set_ne.
Qed.


End InitRepos.




(** ** C3: a branch that exists nowhere stops the run at once *)

Lemma bind_assoc {A B C} (m : M A) (k : A -> M B) (k' : B -> M C) s :
  bind (bind m k) k' s = bind m (fun x => bind (k x) k') s.
Proof. unfold bind. destruct (m s) as [[a|e] s1]; reflexivity. Qed.

Section PrepareRepo.

Variable host : Host.
Variable config : Config.

Lemma track_branch_none repo branch rs s :
  (forall r, In r rs -> Py.mem branch (refs r) = false) ->
  track_branch repo branch rs s
  = (Raise BuilderStop, set_log (log s ++ [branch_missing branch]) s).
Proof.
  induction rs as [|r rs IH]; intros H; cbn [track_branch].
  - run. reflexivity.
  - rewrite (H r (or_introl eq_refl)). apply IH. intros r' Hr'. apply H. now right.
Qed.

Lemma ensure_branch_stop remote repo s st t :
  fs s !! working_dir repo = Some (mkNode (KRepo st) t) ->
  Py.mem (branch remote) (heads st) = false ->
  (forall r, In r (remotes st) -> Py.mem (branch remote) (refs r) = false) ->
  ensure_branch remote repo s
  = (Raise BuilderStop, set_log (log s ++ [branch_missing (branch remote)]) s).
Proof.
  intros Hst Hh Hr. unfold ensure_branch, repo_state. run. rewrite Hst. run.
  rewrite Hh. cbn [negb]. now apply track_branch_none.
Qed.

Lemma prepare_repo_stop remote repo s s1 st t :
  acquire_repo host config remote s = (Ok repo, s1) ->
  fs s1 !! working_dir repo = Some (mkNode (KRepo st) t) ->
  Py.mem (branch remote) (heads st) = false ->
  (forall r, In r (remotes st) -> Py.mem (branch remote) (refs r) = false) ->
  _prepare_repo host config remote s
  = (Raise BuilderStop, set_log (log s1 ++ [branch_missing (branch remote)]) s1).
Proof.
  intros Ha Hst Hh Hr. unfold _prepare_repo.
  rewrite (bind_ok _ _ _ _ _ Ha).
  apply bind_raise. now apply (ensure_branch_stop remote repo s1 st t).
Qed.

End PrepareRepo.

(** C3: when, after the clone or fetch step, the required branch is
    neither a local branch nor a branch of any remote of the repository,
    [_prepare_repo] raises the builder's stop right after logging the
    error; the loop of [prepare] ends there, in the state of the raise,
    whatever repositories were still to come: none of them is prepared. *)
Theorem prepare_stops_on_missing_branch host config remote repo s s1 st t :
  acquire_repo host config remote s = (Ok repo, s1) ->
  fs s1 !! working_dir repo = Some (mkNode (KRepo st) t) ->
  Py.mem (branch remote) (heads st) = false ->
  (forall r, In r (remotes st) -> Py.mem (branch remote) (refs r) = false) ->
  let stopped := set_log (log s1 ++ [branch_missing (branch remote)]) s1 in
  _prepare_repo host config remote s = (Raise BuilderStop, stopped)
  /\ (forall pre post s0,
        for_ pre (_prepare_repo host config) s0 = (Ok tt, s) ->
        for_ (pre ++ remote :: post) (_prepare_repo host config) s0
        = (Raise BuilderStop, stopped))
  /\ (forall f pre post s0,
        RemoteWalker host f = pre ++ remote :: post ->
        bind (make_build_dir host config)
             (fun _ => for_ pre (_prepare_repo host config)) s0 = (Ok tt, s) ->
        prepare host config f s0 = (Raise BuilderStop, stopped)).
Proof.
  intros Ha Hst Hh Hr stopped.
  pose proof (prepare_repo_stop host config remote repo s s1 st t Ha Hst Hh Hr) as Hstop.
  fold stopped in Hstop.
  assert (Hloop : forall pre post s0,
             for_ pre (_prepare_repo host config) s0 = (Ok tt, s) ->
             for_ (pre ++ remote :: post) (_prepare_repo host config) s0
             = (Raise BuilderStop, stopped)).
  { intros pre post s0 Hpre. rewrite for_app, (bind_ok _ _ _ _ _ Hpre).
    now apply for_raise_here. }
  split; [exact Hstop | split; [exact Hloop|]].
  intros f pre post s0 Hw Hpre. unfold prepare. rewrite Hw.
  unfold bind in Hpre |- *.
  destruct (make_build_dir host config s0) as [[[]|e] sa]; [|discriminate].
  now rewrite (Hloop pre post sa Hpre).
Qed.

Lemma prepare_stops_on_missing_branch_witness :
  let host := Sample.host_walking [Sample.lede_spec; Sample.luci_spec; Sample.linux_spec] in
  let r := prepare host (Sample.cfg "sd") false Sample.prepare_st in
  fst r = Raise BuilderStop
  /\ calls (snd r) = []
  /\ od_get "linux" (_repos (snd r)) = Some None.
Proof.
  intros host r.
  destruct (prepare_stops_on_missing_branch host (Sample.cfg "sd") Sample.luci_spec
              (mkRepo "/home/u/build/miner/luci")
              (snd (bind (make_build_dir host (Sample.cfg "sd"))
                      (fun _ => for_ [Sample.lede_spec] (_prepare_repo host (Sample.cfg "sd")))
                      Sample.prepare_st))
              (snd (acquire_repo host (Sample.cfg "sd") Sample.luci_spec
                      (snd (bind (make_build_dir host (Sample.cfg "sd"))
                              (fun _ => for_ [Sample.lede_spec]
                                          (_prepare_repo host (Sample.cfg "sd")))
                              Sample.prepare_st))))
              (mkRepoState ["master"] (Some "master") [mkRemote "origin" ["master"]] []
                 [mkDiff "M" "Makefile" "Makefile"] ["notes.txt"])
              10) as (_ & _ & H).
  - vm_compute. reflexivity.
  - vm_compute. reflexivity.
  - vm_compute. reflexivity.
  - intros x [<-|[]]. vm_compute. reflexivity.
  - unfold r. rewrite (H false [Sample.lede_spec] [Sample.linux_spec] Sample.prepare_st).
    + repeat split; vm_compute; reflexivity.
    + reflexivity.
    + vm_compute. reflexivity.
Defined.

(** ** Computations that leave the log alone *)

Create HintDb framed.

Lemma framed_ret {A} (a : A) : log_framed (ret a).
Proof. intros l s. reflexivity. Qed.

Lemma framed_raise {A} e : log_framed (@raise A e).
Proof. intros l s. reflexivity. Qed.

Lemma framed_bind {A B} (m : M A) (k : A -> M B) :
  log_framed m -> (forall a, log_framed (k a)) -> log_framed (bind m k).
Proof.
  intros Hm Hk l s. unfold bind. rewrite Hm.
  destruct (m s) as [[a|e] s1]; cbn [fst snd]; [apply Hk | reflexivity].
Qed.

Lemma framed_gets {A} (f : State -> A) :
  (forall l s, f (relog l s) = f s) -> log_framed (gets f).
Proof. intros H l s. unfold gets. cbn [fst snd]. now rewrite H. Qed.

Lemma framed_modify (g : State -> State) :
  (forall l s, g (relog l s) = relog l (g s)) -> log_framed (modify g).
Proof. intros H l s. unfold modify. cbn [fst snd]. now rewrite H. Qed.

Lemma framed_logging lvl msg : log_framed (logging lvl msg).
Proof.
  apply framed_modify. intros l s. unfold relog, set_log. cbn.
  now rewrite app_assoc.
Qed.

Lemma framed_record c : log_framed (record c).
Proof. apply framed_modify. intros l s. reflexivity. Qed.

Lemma framed_when c (m : M unit) : log_framed m -> log_framed (when c m).
Proof. intros H. destruct c; [exact H | apply framed_ret]. Qed.

Lemma framed_for {A} (l : list A) (f : A -> M unit) :
  (forall x, log_framed (f x)) -> log_framed (for_ l f).
Proof.
  intros H. induction l as [|x l IH]; cbn [for_]; [apply framed_ret|].
  apply framed_bind; [apply H | intros _; exact IH].
Qed.

Section Framed.

Variable host : Host.

Lemma framed_repo_state repo : log_framed (repo_state repo).
Proof.
  unfold repo_state. apply framed_bind; [now apply framed_gets|].
  intros [[[c|l|st] t]|]; apply framed_ret || apply framed_raise.
Qed.

Lemma framed_put_repo_state repo st : log_framed (put_repo_state repo st).
Proof. apply framed_modify. intros l s. reflexivity. Qed.

Lemma framed_calls : log_framed (gets calls).
Proof. now apply framed_gets. Qed.

#[local] Hint Resolve framed_ret framed_raise framed_logging framed_record framed_repo_state
  framed_put_repo_state framed_calls : framed.

Ltac framed :=
  repeat first
    [ progress auto with framed
    | apply framed_bind; [|intros ?]
    | apply framed_when
    | apply framed_for; intros ?
    | match goal with
      | |- log_framed (if ?c then _ else _) => destruct c
      | |- log_framed (match ?o with Some _ => _ | None => _ end) => destruct o
      end ].

Lemma framed_create_head repo branch r : log_framed (create_head repo branch r).
Proof. unfold create_head. framed. Qed.

Lemma framed_checkout repo branch : log_framed (checkout host repo branch).
Proof. unfold checkout. framed. Qed.

Lemma framed_remote_pull repo r : log_framed (remote_pull host repo r).
Proof. unfold remote_pull. framed. Qed.

Lemma framed_active_branch repo : log_framed (repo_active_branch repo).
Proof. unfold repo_active_branch. framed. Qed.

Lemma framed_track_branch repo branch rs : log_framed (track_branch repo branch rs).
Proof.
  induction rs as [|r rs IH]; cbn [track_branch].
  - framed.
  - destruct (Py.mem branch (refs r)); [apply framed_create_head | exact IH].
Qed.

Lemma framed_ensure_branch remote repo : log_framed (ensure_branch remote repo).
Proof.
  unfold ensure_branch. apply framed_bind; [apply framed_repo_state|]. intros st.
  destruct (negb _); [apply framed_track_branch | apply framed_ret].
Qed.

Lemma framed_switch_and_pull remote repo : log_framed (switch_and_pull host remote repo).
Proof.
  unfold switch_and_pull.
  apply framed_bind; [apply framed_repo_state|]. intros st.
  apply framed_bind; [destruct (Py.mem _ _); framed|]. intros _.
  apply framed_bind; [apply framed_active_branch|]. intros active.
  apply framed_bind; [apply framed_when, framed_checkout|]. intros _.
  apply framed_when. apply framed_bind; [apply framed_repo_state|]. intros st'.
  apply framed_for. intros r. apply framed_remote_pull.
Qed.

Lemma framed_after_clone remote repo :
  log_framed (bind (ensure_branch remote repo)
                   (fun _ => switch_and_pull host remote repo)).
Proof.
  apply framed_bind; [apply framed_ensure_branch|].
  intros _. apply framed_switch_and_pull.
Qed.

End Framed.

(** ** C9: an empty directory is cloned into like a missing one *)

Section EmptyDirectory.

Variable host : Host.
Variable config : Config.

Lemma acquire_repo_clone remote s :
  od_get (name remote) (_repos s) = Some None ->
  let path := _get_repo_path host config (name remote) in
  acquire_repo host config remote s
  = match git_clone host (calls s) (fs s) (uri remote) path (branch remote) with
    | Some st => (Ok (mkRepo path), cloned host config remote st s)
    | None =>
        (Raise GitCommandError,
         set_fs (git_clone_left host (calls s) (fs s) (uri remote) path (branch remote))
           (set_calls (calls s ++ [CGit (GClone (uri remote) path (branch remote))])
              (set_log (log s ++ [(DEBUG, "Start preparing remote '" +:+ name remote
                                          +:+ "' in '" +:+ path +:+ "'");
                                  (INFO, "Cloning remote '" +:+ name remote +:+ "'")]) s)))
    end.
Proof.
  intros Hn path. unfold acquire_repo, _get_repo, clone_from, put_repo_state. run.
  rewrite Hn. run. fold path.
  destruct (git_clone host (calls s) (fs s) (uri remote) path (branch remote)) as [st|];
    run; unfold cloned; fold path; cbn; rewrite <- ?app_assoc; reflexivity.
Qed.

Lemma prepare_repo_clone remote s :
  od_get (name remote) (_repos s) = Some None ->
  let path := _get_repo_path host config (name remote) in
  _prepare_repo host config remote s
  = match git_clone host (calls s) (fs s) (uri remote) path (branch remote) with
    | Some st =>
        bind (ensure_branch remote (mkRepo path))
             (fun _ => switch_and_pull host remote (mkRepo path))
             (cloned host config remote st s)
    | None =>
        (Raise GitCommandError,
         set_fs (git_clone_left host (calls s) (fs s) (uri remote) path (branch remote))
           (set_calls (calls s ++ [CGit (GClone (uri remote) path (branch remote))])
              (set_log (log s ++ [(DEBUG, "Start preparing remote '" +:+ name remote
                                          +:+ "' in '" +:+ path +:+ "'");
                                  (INFO, "Cloning remote '" +:+ name remote +:+ "'")]) s)))
    end.
Proof.
  intros Hn path. unfold _prepare_repo.
  pose proof (acquire_repo_clone remote s Hn) as Ha. cbv zeta in Ha. fold path in Ha.
  destruct (git_clone host (calls s) (fs s) (uri remote) path (branch remote)) as [st|].
  - now rewrite (bind_ok _ _ _ _ _ Ha).
  - now rewrite (bind_raise _ _ _ _ _ Ha).
Qed.

Lemma init_repo_empty error name s t :
  fs s !! _get_repo_path host config name = Some (mkNode (KDir []) t) ->
  init_repo host config error name s
  = (Ok error,
     set_repos (od_set name None (_repos s))
       (set_log (log s ++ [(DEBUG, "Init repo '" +:+ name +:+ "' in '"
                                   +:+ _get_repo_path host config name +:+ "'");
                           (WARNING, "Empty Git repository '"
                                     +:+ _get_repo_path host config name +:+ "'")]) s)).
Proof.
  intros Hd. rewrite init_repo_spec by (unfold is_regular_file; now rewrite Hd).
  unfold invalid_nonempty, probe, init_entries. rewrite Hd.
  now rewrite orb_false_r.
Qed.

Lemma init_repo_absent error name s :
  fs s !! _get_repo_path host config name = None ->
  init_repo host config error name s
  = (Ok error,
     set_repos (od_set name None (_repos s))
       (set_log (log s ++ [(DEBUG, "Init repo '" +:+ name +:+ "' in '"
                                   +:+ _get_repo_path host config name +:+ "'");
                           (DEBUG, "Missing directory '"
                                   +:+ _get_repo_path host config name +:+ "'")]) s)).
Proof.
  intros Hd. rewrite init_repo_spec by (unfold is_regular_file; now rewrite Hd).
  unfold invalid_nonempty, probe, init_entries. rewrite Hd.
  now rewrite orb_false_r.
Qed.

(** After the clone, the two worlds differ in their logs only. *)
Lemma cloned_worlds remote st s r l1 l2 :
  let path := _get_repo_path host config (name remote) in
  let base := set_log [] (cloned host config remote st (set_repos r s)) in
  exists k1 k2,
    cloned host config remote st (set_repos r (set_log l1 s)) = relog k1 base
    /\ cloned host config remote st
         (set_repos r (set_log l2 (set_fs (delete path (fs s)) s))) = relog k2 base.
Proof.
  intros path base. eexists. eexists. split.
  - unfold relog, base, cloned. cbn. rewrite app_nil_r. reflexivity.
  - unfold relog, base, cloned. fold path. cbn. rewrite app_nil_r.
    rewrite insert_delete_eq. reflexivity.
Qed.

End EmptyDirectory.

(** C9: a repository path that holds an empty directory is no integrity
    error: its round of the initialization loop leaves the error flag as it
    was and logs a warning, and the store gets [None] for it, the same store
    as when the path is missing. [_prepare_repo] then clones into the path
    with the same arguments, and when git answers the clone the same in both
    situations the whole preparation has the same result, makes the same
    calls and leaves the same store and (after a successful clone) the same
    files. *)
Theorem empty_directory_cloned_like_absent host config remote s t error :
  let path := _get_repo_path host config (name remote) in
  fs s !! path = Some (mkNode (KDir []) t) ->
  let absent := set_fs (delete path (fs s)) s in
  let after_empty := snd (init_repo host config error (name remote) s) in
  let after_absent := snd (init_repo host config error (name remote) absent) in
  let clone_call := CGit (GClone (uri remote) path (branch remote)) in
  let answer files := git_clone host (calls s) files (uri remote) path (branch remote) in
  (fst (init_repo host config error (name remote) s) = Ok error
   /\ map fst (skipn (length (log s)) (log after_empty)) = [DEBUG; WARNING]
   /\ od_get (name remote) (_repos after_empty) = Some None)
  /\ (fst (init_repo host config error (name remote) absent) = Ok error
      /\ _repos after_absent = _repos after_empty)
  /\ match answer (fs s) with
     | Some st =>
         _prepare_repo host config remote after_empty
         = bind (ensure_branch remote (mkRepo path))
                (fun _ => switch_and_pull host remote (mkRepo path))
                (cloned host config remote st after_empty)
         /\ calls (cloned host config remote st after_empty) = calls s ++ [clone_call]
     | None =>
         fst (_prepare_repo host config remote after_empty) = Raise GitCommandError
         /\ calls (snd (_prepare_repo host config remote after_empty))
            = calls s ++ [clone_call]
     end
  /\ (answer (fs s) = answer (delete path (fs s)) ->
      let r := _prepare_repo host config remote after_empty in
      let r' := _prepare_repo host config remote after_absent in
      fst r = fst r'
      /\ calls (snd r) = calls (snd r')
      /\ _repos (snd r) = _repos (snd r')
      /\ (is_Some (answer (fs s)) -> fs (snd r) = fs (snd r'))).
Proof.
  intros path Hd absent after_empty after_absent clone_call answer.
  assert (Ha : fs absent !! path = None) by apply lookup_delete_eq.
  pose proof (init_repo_empty host config error (name remote) s t Hd) as E1.
  pose proof (init_repo_absent host config error (name remote) absent Ha) as E2.
  fold path in E1, E2.
  assert (A1 : after_empty = snd (init_repo host config error (name remote) s)) by reflexivity.
  assert (A2 : after_absent = snd (init_repo host config error (name remote) absent))
    by reflexivity.
  rewrite E1 in A1. rewrite E2 in A2. cbn [snd] in A1, A2.
  clearbody after_empty after_absent.
  assert (N1 : od_get (name remote) (_repos after_empty) = Some None).
  { subst after_empty. cbn [_repos set_repos]. apply od_get_set_eq. }
  assert (N2 : od_get (name remote) (_repos after_absent) = Some None).
  { subst after_absent. cbn [_repos set_repos]. apply od_get_set_eq. }
  pose proof (prepare_repo_clone host config remote after_empty N1) as P1.
  pose proof (prepare_repo_clone host config remote after_absent N2) as P2.
  cbv zeta in P1, P2. fold path in P1, P2.
  assert (C1 : calls after_empty = calls s) by (subst after_empty; reflexivity).
  assert (C2 : calls after_absent = calls s) by (subst after_absent; reflexivity).
  assert (F1 : fs after_empty = fs s) by (subst after_empty; reflexivity).
  assert (F2 : fs after_absent = delete path (fs s)) by (subst after_absent; reflexivity).
  rewrite C1, F1 in P1. rewrite C2, F2 in P2.
  fold (answer (fs s)) in P1. fold (answer (delete path (fs s))) in P2.
  split; [|split; [|split]].
  - rewrite E1. cbn [fst]. split; [reflexivity|]. split; [|exact N1].
    subst after_empty. cbn [log set_log set_repos].
    rewrite skipn_app, skipn_all, Nat.sub_diag. reflexivity.
  - rewrite E2. cbn [fst]. split; [reflexivity|]. subst. reflexivity.
  - destruct (answer (fs s)) as [st|].
    + split; [exact P1|]. unfold cloned. cbn [calls set_calls set_repos set_fs].
      now rewrite C1.
    + rewrite P1. split; reflexivity.
  - intros Hsame r r'. subst r r'. rewrite P1, P2, <- Hsame.
    destruct (answer (fs s)) as [st|].
    + destruct (cloned_worlds host config remote st s
                  (od_set (name remote) None (_repos s))
                  (log s ++ [(DEBUG, "Init repo '" +:+ name remote +:+ "' in '" +:+ path +:+ "'");
                             (WARNING, "Empty Git repository '" +:+ path +:+ "'")])
                  (log s ++ [(DEBUG, "Init repo '" +:+ name remote +:+ "' in '" +:+ path +:+ "'");
                             (DEBUG, "Missing directory '" +:+ path +:+ "'")]))
        as (k1 & k2 & K1 & K2).
      fold path in K2.
      assert (W1 : after_empty
                   = set_repos (od_set (name remote) None (_repos s))
                       (set_log (log s ++ [(DEBUG, "Init repo '" +:+ name remote +:+ "' in '"
                                                   +:+ path +:+ "'");
                                           (WARNING, "Empty Git repository '" +:+ path +:+ "'")])
                          s)) by exact A1.
      assert (W2 : after_absent
                   = set_repos (od_set (name remote) None (_repos s))
                       (set_log (log s ++ [(DEBUG, "Init repo '" +:+ name remote +:+ "' in '"
                                                   +:+ path +:+ "'");
                                           (DEBUG, "Missing directory '" +:+ path +:+ "'")])
                          (set_fs (delete path (fs s)) s))) by exact A2.
      rewrite W1, W2, K1, K2.
      rewrite !(framed_after_clone host remote (mkRepo path)).
      cbn [fst snd]. repeat split; reflexivity.
    + cbn [fst snd calls set_calls _repos set_log].
      repeat split; try reflexivity.
      * subst. reflexivity.
      * intros [x Hx]. discriminate.
Qed.

Lemma empty_directory_cloned_like_absent_witness :
  let host := Sample.host_walking [Sample.luci_spec] in
  let after_empty := snd (init_repo host (Sample.cfg "sd") false "luci" Sample.empty_st) in
  let after_absent :=
    snd (init_repo host (Sample.cfg "sd") false "luci"
           (set_fs (delete "/home/u/build/miner/luci" Sample.empty_files) Sample.empty_st)) in
  od_get "luci" (_repos after_empty) = Some None
  /\ fst (_prepare_repo host (Sample.cfg "sd") Sample.luci_spec after_empty)
     = fst (_prepare_repo host (Sample.cfg "sd") Sample.luci_spec after_absent)
  /\ fs (snd (_prepare_repo host (Sample.cfg "sd") Sample.luci_spec after_empty))
     = fs (snd (_prepare_repo host (Sample.cfg "sd") Sample.luci_spec after_absent)).
Proof.
  intros host after_empty after_absent.
  pose proof (empty_directory_cloned_like_absent host (Sample.cfg "sd") Sample.luci_spec
                Sample.empty_st 10 false) as H.
  cbv zeta in H.
  assert (Hd : fs Sample.empty_st
               !! _get_repo_path host (Sample.cfg "sd") (name Sample.luci_spec)
               = Some (mkNode (KDir []) 10)) by (vm_compute; reflexivity).
  destruct (H Hd) as ((_ & _ & N) & _ & _ & S).
  destruct S as (R & _ & _ & F); [reflexivity|].
  split; [exact N|]. split; [exact R|]. apply F. vm_compute. eauto.
Defined.

(** ** Lines *)

Lemma no_eol_app a b : no_eol (a +:+ b) = no_eol a && no_eol b.
Proof.
  induction a as [|c a IH]; [reflexivity|].
  rewrite app_cons. cbn [no_eol]. rewrite IH. now rewrite andb_assoc.
Qed.

Lemma linebreak1_LF c : Py.is_linebreak1 c = false -> Py.eqb_ascii c Py.LF = false.
Proof.
  intros H. destruct (Py.eqb_ascii c Py.LF) eqn:E; [|reflexivity].
  apply Ascii.eqb_eq in E. subst c. discriminate.
Qed.

Lemma no_eol_snoc acc c :
  no_eol acc = true -> Py.eqb_ascii c Py.CR = false -> Py.is_linebreak1 c = false ->
  no_eol (acc +:+ String c "") = true.
Proof.
  intros Ha Hc Hl. rewrite no_eol_app, Ha. cbn [no_eol].
  now rewrite Hc, (linebreak1_LF c Hl).
Qed.

Lemma splitlines_aux_no_eol n : forall s acc,
  String.length s <= n -> no_eol acc = true ->
  forall l, In l (Py.splitlines_aux acc s) -> no_eol l = true.
Proof.
  induction n as [|n IH]; intros s acc Hn Ha l Hl.
  - destruct s; [|cbn in Hn; lia]. cbn [Py.splitlines_aux] in Hl.
    destruct (String.eqb acc ""); destruct Hl as [<-|[]] || destruct Hl. exact Ha.
  - destruct s as [|c s]; cbn [Py.splitlines_aux] in Hl.
    { destruct (String.eqb acc ""); destruct Hl as [<-|[]] || destruct Hl. exact Ha. }
    cbn [String.length] in Hn.
    assert (Hrec : forall s' acc', String.length s' <= n -> no_eol acc' = true ->
                   In l (Py.splitlines_aux acc' s') -> no_eol l = true)
      by (intros s' acc' H1 H2 H3; exact (IH s' acc' H1 H2 l H3)).
    assert (Hnew : forall s', String.length s' <= n ->
                   In l (Py.splitlines_aux "" s') -> no_eol l = true)
      by (intros s' H1 H3; exact (Hrec s' "" H1 eq_refl H3)).
    destruct (Py.eqb_ascii c Py.CR) eqn:ECR.
    { destruct s as [|c2 s2]; [destruct Hl as [<-|[]]; exact Ha|].
      cbn [String.length] in Hn.
      destruct (Py.eqb_ascii c2 Py.LF); destruct Hl as [<-|Hl]; try exact Ha;
        (apply Hnew in Hl; [exact Hl|]); cbn [String.length]; lia. }
    destruct (Py.is_linebreak1 c) eqn:ELB.
    { destruct Hl as [<-|Hl]; [exact Ha|]. apply Hnew in Hl; [exact Hl | lia]. }
    pose proof (no_eol_snoc acc c Ha ECR ELB) as Hsnoc.
    assert (Hmore : forall s', String.length s' <= n ->
                    In l (Py.splitlines_aux (acc +:+ String c "") s') -> no_eol l = true)
      by (intros s' H1 H3; exact (Hrec s' _ H1 Hsnoc H3)).
    destruct (Py.eqb_ascii c "194"%char).
    { destruct s as [|c2 s2]; [destruct Hl as [<-|[]]; exact Hsnoc|].
      cbn [String.length] in Hn.
      destruct (Py.eqb_ascii c2 "133"%char).
      - destruct Hl as [<-|Hl]; [exact Ha|]. apply Hnew in Hl; [exact Hl | lia].
      - apply Hmore in Hl; [exact Hl|]. cbn [String.length]. lia. }
    destruct (Py.eqb_ascii c "226"%char).
    { destruct s as [|c2 [|c3 s3]].
      - apply Hmore in Hl; [exact Hl|]. cbn [String.length] in *. lia.
      - apply Hmore in Hl; [exact Hl|]. cbn [String.length] in *. lia.
      - cbn [String.length] in Hn.
        destruct (Py.eqb_ascii c2 "128"%char
                  && (Py.eqb_ascii c3 "168"%char || Py.eqb_ascii c3 "169"%char)).
        + destruct Hl as [<-|Hl]; [exact Ha|]. apply Hnew in Hl; [exact Hl | lia].
        + apply Hmore in Hl; [exact Hl|]. cbn [String.length]. lia. }
    apply Hmore in Hl; [exact Hl | lia].
Qed.

(** A line that [splitlines] returns holds no line end. *)
Lemma splitlines_no_eol text l : In l (Py.splitlines text) -> no_eol l = true.
Proof.
  apply (splitlines_aux_no_eol (String.length text) text ""); [lia | reflexivity].
Qed.

Lemma readlines_aux_line l : forall acc rest,
  no_eol l = true ->
  Py.readlines_aux acc (l +:+ Py.nl +:+ rest)
  = (acc +:+ l +:+ Py.nl) :: Py.readlines_aux "" rest.
Proof.
  induction l as [|c l IH]; intros acc rest Hl.
  - reflexivity.
  - cbn [no_eol] in Hl. apply andb_true_iff in Hl as [Hc Hl].
    apply andb_true_iff in Hc as [H1 H2].
    apply negb_true_iff in H1, H2.
    rewrite app_cons. cbn [Py.readlines_aux]. rewrite H1, H2.
    rewrite IH by exact Hl. rewrite append_assoc. reflexivity.
Qed.

(** Read back, a file written line by line has those lines. *)
Lemma readlines_unlines ls :
  (forall l, In l ls -> no_eol l = true) ->
  Py.readlines (unlines ls) = map (fun l => l +:+ Py.nl) ls.
Proof.
  unfold Py.readlines. induction ls as [|l ls IH]; intros H; [reflexivity|].
  cbn [unlines map]. rewrite readlines_aux_line by (apply H; now left).
  rewrite IH by (intros l' Hl'; apply H; now right). reflexivity.
Qed.

Lemma startswith_app_nl c : forall l,
  no_lf c = true -> Py.startswith (l +:+ Py.nl) c = Py.startswith l c.
Proof.
  induction c as [|a c IH]; intros l Hc; [reflexivity|].
  cbn [no_lf] in Hc. apply andb_true_iff in Hc as [Ha Hc]. apply negb_true_iff in Ha.
  destruct l as [|b l].
  - change ("" +:+ Py.nl) with (String Py.LF ""). cbn [Py.startswith].
    now rewrite Ha.
  - rewrite app_cons. cbn [Py.startswith]. now rewrite IH.
Qed.

Lemma is_derived_app_nl l : is_derived (l +:+ Py.nl) = is_derived l.
Proof.
  unfold is_derived, configs. cbn [existsb].
  now rewrite !startswith_app_nl by reflexivity.
Qed.

Lemma kept_lines_spec text l :
  In l (kept_lines text) -> is_derived l = false /\ no_eol l = true.
Proof.
  unfold kept_lines. intros H. apply List.filter_In in H as [H1 H2].
  split; [now apply negb_true_iff | now apply splitlines_no_eol in H1].
Qed.

(** No line of the stored diff starts with a derived key. *)
Lemma stored_diff_clean text line :
  In line (Py.readlines (unlines (kept_lines text))) -> is_derived line = false.
Proof.
  rewrite readlines_unlines by (intros l Hl; now apply kept_lines_spec in Hl).
  intros H. apply in_map_iff in H as (l & <- & Hl).
  rewrite is_derived_app_nl. now apply kept_lines_spec in Hl.
Qed.

Lemma logging_eq lvl msg s :
  logging lvl msg s = (Ok tt, set_log (log s ++ [(lvl, msg)]) s).
Proof. reflexivity. Qed.

(** ** C6: what [_config_lede] stores *)

Section ConfigLede.

Variable host : Host.
Variable config : Config.

(** A call of [_run] with the default keyword arguments but [output] *)
Lemma run_plain a rest output s :
  let call := mkProcCall (a :: rest) (_working_dir s) None output None in
  let r := run_process host (calls s) call (fs s) in
  _run host (a :: rest) [] output None s
  = (if fst (fst r) then Ok (if output then Some (snd (fst r)) else None)
     else Raise CalledProcessError,
     set_fs (snd r)
       (set_calls (calls s ++ [CProc call])
          (set_log (log s ++ [(DEBUG, "Run '" +:+ Py.join " " (a :: rest) +:+ "' in '"
                                      +:+ fmt_opt (_working_dir s) +:+ "'")]) s))).
Proof.
  intros call r. unfold _run. run. fold call. fold r.
  destruct (fst (fst r)); reflexivity.
Qed.

Lemma file_write_file p data s c t :
  fs s !! p = Some (mkNode (KFile c) t) ->
  file_write p data s
  = (Ok tt, set_clock (clock s + 1)
              (set_fs (<[p := mkNode (KFile (c +:+ data)) (clock s)]> (fs s)) s)).
Proof. intros H. unfold file_write, put_file. run. rewrite H. reflexivity. Qed.

(** The loop that writes the lines of the diff *)
Lemma write_lines p ls : forall s c t,
  fs s !! p = Some (mkNode (KFile c) t) ->
  exists s' t',
    for_ ls (fun line =>
               when (negb (existsb (fun c => Py.startswith line c) configs))
                 (file_write p line >> file_write p Py.nl)) s
    = (Ok tt, s')
    /\ fs s' !! p
       = Some (mkNode (KFile (c +:+ unlines (List.filter (fun l => negb (is_derived l)) ls))) t')
    /\ calls s' = calls s.
Proof.
  induction ls as [|l ls IH]; intros s c t Hp.
  - exists s, t. cbn [for_ List.filter unlines]. rewrite append_nil_r. auto.
  - cbn [for_ List.filter]. fold (is_derived l).
    destruct (is_derived l); cbn [negb when].
    + destruct (IH s c t Hp) as (s' & t' & E & F & C).
      exists s', t'. rewrite (bind_ok _ _ _ _ _ (eq_refl : ret tt s = (Ok tt, s))).
      auto.
    + pose proof (file_write_file p l s c t Hp) as W1.
      set (s1 := set_clock (clock s + 1)
                   (set_fs (<[p := mkNode (KFile (c +:+ l)) (clock s)]> (fs s)) s)) in *.
      assert (Hp1 : fs s1 !! p = Some (mkNode (KFile (c +:+ l)) (clock s)))
        by apply lookup_insert_eq.
      pose proof (file_write_file p Py.nl s1 _ _ Hp1) as W2.
      set (s2 := set_clock (clock s1 + 1)
                   (set_fs (<[p := mkNode (KFile ((c +:+ l) +:+ Py.nl)) (clock s1)]> (fs s1))
                      s1)) in *.
      assert (Hp2 : fs s2 !! p = Some (mkNode (KFile ((c +:+ l) +:+ Py.nl)) (clock s1)))
        by apply lookup_insert_eq.
      destruct (IH s2 _ _ Hp2) as (s' & t' & E & F & C).
      exists s', t'. split; [|split].
      * rewrite bind_assoc, (bind_ok _ _ _ _ _ W1), (bind_ok _ _ _ _ _ W2). exact E.
      * rewrite F. cbn [unlines]. now rewrite !append_assoc.
      * rewrite C. reflexivity.
Qed.

End ConfigLede.

Lemma getmtime_ok path s n :
  fs s !! path = Some n -> os_path_getmtime path s = (Ok (mtime n), s).
Proof. intros H. unfold os_path_getmtime. run. now rewrite H. Qed.

Lemma open_w_ok path s :
  is_directory (fs s) path = false ->
  open_w path s
  = (Ok tt, set_clock (clock s + 1)
              (set_fs (<[path := mkNode (KFile "") (clock s)]> (fs s))
                 (set_calls (calls s ++ [COpen path "w"]) s))).
Proof.
  unfold is_directory, open_w, put_file. intros H. run.
  destruct (fs s !! path) as [[[c|l|st] t]|]; try discriminate; reflexivity.
Qed.

(** C6: [_config_lede] compares the modification time of the generated
    configuration before and after [make menuconfig]. When it is the same,
    the builder writes nothing: the files are as the tool left them, the
    authored configuration included. Otherwise the authored configuration
    is truncated, the diff helper runs, and the file receives every line of
    the helper's output that starts with neither derived key, each followed
    by a newline; no line of the file then starts with a derived key. *)
Theorem config_lede_stores_filtered_diff host config s d n0 n1 :
  _working_dir s = Some d ->
  let authored := Path.abspath (getcwd host) (build_config config) in
  let generated := Path.join d [CONFIG_NAME] in
  let tool := run_process host (calls s) (menuconfig_call d) (fs s) in
  fs s !! generated = Some n0 ->
  fst (fst tool) = true ->
  snd tool !! generated = Some n1 ->
  (mtime n1 = mtime n0 ->
   exists s',
     _config_lede host config s = (Ok tt, s')
     /\ fs s' = snd tool
     /\ calls s' = calls s ++ [CProc (menuconfig_call d)]
     /\ (snd tool !! authored = fs s !! authored -> fs s' !! authored = fs s !! authored))
  /\ (mtime n1 <> mtime n0 ->
      is_directory (snd tool) authored = false ->
      let truncated := <[authored := mkNode (KFile "") (clock s)]> (snd tool) in
      let helper :=
        run_process host (calls s ++ [CProc (menuconfig_call d); COpen authored "w"])
          (diffconfig_call d) truncated in
      fst (fst helper) = true ->
      Py.utf8_valid (snd (fst helper)) = true ->
      snd helper !! authored = truncated !! authored ->
      exists s' t,
        _config_lede host config s = (Ok tt, s')
        /\ fs s' !! authored
           = Some (mkNode (KFile (unlines (kept_lines (snd (fst helper))))) t)
        /\ (forall line,
              In line (Py.readlines (unlines (kept_lines (snd (fst helper))))) ->
              is_derived line = false)).
Proof.
  intros Hd authored generated tool H0 Htool H1.
  unfold _config_lede.
  rewrite (bind_ok _ _ _ _ _ (get_config_paths_ok host config s d Hd)).
  cbn [fst snd]. fold authored generated.
  rewrite (bind_ok _ _ _ _ _ (getmtime_ok generated s n0 H0)).
  pose proof (run_plain host "make" ["menuconfig"] false s) as R.
  cbv zeta in R. rewrite Hd in R. fold (menuconfig_call d) in R. fold tool in R.
  rewrite Htool in R. rewrite (bind_ok _ _ _ _ _ R). clear R.
  match goal with
  | |- context [bind (os_path_getmtime generated) _ ?st] => set (s1 := st)
  end.
  assert (H1' : fs s1 !! generated = Some n1) by exact H1.
  rewrite (bind_ok _ _ _ _ _ (getmtime_ok generated s1 n1 H1')).
  split.
  - intros E. rewrite E, Z.eqb_refl. eexists. split; [reflexivity|].
    cbn [fs calls set_log set_fs set_calls s1]. repeat split; auto.
  - intros NE Hdir.
    set (truncated := <[authored := mkNode (KFile "") (clock s)]> (snd tool)).
    set (helper := run_process host _ (diffconfig_call d) truncated).
    intros Hh Hu Hkeep.
    apply Z.eqb_neq in NE. rewrite NE.
    rewrite (bind_ok _ _ _ _ _ (logging_eq _ _ s1)).
    match goal with
    | |- context [bind (open_w authored) _ ?st] => set (s2 := st)
    end.
    assert (Hdir2 : is_directory (fs s2) authored = false) by exact Hdir.
    rewrite (bind_ok _ _ _ _ _ (open_w_ok authored s2 Hdir2)).
    match goal with
    | |- context [bind (_run _ _ _ _ _) _ ?st] => set (s3 := st)
    end.
    pose proof (run_plain host (Path.join "scripts" ["diffconfig.sh"]) [] true s3) as R.
    cbv zeta in R.
    assert (W3 : _working_dir s3 = Some d) by exact Hd.
    assert (C3 : calls s3 = calls s ++ [CProc (menuconfig_call d); COpen authored "w"]).
    { unfold s3, s2, s1. cbn [calls set_calls set_clock set_fs set_log].
      now rewrite <- app_assoc. }
    assert (F3 : fs s3 = truncated) by reflexivity.
    rewrite W3, C3, F3 in R. fold (diffconfig_call d) in R. fold helper in R.
    rewrite Hh in R. rewrite (bind_ok _ _ _ _ _ R). clear R.
    unfold decode_utf8. rewrite Hu.
    match goal with
    | |- context [bind (ret _) _ ?st] => set (s4 := st)
    end.
    rewrite (bind_ok _ _ _ _ _ (eq_refl : ret (snd (fst helper)) s4 = (Ok _, s4))).
    assert (F4 : fs s4 !! authored = Some (mkNode (KFile "") (clock s))).
    { unfold s4. cbn [fs set_fs set_calls set_log]. rewrite Hkeep.
      apply lookup_insert_eq. }
    destruct (write_lines authored (Py.splitlines (snd (fst helper))) s4 _ _ F4)
      as (s' & t' & E & F & C).
    exists s', t'. split; [exact E|]. split.
    + rewrite F. reflexivity.
    + apply stored_diff_clean.
Qed.

Lemma config_lede_stores_filtered_diff_witness :
  exists t,
    fs (snd (_config_lede Sample.editing_host (Sample.cfg "sd") (Sample.st Sample.files)))
    !! "/home/u/configs/miner.config"
    = Some (mkNode (KFile ("CONFIG_PACKAGE_cgminer=y" +:+ Py.nl
                           +:+ "CONFIG_TARGET_zynq=y" +:+ Py.nl)) t).
Proof.
  pose proof (config_lede_stores_filtered_diff Sample.editing_host (Sample.cfg "sd")
                (Sample.st Sample.files) Sample.lede_dir
                (Sample.file ("CONFIG_TARGET_zynq=y" +:+ Py.nl))
                (mkNode (KFile ("CONFIG_TARGET_zynq=y" +:+ Py.nl)) 50)) as H.
  cbv zeta in H.
  destruct H as [_ H].
  - reflexivity.
  - vm_compute. reflexivity.
  - reflexivity.
  - vm_compute. reflexivity.
  - destruct H as (s' & t & E & F & _).
    + vm_compute. discriminate.
    + vm_compute. reflexivity.
    + reflexivity.
    + reflexivity.
    + vm_compute. reflexivity.
    + exists t. rewrite E. cbn [snd].
      etransitivity; [exact F|]. vm_compute. reflexivity.
Defined.

Lemma bind_gets {A B} (f : State -> A) (k : A -> M B) s :
  bind (gets f) k s = k (f s) s.
Proof. reflexivity. Qed.

Lemma bind_ret {A B} (a : A) (k : A -> M B) s : bind (ret a) k s = k a s.
Proof. reflexivity. Qed.

(** ** C7: a second run of [_prepare_feeds] writes nothing *)

Section PrepareFeeds.

Variable host : Host.
Variable config : Config.
Variable dst : string.

Lemma quiet_refl s : quiet host dst s s.
Proof.
  split; [reflexivity|]. split; [|reflexivity].
  exists []. now rewrite app_nil_r.
Qed.

Lemma quiet_trans s1 s2 s3 :
  quiet host dst s1 s2 -> quiet host dst s2 s3 -> quiet host dst s1 s3.
Proof.
  intros (W1 & (p1 & C1) & F1) (W2 & (p2 & C2) & F2).
  split; [congruence|]. split.
  - exists (p1 ++ p2). rewrite C2, C1, map_app, app_assoc. reflexivity.
  - intros K. rewrite F2, F1; auto.
Qed.

Lemma quiet_log l s : quiet host dst s (set_log l s).
Proof.
  split; [reflexivity|]. split; [|reflexivity].
  exists []. cbn [map calls set_log]. now rewrite app_nil_r.
Qed.

Abbreviation quiet_m := (quiet_from host dst).

Lemma quiet_bind {A B} (m : M A) (k : A -> M B) :
  quiet_m m -> (forall a, quiet_m (k a)) -> quiet_m (bind m k).
Proof.
  intros Hm Hk s. unfold bind. specialize (Hm s).
  destruct (m s) as [[a|e] s1]; cbn [snd] in *; [|exact Hm].
  eapply quiet_trans; [exact Hm | apply Hk].
Qed.

Lemma quiet_ret {A} (a : A) : quiet_m (ret a).
Proof. intros s. apply quiet_refl. Qed.

Lemma quiet_logging lvl msg : quiet_m (logging lvl msg).
Proof. intros s. apply quiet_log. Qed.

Lemma quiet_when c (m : M unit) : quiet_m m -> quiet_m (when c m).
Proof. intros H. destruct c; [exact H | apply quiet_ret]. Qed.

Lemma quiet_run a rest output : quiet_m (_run host (a :: rest) [] output None).
Proof.
  intros s. rewrite run_plain. cbn [snd].
  split; [reflexivity|]. split.
  - eexists [_]. reflexivity.
  - intros K. cbn [fs set_fs]. apply K.
Qed.

(** Lines 260-265: the update and install steps *)
Lemma quiet_feeds_steps update install :
  quiet_m
    (when update
       (logging DEBUG "Updating feeds" >>
        _run host [Path.join "scripts" ["feeds"]; "update"; "-a"] [] false None >> ret tt) >>
     when install
       (logging DEBUG "Installing feeds" >>
        _run host [Path.join "scripts" ["feeds"]; "install"; "-a"] [] false None >> ret tt)).
Proof.
  apply quiet_bind; [|intros _]; apply quiet_when;
    (apply quiet_bind; [apply quiet_logging|intros _]);
    (apply quiet_bind; [apply quiet_run|intros _]); apply quiet_ret.
Qed.

Lemma prepare_feeds_quiet s d :
  _working_dir s = Some d ->
  dst = Path.join d [FEEDS_CONF_DST] ->
  is_Some (fs s !! dst) ->
  yes (feeds_create_always config) = false ->
  quiet host dst s (snd (_prepare_feeds host config s)).
Proof.
  intros Hd Hdst [n Hn] Hc. rewrite Hdst in Hn. unfold _prepare_feeds.
  rewrite (bind_ok _ _ _ _ _ (logging_eq _ _ s)).
  rewrite bind_gets. unfold _get_repo. rewrite bind_assoc, bind_gets.
  cbn [_repos _working_dir set_log]. rewrite Hd.
  destruct (od_get LUCI (_repos s)) as [[luci|]|].
  - rewrite bind_ret. cbn [attr_working_dir fspath]. rewrite !bind_ret.
    unfold os_path_exists. rewrite bind_gets.
    cbn [fs set_log]. rewrite Hn, Hc. cbn [negb orb].
    rewrite bind_ret. cbn [fst snd].
    eapply quiet_trans; [apply quiet_log | apply quiet_feeds_steps].
  - rewrite bind_ret. cbn [attr_working_dir]. apply quiet_log.
  - apply quiet_log.
Qed.

End PrepareFeeds.

(** C7: run from a state in which the destination manifest exists, and
    with the force-create flag not set, [_prepare_feeds] opens no file for
    writing: the only calls it makes are the feed script runs. The manifest
    is therefore what it was, as long as the script itself leaves it alone,
    and the same holds for the run after this one. *)
Theorem feeds_rerun_writes_nothing host config s d :
  _working_dir s = Some d ->
  let dst := Path.join d [FEEDS_CONF_DST] in
  is_Some (fs s !! dst) ->
  yes (feeds_create_always config) = false ->
  let s' := snd (_prepare_feeds host config s) in
  let s'' := snd (_prepare_feeds host config s') in
  only_processes (calls s) (calls s')
  /\ (keeps host dst ->
      fs s' !! dst = fs s !! dst
      /\ only_processes (calls s') (calls s'')
      /\ fs s'' !! dst = fs s' !! dst).
Proof.
  intros Hd dst Hn Hc s' s''.
  destruct (prepare_feeds_quiet host config dst s d Hd eq_refl Hn Hc) as (W1 & C1 & F1).
  fold s' in W1, C1, F1.
  split; [exact C1|]. intros K. specialize (F1 K).
  split; [exact F1|].
  assert (Hd' : _working_dir s' = Some d) by congruence.
  assert (Hn' : is_Some (fs s' !! dst)) by (rewrite F1; exact Hn).
  destruct (prepare_feeds_quiet host config dst s' d Hd' eq_refl Hn' Hc) as (_ & C2 & F2).
  fold s'' in C2, F2. auto.
Qed.

Lemma feeds_rerun_writes_nothing_witness :
  let s' := snd (_prepare_feeds (Sample.host None) Sample.feeds_cfg Sample.feeds_st) in
  let s'' := snd (_prepare_feeds (Sample.host None) Sample.feeds_cfg s') in
  fs s'' !! "/home/u/build/miner/lede/feeds.conf"
  = Sample.feeds_files !! "/home/u/build/miner/lede/feeds.conf"
  /\ length (calls s') = 1%nat /\ length (calls s'') = 2%nat.
Proof.
  intros s' s''.
  destruct (feeds_rerun_writes_nothing (Sample.host None) Sample.feeds_cfg Sample.feeds_st
              Sample.lede_dir) as (_ & H).
  - reflexivity.
  - vm_compute. eauto.
  - reflexivity.
  - destruct H as (F1 & _ & F2).
    + intros h c files. reflexivity.
    + split; [|split; vm_compute; reflexivity].
      etransitivity; [exact F2|]. exact F1.
Defined.

(** ** C8: removing the marker file *)

Section DeploySd.

Variable host : Host.
Variable config : Config.
Variable image : Image.

Ltac device_cases :=
  repeat match goal with
         | |- context [device_ok host ?h ?c] =>
             let E := fresh "E" in destruct (device_ok host h c) eqn:E; run
         | |- context [Py.mem MARKER ?l] =>
             let F := fresh "F" in destruct (Py.mem MARKER l) eqn:F; run
         end.

Ltac split_remove l :=
  lazymatch l with
  | CRemote (Remove _) ?o :: ?post => constr:((@nil Call, o, post))
  | ?c :: ?rest =>
      let r := split_remove rest in
      lazymatch r with
      | (?pre, ?o, ?post) => constr:((c :: pre, o, post))
      end
  end.

Ltac window :=
  lazymatch goal with
  | |- removed_in_window ?new =>
      let r := split_remove new in
      lazymatch r with
      | (?pre, ?o, ?post) =>
          exists pre, o, post;
          repeat split; try reflexivity;
          first [left; reflexivity | right; reflexivity]
      end
  end.

Ltac listing_cases :=
  let l := fresh "l" in
  let Hin := fresh "Hin" in
  intros l Hin; cbn [In] in Hin;
  repeat (destruct Hin as [Hin|Hin]; try discriminate Hin);
  [injection Hin as <-;
   match goal with
   | F : Py.mem MARKER _ = _ |- _ => rewrite F
   end;
   first [reflexivity | window]
  | destruct Hin ].

Ltac no_listing :=
  let l := fresh "l" in
  let Hin := fresh "Hin" in
  intros l Hin; cbn [In] in Hin;
  repeat (destruct Hin as [Hin|Hin]; try discriminate Hin);
  lazymatch type of Hin with False => destruct Hin end.

Ltac all_ok :=
  let Hall := fresh "Hall" in
  intros Hall;
  first
    [ match goal with
      | E : device_ok host _ _ = false |- _ => rewrite Hall in E; discriminate E
      end
    | split; [reflexivity|]; split; [reflexivity|];
      eexists; cbn [In]; repeat (first [left; reflexivity | right]) ].

Ltac leaf :=
  try match goal with
      | F : Py.mem MARKER _ = _ |- _ => rewrite <- ?app_assoc in F; cbn [app] in F
      end;
  rewrite <- ?app_assoc; cbn [app fst snd calls set_calls set_log];
  eexists; split; [reflexivity|]; split;
  [first [listing_cases | no_listing] | all_ok].

Lemma deploy_ssh_sd_marker s :
  yes (deploy_remove_uuid config) = true ->
  exists new,
    calls (snd (_deploy_ssh_sd host config image s)) = calls s ++ new
    /\ marker_handling new
    /\ ((forall h c, device_ok host h c = true) ->
        fst (_deploy_ssh_sd host config image s) = Ok tt
        /\ mounting new = [mount1; umount; mount2; umount]
        /\ exists l, In (CRemote (Listdir "etc") (Listed l)) new).
Proof.
  intros Hy. unfold marker_handling.
  unfold _deploy_ssh_sd, _write_uenv, sftp_listdir, remote_do, remote_call.
  rewrite Hy.
  match goal with
  | |- context [Connect ?h _ _] => set (hostname := h)
  end.
  destruct (yes (deploy_reboot config)); run; device_cases; leaf.
Qed.

End DeploySd.

Lemma removes_app a b : removes (a ++ b) = removes a ++ removes b.
Proof.
  induction a as [|c a IH]; [reflexivity|].
  cbn [app removes]. destruct c as [| |[] o|]; cbn [app]; now rewrite ?IH.
Qed.

Lemma removed_in_window_once new :
  removed_in_window new -> removes new = [MARKER_PATH].
Proof.
  intros (pre & o & post & -> & _ & Hpre & Hpost & _).
  rewrite removes_app. cbn [removes]. now rewrite Hpre, Hpost.
Qed.

(** C8: in a deployment with the removal flag set, once the listing of
    [etc] on the second partition is obtained: if it has the marker file,
    the run has exactly one remove call, on [etc/.extroot-uuid], issued
    after the first mount and unmount and the second mount and before the
    second unmount; if it has not, the run has no remove call. When no
    operation of the device fails, the listing is obtained, both partitions
    are mounted and unmounted in turn, and no error is raised. *)
Theorem marker_removed_in_second_mount host config image s :
  yes (deploy_remove_uuid config) = true ->
  let r := _deploy_ssh_sd host config image s in
  exists new,
    calls (snd r) = calls s ++ new
    /\ (forall l,
          In (CRemote (Listdir "etc") (Listed l)) new ->
          (In MARKER l -> removed_in_window new /\ removes new = [MARKER_PATH])
          /\ (~ In MARKER l -> removes new = []))
    /\ ((forall h c, device_ok host h c = true) ->
        fst r = Ok tt
        /\ mounting new = [mount1; umount; mount2; umount]
        /\ exists l, In (CRemote (Listdir "etc") (Listed l)) new).
Proof.
  intros Hy r.
  destruct (deploy_ssh_sd_marker host config image s Hy) as (new & Hc & Hm & Hok).
  exists new. split; [exact Hc|]. split; [|exact Hok].
  intros l Hin. specialize (Hm l Hin). split.
  - intros Hl. apply mem_In in Hl. rewrite Hl in Hm.
    split; [exact Hm | now apply removed_in_window_once].
  - intros Hl. apply mem_false_In in Hl. now rewrite Hl in Hm.
Qed.

Lemma marker_removed_in_second_mount_witness :
  let r := _deploy_ssh_sd (Sample.host None) (Sample.cfg "sd")
             (mkImage "/img/BOOT.bin" "/img/fit.itb") (Sample.st Sample.files) in
  fst r = Ok tt /\ removes (calls (snd r)) = [MARKER_PATH].
Proof.
  intros r.
  destruct (marker_removed_in_second_mount (Sample.host None) (Sample.cfg "sd")
              (mkImage "/img/BOOT.bin" "/img/fit.itb") (Sample.st Sample.files))
    as (new & Hc & Hm & Hok); [reflexivity|].
  assert (Hnew : new = calls (snd r)) by (symmetry; exact Hc).
  destruct Hok as (Hr & _ & l & Hl); [intros h c; reflexivity|].
  split; [exact Hr|].
  destruct (Hm l Hl) as [Hpresent _].
  rewrite <- Hnew. apply Hpresent.
  assert (Hval : exists v, calls (snd r) = v
                           /\ forall l', In (CRemote (Listdir "etc") (Listed l')) v ->
                                         In MARKER l').
  { eexists. split; [vm_compute; reflexivity|].
    intros l' H. cbn [In] in H.
    repeat (destruct H as [H|H]; try discriminate H);
      [injection H as <-; now left | destruct H]. }
  destruct Hval as (v & Hv & Hmarker).
  apply Hmarker. rewrite <- Hv, <- Hnew. exact Hl.
Defined.

(** The same deployment against a device whose [etc] has no marker file:
    no remove call, no error. *)
Example deploy_without_marker :
  let r := _deploy_ssh_sd (Sample.host_walking []) (Sample.cfg "sd")
             (mkImage "/img/BOOT.bin" "/img/fit.itb") (Sample.st Sample.files) in
  fst r = Ok tt /\ removes (calls (snd r)) = []
  /\ mounting (calls (snd r)) = [mount1; umount; mount2; umount].
Proof. repeat split; vm_compute; reflexivity. Qed.

(** ** The model at work *)

Example join_restarts_at_absolute : Path.join "/b" ["x"; "/y"; "z"] = "/y/z".
Proof. reflexivity. Qed.

Example abspath_relative :
  Path.abspath "/home/u" "../cfg/./a.config" = "/home/cfg/a.config".
Proof. reflexivity. Qed.

Example splitlines_mixed_ends :
  Py.splitlines ("a" +:+ Py.nl +:+ String Py.CR (String Py.LF "b") +:+ Py.nl)
  = ["a"; ""; "b"].
Proof. reflexivity. Qed.

Example hostname_from_mac :
  _get_hostname (Sample.host None) (Sample.cfg "sd") = "miner-ffee01".
Proof. reflexivity. Qed.

(** The first run writes the manifest: the template without its [luci]
    line, then the link line; both feed steps follow. *)
Example feeds_first_run :
  let r := _prepare_feeds (Sample.host None) Sample.feeds_cfg Sample.fresh_feeds_st in
  fst r = Ok tt
  /\ fs (snd r) !! "/home/u/build/miner/lede/feeds.conf"
     = Some (mkNode (KFile ("src-git packages https://git.example/packages.git" +:+ Py.nl
                            +:+ "src-link luci /home/u/build/miner/luci" +:+ Py.nl)) 102)
  /\ length (calls (snd r)) = 3%nat.
Proof. repeat split; vm_compute; reflexivity. Qed.

(** With [sd] as target, [deploy] goes on to the device. *)
Example deploy_sd_reaches_device :
  let r := deploy (Sample.host None) (Sample.cfg "sd") (Sample.st Sample.files) in
  fst r = Ok tt
  /\ hd_error (calls (snd r)) = Some (CRemote (Connect "miner-ffee01" "root" None) Done)
  /\ nth_error (calls (snd r)) 7
     = Some (CRemote (Put "/home/u/build/miner/lede/bin/targets/zynq/generic-glibc/uboot-zynq-miner-sd/BOOT.bin"
                          "BOOT.bin") Done).
Proof. repeat split; vm_compute; reflexivity. Qed.

(** * Further properties of the builder *)

Section Stepwise.

Variable R : State -> State -> Prop.
Hypothesis R_refl : forall s, R s s.
Hypothesis R_trans : forall a b c, R a b -> R b c -> R a c.
Hypothesis R_log : forall l s, R s (set_log l s).
Hypothesis R_stdout : forall l s, R s (set_stdout l s).
Hypothesis R_stderr : forall l s, R s (set_stderr l s).

Lemma step_ret {A} (a : A) : stepwise R (ret a).
Proof. intros s. apply R_refl. Qed.

Lemma step_raise {A} e : stepwise R (@raise A e).
Proof. intros s. apply R_refl. Qed.

Lemma step_gets {A} (f : State -> A) : stepwise R (gets f).
Proof. intros s. apply R_refl. Qed.

Lemma step_bind {A B} (m : M A) (k : A -> M B) :
  stepwise R m -> (forall a, stepwise R (k a)) -> stepwise R (bind m k).
Proof.
  intros Hm Hk s. unfold bind. specialize (Hm s).
  destruct (m s) as [[a|e] s1]; cbn [snd] in *; [|exact Hm].
  eapply R_trans; [exact Hm | apply Hk].
Qed.

Lemma step_logging lvl msg : stepwise R (logging lvl msg).
Proof. intros s. apply R_log. Qed.

Lemma step_stdout data : stepwise R (sys_stdout_write data).
Proof. intros s. apply R_stdout. Qed.

Lemma step_stderr data : stepwise R (sys_stderr_write data).
Proof. intros s. apply R_stderr. Qed.

Lemma step_print args : stepwise R (print args).
Proof. apply step_stdout. Qed.

Lemma step_when c (m : M unit) : stepwise R m -> stepwise R (when c m).
Proof. intros H. destruct c; [exact H | apply step_ret]. Qed.

Lemma step_for {A} (l : list A) (f : A -> M unit) :
  (forall x, stepwise R (f x)) -> stepwise R (for_ l f).
Proof.
  intros H. induction l as [|x l IH]; cbn [for_]; [apply step_ret|].
  apply step_bind; [apply H | intros _; exact IH].
Qed.

Lemma step_finally {A} (body : M A) (leave : M unit) :
  stepwise R body -> stepwise R leave -> stepwise R (finally body leave).
Proof.
  intros Hb Hl s. unfold finally. specialize (Hb s).
  destruct (body s) as [r s1]. cbn [snd] in Hb. specialize (Hl s1).
  destruct (leave s1) as [[u|e] s2]; cbn [snd] in *; eapply R_trans; eauto.
Qed.

Lemma step_modify (g : State -> State) :
  (forall s, R s (g s)) -> stepwise R (modify g).
Proof. intros H s. apply H. Qed.

Lemma step_fspath o : stepwise R (fspath o).
Proof. destruct o; [apply step_ret | apply step_raise]. Qed.

End Stepwise.

(** ** Methods that only report *)

Lemma same_world_refl s : same_world s s.
Proof. repeat split. Qed.

Lemma same_world_trans a b c : same_world a b -> same_world b c -> same_world a c.
Proof.
  intros (F1 & C1 & R1 & W1 & K1) (F2 & C2 & R2 & W2 & K2).
  repeat split; congruence.
Qed.

Lemma same_world_log l s : same_world s (set_log l s).
Proof. repeat split. Qed.

Lemma same_world_stdout l s : same_world s (set_stdout l s).
Proof. repeat split. Qed.

Lemma same_world_stderr l s : same_world s (set_stderr l s).
Proof. repeat split. Qed.

Create HintDb steps.
#[local] Hint Unfold first_char get_diff_path repo_state repo_active_branch
  os_path_exists os_path_getmtime open_r attr_working_dir _get_repo
  _get_config_paths _use_glibc print_diffs git_query repo_untracked_files : steps.

(** Walks through a computation built from the monad's operations; [leaf]
    closes the steps that are particular to the relation. *)
Ltac walk R Rrefl Rtrans Rlog Rout Rerr leaf :=
  repeat first
    [ progress autounfold with steps
    | apply (step_ret R Rrefl)
    | apply (step_raise R Rrefl)
    | apply (step_gets R Rrefl)
    | apply (step_logging R Rlog)
    | apply (step_stdout R Rout)
    | apply (step_stderr R Rerr)
    | apply (step_print R Rout)
    | apply (step_fspath R Rrefl)
    | apply (step_when R Rrefl)
    | apply (step_for R Rrefl Rtrans); intros ?
    | apply (step_finally R Rtrans)
    | apply (step_bind R Rtrans); [|intros ?]
    | leaf
    | match goal with
      | |- stepwise _ (if ?c then _ else _) => destruct c
      | |- stepwise _ (match ?o with Some _ => _ | None => _ end) => destruct o
      | |- stepwise _ (match ?o with EmptyString => _ | String _ _ => _ end) => destruct o
      | |- stepwise _ (match ?o with Failed => _ | Done => _ | Listed _ => _ end) =>
          destruct o
      | |- stepwise _ (match kind ?n with _ => _ end) => destruct (kind n)
      | |- stepwise _ (match ?n with mkNode _ _ => _ end) => destruct n as [[| |] ?]
      end ].

Ltac reports :=
  walk same_world same_world_refl same_world_trans same_world_log same_world_stdout
       same_world_stderr fail.

(** X2: [toolchain] only reports: it prints shell text and logs, and
    leaves files, call history, store, working directory and clock as they
    were, whether it succeeds or raises. *)
Theorem toolchain_changes_nothing host config argv s :
  same_world s (snd (toolchain host config argv s)).
Proof.
  revert s. change (stepwise same_world (toolchain host config argv)).
  unfold toolchain. reports.
Qed.

(** ** Before [prepare] *)

Lemma get_config_paths_unprepared host config s :
  _working_dir s = None ->
  _get_config_paths host config s = (Raise TypeError, s).
Proof. intros H. unfold _get_config_paths. run. now rewrite H. Qed.

Lemma use_glibc_unprepared host config s :
  _working_dir s = None -> _use_glibc host config s = (Raise TypeError, s).
Proof.
  intros H. unfold _use_glibc.
  now rewrite (bind_raise _ _ _ _ _ (get_config_paths_unprepared host config s H)).
Qed.

(** X3: on a builder whose working directory was never set (no [prepare]
    ran), [deploy], [toolchain] and the interactive configuration all raise
    [TypeError] from joining the missing directory, before any external call
    and without touching a file. *)
Theorem unprepared_builder_raises_type_error host config argv s :
  _working_dir s = None ->
  (fst (deploy host config s) = Raise TypeError
   /\ same_world s (snd (deploy host config s)))
  /\ (fst (toolchain host config argv s) = Raise TypeError
      /\ same_world s (snd (toolchain host config argv s)))
  /\ _config_lede host config s = (Raise TypeError, s).
Proof.
  intros H. split; [|split].
  - unfold deploy. run. rewrite use_glibc_unprepared by exact H.
    split; [reflexivity | repeat split].
  - unfold toolchain. run. rewrite use_glibc_unprepared by exact H.
    split; [reflexivity | repeat split].
  - unfold _config_lede.
    now rewrite (bind_raise _ _ _ _ _ (get_config_paths_unprepared host config s H)).
Qed.

Lemma unprepared_builder_raises_type_error_witness :
  fst (deploy (Sample.host None) (Sample.cfg "sd") Sample.init_st) = Raise TypeError
  /\ calls (snd (deploy (Sample.host None) (Sample.cfg "sd") Sample.init_st)) = [].
Proof.
  destruct (unprepared_builder_raises_type_error (Sample.host None) (Sample.cfg "sd") []
              Sample.init_st) as ((E & _ & C & _) & _).
  - reflexivity.
  - split; [exact E | exact C].
Defined.

(** ** [toolchain] with a missing directory *)



(** ** The hostname derived from the MAC address *)

Lemma no_char_app c a b : no_char c (a +:+ b) = no_char c a && no_char c b.
Proof.
  induction a as [|x a IH]; [reflexivity|].
  rewrite app_cons. cbn [no_char]. now rewrite IH, andb_assoc.
Qed.

Lemma split_aux_no_sep sep s : forall acc x,
  no_char sep acc = true -> In x (Py.split_aux sep acc s) -> no_char sep x = true.
Proof.
  induction s as [|c s IH]; intros acc x Ha Hx; cbn [Py.split_aux] in Hx.
  - destruct Hx as [<-|[]]. exact Ha.
  - destruct (Py.eqb_ascii c sep) eqn:E.
    + destruct Hx as [<-|Hx]; [exact Ha | now apply (IH "" x)].
    + apply (IH _ x) in Hx; [exact Hx|].
      rewrite no_char_app, Ha. cbn [no_char]. now rewrite E.
Qed.

Lemma no_char_join_empty c l :
  (forall x, In x l -> no_char c x = true) -> no_char c (Py.join "" l) = true.
Proof.
  induction l as [|x l IH]; intros H; [reflexivity|].
  assert (Hx : no_char c x = true) by (apply H; now left).
  assert (Hl : no_char c (Py.join "" l) = true) by (apply IH; intros y Hy; apply H; now right).
  destruct l as [|y l]; [exact Hx|].
  change (Py.join "" (x :: y :: l)) with (x +:+ "" +:+ Py.join "" (y :: l)).
  now rewrite !no_char_app, Hx, Hl.
Qed.

Lemma In_skipn {A} (x : A) n l : In x (skipn n l) -> In x l.
Proof.
  revert l. induction n as [|n IH]; intros l H; [exact H|].
  destruct l as [|y l]; [exact H|]. right. now apply IH.
Qed.

Lemma lower_ascii_colon c :
  Py.eqb_ascii (Py.lower_ascii c) ":"%char = Py.eqb_ascii c ":"%char.
Proof. destruct c as [[] [] [] [] [] [] [] []]; reflexivity. Qed.

Lemma lower_ascii_idem c : Py.lower_ascii (Py.lower_ascii c) = Py.lower_ascii c.
Proof. destruct c as [[] [] [] [] [] [] [] []]; reflexivity. Qed.

Lemma no_colon_lower s :
  no_char ":"%char (Py.lower_letters s) = no_char ":"%char s.
Proof.
  induction s as [|c s IH]; [reflexivity|].
  cbn [Py.lower_letters no_char]. now rewrite lower_ascii_colon, IH.
Qed.

Lemma lower_letters_idem s : Py.lower_letters (Py.lower_letters s) = Py.lower_letters s.
Proof.
  induction s as [|c s IH]; [reflexivity|].
  cbn [Py.lower_letters]. now rewrite lower_ascii_idem, IH.
Qed.

Lemma lower_letters_app a b :
  Py.lower_letters (a +:+ b) = Py.lower_letters a +:+ Py.lower_letters b.
Proof.
  induction a as [|c a IH]; [reflexivity|].
  rewrite app_cons. cbn [Py.lower_letters]. now rewrite IH.
Qed.

Lemma lower_ascii_range c :
  (nat_of_ascii (Py.lower_ascii c) <=? 127)%nat = (nat_of_ascii c <=? 127)%nat.
Proof. destruct c as [[] [] [] [] [] [] [] []]; reflexivity. Qed.

Lemma is_ascii_lower_letters s : Py.is_ascii (Py.lower_letters s) = Py.is_ascii s.
Proof.
  induction s as [|c s IH]; [reflexivity|].
  cbn [Py.lower_letters Py.is_ascii]. now rewrite lower_ascii_range, IH.
Qed.

Lemma is_ascii_app a b : Py.is_ascii (a +:+ b) = Py.is_ascii a && Py.is_ascii b.
Proof.
  induction a as [|x a IH]; [reflexivity|].
  rewrite app_cons. cbn [Py.is_ascii]. now rewrite IH, andb_assoc.
Qed.

Lemma split_aux_ascii sep s : forall acc x,
  Py.is_ascii acc = true -> Py.is_ascii s = true ->
  In x (Py.split_aux sep acc s) -> Py.is_ascii x = true.
Proof.
  induction s as [|c s IH]; intros acc x Ha Hs Hx; cbn [Py.split_aux] in Hx.
  - destruct Hx as [<-|[]]. exact Ha.
  - cbn [Py.is_ascii] in Hs. apply andb_true_iff in Hs as [Hc Hs].
    destruct (Py.eqb_ascii c sep).
    + destruct Hx as [<-|Hx]; [exact Ha | now apply (IH "" x)].
    + apply (IH _ x) in Hx; [exact Hx| |exact Hs].
      rewrite is_ascii_app, Ha. cbn [Py.is_ascii]. now rewrite Hc.
Qed.

Lemma is_ascii_join_empty l :
  (forall x, In x l -> Py.is_ascii x = true) -> Py.is_ascii (Py.join "" l) = true.
Proof.
  induction l as [|x l IH]; intros H; [reflexivity|].
  assert (Hx : Py.is_ascii x = true) by (apply H; now left).
  assert (Hl : Py.is_ascii (Py.join "" l) = true)
    by (apply IH; intros y Hy; apply H; now right).
  destruct l as [|y l]; [exact Hx|].
  change (Py.join "" (x :: y :: l)) with (x +:+ "" +:+ Py.join "" (y :: l)).
  now rewrite !is_ascii_app, Hx, Hl.
Qed.

(** On ASCII text [lower] is the mapping of the letters. *)
Lemma lower_ascii_text f s : Py.is_ascii s = true -> Py.lower f s = Py.lower_letters s.
Proof. intros H. unfold Py.lower. now rewrite H. Qed.

Lemma no_char_not_contained c s :
  no_char c s = true -> Py.contains (String c "") s = false.
Proof.
  induction s as [|a s IH]; intros H; [reflexivity|].
  cbn [no_char] in H. apply andb_true_iff in H as [Ha Hs].
  apply negb_true_iff in Ha.
  cbn [Py.contains Py.startswith]. rewrite (IH Hs).
  unfold Py.eqb_ascii in *. rewrite Ascii.eqb_sym, Ha. reflexivity.
Qed.

(** X5: for a MAC address written in ASCII, the derived hostname starts
    with [miner-], holds no colon, is ASCII, and is unchanged by
    lower-casing. *)
Theorem hostname_shape host config :
  Py.is_ascii (miner_mac config) = true ->
  let hostname := _get_hostname host config in
  Py.startswith hostname "miner-" = true
  /\ Py.contains ":" hostname = false
  /\ Py.is_ascii hostname = true
  /\ Py.lower (str_lower host) hostname = hostname.
Proof.
  intros Hmac hostname. subst hostname. unfold _get_hostname.
  set (tail := Py.join "" (Py.last_n 3 (Py.split ":"%char (miner_mac config)))).
  assert (Ht : no_char ":"%char tail = true).
  { apply no_char_join_empty. intros x Hx. unfold Py.last_n in Hx.
    apply In_skipn in Hx. now apply (split_aux_no_sep ":"%char _ "" x) in Hx. }
  assert (Ha : Py.is_ascii tail = true).
  { apply is_ascii_join_empty. intros x Hx. unfold Py.last_n in Hx.
    apply In_skipn in Hx.
    now apply (split_aux_ascii ":"%char _ "" x eq_refl Hmac) in Hx. }
  rewrite (lower_ascii_text _ tail Ha).
  assert (Hh : Py.is_ascii ("miner-" +:+ Py.lower_letters tail) = true)
    by (rewrite is_ascii_app, is_ascii_lower_letters, Ha; reflexivity).
  split; [apply startswith_app|]. split; [|split; [exact Hh|]].
  - apply no_char_not_contained. rewrite no_char_app, no_colon_lower, Ht. reflexivity.
  - rewrite (lower_ascii_text _ _ Hh), lower_letters_app, lower_letters_idem. reflexivity.
Qed.

Lemma hostname_shape_witness :
  Py.contains ":" (_get_hostname (Sample.host None) (Sample.cfg "sd")) = false
  /\ Py.lower (fun text => text) (_get_hostname (Sample.host None) (Sample.cfg "sd"))
     = _get_hostname (Sample.host None) (Sample.cfg "sd").
Proof.
  destruct (hostname_shape (Sample.host None) (Sample.cfg "sd")) as (_ & Hc & _ & Hl).
  - reflexivity.
  - split; [exact Hc | exact Hl].
Defined.

(** ** The store built by [__init__] *)

Lemma od_get_None_keys {V} k (d : list (string * V)) :
  od_get k d = None <-> ~ In k (map fst d).
Proof.
  induction d as [|[k' v] d IH]; cbn [od_get map fst In]; [tauto|].
  destruct (String.eqb_spec k k') as [->|Hne].
  - split; [discriminate | intros H; exfalso; apply H; now left].
  - rewrite IH. split; [intros H [E|E]; congruence || tauto | tauto].
Qed.

Lemma od_set_keys_new {V} k (v : V) d :
  ~ In k (map fst d) -> map fst (od_set k v d) = map fst d ++ [k].
Proof.
  induction d as [|[k' v'] d IH]; intros H; cbn [od_set map fst app]; [reflexivity|].
  cbn [map fst In] in H.
  destruct (String.eqb_spec k k') as [->|Hne]; [exfalso; apply H; now left|].
  cbn [map fst]. rewrite IH by tauto. reflexivity.
Qed.

Lemma stored_keys host config files names : forall d,
  List.NoDup names ->
  (forall name, In name names -> ~ In name (map fst d)) ->
  map fst (stored host config files names d) = map fst d ++ names.
Proof.
  induction names as [|n names IH]; intros d Hnd Hdis; cbn [stored fold_left].
  - now rewrite app_nil_r.
  - inversion Hnd as [|? ? Hn Hnd']; subst.
    change (fold_left _ names ?d') with (stored host config files names d').
    rewrite IH; [| exact Hnd' |].
    + rewrite od_set_keys_new by (apply Hdis; now left).
      now rewrite <- app_assoc.
    + intros name Hin. rewrite od_set_keys_new by (apply Hdis; now left).
      intros Hk. apply in_app_or in Hk as [Hk|[Hk|[]]].
      * apply (Hdis name); [now right | exact Hk].
      * subst name. now apply Hn.
Qed.

Lemma init_new_run host config s :
  (forall name, In name (remote_repos config) ->
                is_regular_file (fs s) (_get_repo_path host config name) = false) ->
  snd (__init__ host config s)
  = set_repos (stored host config (fs s) (remote_repos config) [])
      (set_log (log s ++ flat_map (init_entries host config (fs s)) (remote_repos config))
         (set_working_dir None s)).
Proof.
  intros Hf. unfold __init__, _init_repos. run.
  match goal with
  | |- context [init_loop host config ?names ?e ?st] =>
      pose proof (init_loop_spec host config names e st Hf) as E
  end.
  cbn [_repos fs log set_log set_repos] in E. rewrite E.
  destruct (false || _); reflexivity.
Qed.

(** X6: a new builder starts with no working directory and a store that
    lists the configured repositories in configuration order, each with the
    repository found at its path or [None]; this holds also when the
    initialization ends in the builder's stop, and no file is touched and
    no external call made. *)
Theorem init_store_in_configuration_order host config s :
  List.NoDup (remote_repos config) ->
  (forall name, In name (remote_repos config) ->
                is_regular_file (fs s) (_get_repo_path host config name) = false) ->
  let s' := snd (__init__ host config s) in
  map fst (_repos s') = remote_repos config
  /\ (forall name, In name (remote_repos config) ->
        od_get name (_repos s') = Some (probe (fs s) (_get_repo_path host config name)))
  /\ _working_dir s' = None
  /\ fs s' = fs s /\ calls s' = calls s.
Proof.
  intros Hnd Hf s'. subst s'. rewrite init_new_run by exact Hf.
  cbn [_repos _working_dir fs calls set_repos set_log set_working_dir].
  split; [|split; [|auto]].
  - rewrite stored_keys; [reflexivity | exact Hnd | intros ? ? []].
  - intros name Hin. apply stored_get. now left.
Qed.

Lemma init_store_in_configuration_order_witness :
  map fst (_repos (snd (__init__ (Sample.host None) (Sample.cfg "sd") Sample.status_st)))
  = ["lede"; "luci"; "linux"; "cgminer"].
Proof.
  apply (init_store_in_configuration_order (Sample.host None) (Sample.cfg "sd")
           Sample.status_st).
  - repeat constructor; cbn; intuition discriminate.
  - intros name H. cbn in H.
    destruct H as [<-|[<-|[<-|[<-|[]]]]]; vm_compute; reflexivity.
Defined.

(** ** Steps that leave the builder object alone *)

Lemma same_store_refl s : same_store s s.
Proof. split; reflexivity. Qed.

Lemma same_store_trans a b c : same_store a b -> same_store b c -> same_store a c.
Proof. intros [R1 W1] [R2 W2]. split; congruence. Qed.

Ltac keeps_store :=
  walk same_store same_store_refl same_store_trans
       (fun l s => same_store_refl (set_log l s))
       (fun l s => same_store_refl (set_stdout l s))
       (fun l s => same_store_refl (set_stderr l s))
       ltac:(first [ apply (step_modify same_store); intros ?; split; reflexivity ]).

Section StoreKept.

Variable host : Host.

Lemma store_record c : stepwise same_store (record c).
Proof. keeps_store. Qed.

Lemma store_put_repo_state repo st : stepwise same_store (put_repo_state repo st).
Proof. keeps_store. Qed.

Lemma store_remote_fetch repo r : stepwise same_store (remote_fetch host repo r).
Proof. unfold remote_fetch. keeps_store. Qed.

Lemma store_remote_pull repo r : stepwise same_store (remote_pull host repo r).
Proof. unfold remote_pull. keeps_store. Qed.

Lemma store_create_head repo branch r : stepwise same_store (create_head repo branch r).
Proof. unfold create_head. keeps_store. Qed.

Lemma store_checkout repo branch : stepwise same_store (checkout host repo branch).
Proof. unfold checkout. keeps_store. Qed.

Lemma store_track_branch repo branch rs : stepwise same_store (track_branch repo branch rs).
Proof.
  induction rs as [|r rs IH]; cbn [track_branch]; [keeps_store|].
  destruct (Py.mem branch (refs r)); [apply store_create_head | exact IH].
Qed.

Lemma store_ensure_branch remote repo : stepwise same_store (ensure_branch remote repo).
Proof.
  unfold ensure_branch. keeps_store. apply store_track_branch.
Qed.

Lemma store_switch_and_pull remote repo :
  stepwise same_store (switch_and_pull host remote repo).
Proof.
  unfold switch_and_pull. keeps_store;
    first [apply store_checkout | apply store_remote_pull].
Qed.

Lemma store_run a rest output : stepwise same_store (_run host (a :: rest) [] output None).
Proof. intros s. rewrite run_plain. split; reflexivity. Qed.

End StoreKept.

(** ** Steps whose calls are all of one kind *)

Section CallsAll.

Variable P : Call -> bool.

Lemma calls_all_same s s' : calls s' = calls s -> calls_all P s s'.
Proof. intros H. exists []. now rewrite H, app_nil_r. Qed.

Lemma calls_all_refl s : calls_all P s s.
Proof. now apply calls_all_same. Qed.

Lemma calls_all_trans a b c : calls_all P a b -> calls_all P b c -> calls_all P a c.
Proof.
  intros (n1 & C1 & P1) (n2 & C2 & P2). exists (n1 ++ n2).
  rewrite C2, C1, <- app_assoc, forallb_app, P1, P2. auto.
Qed.

Lemma calls_all_record c : P c = true -> stepwise (calls_all P) (record c).
Proof.
  intros H s. exists [c]. cbn [forallb]. rewrite H. auto.
Qed.

Lemma calls_all_modify g :
  (forall s, calls (g s) = calls s) -> stepwise (calls_all P) (modify g).
Proof. intros H s. apply calls_all_same, H. Qed.

End CallsAll.

Ltac only_calls P :=
  walk (calls_all P) (calls_all_refl P) (calls_all_trans P)
       (fun l s => calls_all_refl P (set_log l s))
       (fun l s => calls_all_refl P (set_stdout l s))
       (fun l s => calls_all_refl P (set_stderr l s))
       ltac:(first [ apply (calls_all_record P); reflexivity
                   | apply (calls_all_modify P); intros ?; reflexivity ]).

(** ** [status] *)

Lemma store_status_repo host item : stepwise same_store (status_repo host item).
Proof. unfold status_repo. destruct (snd item) as [repo|]; keeps_store. Qed.

Lemma queries_status_repo host item :
  stepwise (calls_all is_git_query) (status_repo host item).
Proof. unfold status_repo. destruct (snd item) as [repo|]; only_calls is_git_query. Qed.

(** X1: [status] leaves the builder object as it is, and the only calls it
    makes to the outside are the queries git answers for its three reads of
    a repository (the diff of HEAD, the diff of the index, the untracked
    files): it starts no other process, clones, fetches, checks out and
    pulls nothing, and opens no file for writing, whatever it prints or
    raises. *)
Theorem status_only_queries_git host s :
  same_store s (snd (status host s))
  /\ calls_all is_git_query s (snd (status host s)).
Proof.
  split; revert s.
  - change (stepwise same_store (status host)). unfold status. keeps_store.
    apply store_status_repo.
  - change (stepwise (calls_all is_git_query) (status host)). unfold status.
    only_calls is_git_query. apply queries_status_repo.
Qed.

(** A repository with untracked files is asked four times: for the
    untracked files once at the test and once more at the listing. *)
Example status_queries_of_one_repository :
  calls (snd (status (Sample.host None)
                (mkState None [("lede", Some (mkRepo "/home/u/build/miner/lede"))]
                   Sample.status_files 100 [] [] [] [])))
  = [CGit (GDiffHead "/home/u/build/miner/lede");
     CGit (GDiffIndex "/home/u/build/miner/lede");
     CGit (GUntracked "/home/u/build/miner/lede");
     CGit (GUntracked "/home/u/build/miner/lede")].
Proof. vm_compute. reflexivity. Qed.

(** ** Preparing a repository *)

Lemma bind_inv_ok {A B} (m : M A) (k : A -> M B) s b s' :
  bind m k s = (Ok b, s') ->
  exists a s1, m s = (Ok a, s1) /\ k a s1 = (Ok b, s').
Proof.
  unfold bind. destruct (m s) as [[a|e] s1]; intros H; [eauto | discriminate].
Qed.

Section PrepareRepoMore.

Variable host : Host.
Variable config : Config.

Lemma local_track_branch repo branch rs :
  stepwise (calls_all is_local_git) (track_branch repo branch rs).
Proof.
  induction rs as [|r rs IH]; cbn [track_branch]; [only_calls is_local_git|].
  destruct (Py.mem _ _); [|exact IH].
  unfold create_head, put_repo_state. only_calls is_local_git.
Qed.

Lemma local_ensure_branch remote repo :
  stepwise (calls_all is_local_git) (ensure_branch remote repo).
Proof.
  unfold ensure_branch. only_calls is_local_git. apply local_track_branch.
Qed.

Lemma local_switch remote repo :
  fetch remote = false ->
  stepwise (calls_all is_local_git) (switch_and_pull host remote repo).
Proof.
  intros Hf. unfold switch_and_pull. rewrite Hf.
  unfold checkout, put_repo_state. only_calls is_local_git.
Qed.

Lemma acquire_cloned remote repo s :
  od_get (name remote) (_repos s) = Some (Some repo) ->
  fetch remote = false ->
  acquire_repo host config remote s
  = (Ok repo,
     set_log (log s ++ [(DEBUG, "Start preparing remote '" +:+ name remote +:+ "' in '"
                                +:+ _get_repo_path host config (name remote) +:+ "'")]) s).
Proof.
  intros Hs Hf. unfold acquire_repo, _get_repo. run. rewrite Hs. run. rewrite Hf. reflexivity.
Qed.

End PrepareRepoMore.

(** X7: preparing a repository that is already cloned, with no fetch asked
    for, stays on the local disk: it neither clones, fetches nor pulls and
    runs no process; the only calls it can make are creating the tracking
    branch and checking it out, and the store is left as it was. *)
Theorem prepare_cloned_repo_stays_local host config remote repo s :
  od_get (name remote) (_repos s) = Some (Some repo) ->
  fetch remote = false ->
  calls_all is_local_git s (snd (_prepare_repo host config remote s))
  /\ same_store s (snd (_prepare_repo host config remote s)).
Proof.
  intros Hs Hf. unfold _prepare_repo.
  rewrite (bind_ok _ _ _ _ _ (acquire_cloned host config remote repo s Hs Hf)).
  pose proof (step_bind _ (calls_all_trans is_local_git) _ _
                (local_ensure_branch remote repo)
                (fun _ => local_switch host remote repo Hf)) as Hc.
  pose proof (step_bind _ same_store_trans _ _
                (store_ensure_branch remote repo)
                (fun _ => store_switch_and_pull host remote repo)) as Hk.
  split.
  - eapply calls_all_trans; [|apply Hc]. now apply calls_all_same.
  - eapply same_store_trans; [|apply Hk]. split; reflexivity.
Qed.

Lemma prepare_cloned_repo_stays_local_witness :
  let host := Sample.host_walking [] in
  let spec := mkRemoteSpec "luci" "https://git.example/luci.git" "master" false in
  calls_all is_local_git Sample.prepare_st
    (snd (_prepare_repo host (Sample.cfg "sd") spec Sample.prepare_st)).
Proof.
  intros host spec.
  apply (prepare_cloned_repo_stays_local host (Sample.cfg "sd") spec
           (mkRepo "/home/u/build/miner/luci") Sample.prepare_st); reflexivity.
Defined.

Section PrepareRepoPost.

Variable host : Host.
Variable config : Config.

Lemma switch_post remote repo s s' :
  fetch remote = false ->
  switch_and_pull host remote repo s = (Ok tt, s') ->
  exists st t,
    fs s' !! working_dir repo = Some (mkNode (KRepo st) t)
    /\ In (branch remote) (heads st)
    /\ active_branch st = Some (branch remote).
Proof.
  intros Hf. unfold switch_and_pull, repo_active_branch, checkout, repo_state,
    put_repo_state. rewrite Hf. run.
  destruct (fs s !! working_dir repo) as [[[c|l|st] t]|] eqn:E; run; try discriminate.
  destruct (Py.mem (branch remote) (heads st)) eqn:Hm; run; [|discriminate].
  rewrite E. run.
  destruct (active_branch st) as [b|] eqn:Ha; run; [|discriminate].
  apply mem_In in Hm.
  destruct (String.eqb_spec b (branch remote)) as [->|Hne]; cbn [negb]; run.
  - intros H. injection H as <-. eauto.
  - rewrite E. run.
    destruct (git_checkout_ok host (calls s) st (branch remote)); run; [|discriminate].
    intros H. injection H as <-. cbn [fs].
    eexists _, _. split; [apply lookup_insert_eq|]. cbn [heads active_branch]. auto.
Qed.


Lemma acquire_fetching remote r s :
  od_get (name remote) (_repos s) = Some (Some r) ->
  acquire_repo host config remote s
  = bind (if fetch remote
          then logging INFO ("Fetching remote '" +:+ name remote +:+ "'") >>
               (let! st := repo_state r in for_ (remotes st) (remote_fetch host r))
          else ret tt)
         (fun _ => ret r)
         (set_log (log s ++ [(DEBUG, "Start preparing remote '" +:+ name remote +:+ "' in '"
                                     +:+ _get_repo_path host config (name remote) +:+ "'")])
            s).
Proof.
  intros Hs. unfold acquire_repo, _get_repo. cbv zeta.
  rewrite bind_assoc, bind_gets, Hs, bind_ret.
  now rewrite (bind_ok _ _ _ _ _ (logging_eq _ _ s)).
Qed.

Lemma store_fetching remote r :
  stepwise same_store
    (if fetch remote
     then logging INFO ("Fetching remote '" +:+ name remote +:+ "'") >>
          (let! st := repo_state r in for_ (remotes st) (remote_fetch host r))
     else ret tt).
Proof. destruct (fetch remote); keeps_store. Qed.

Lemma acquire_post remote repo s s1 :
  acquire_repo host config remote s = (Ok repo, s1) ->
  od_get (name remote) (_repos s1) = Some (Some repo).
Proof.
  intros H.
  destruct (od_get (name remote) (_repos s)) as [[r|]|] eqn:E.
  - rewrite (acquire_fetching remote r s E) in H.
    apply bind_inv_ok in H as (u & s0 & H0 & H1). injection H1 as <- <-.
    pose proof (store_fetching remote r (set_log
      (log s ++ [(DEBUG, "Start preparing remote '" +:+ name remote +:+ "' in '"
                         +:+ _get_repo_path host config (name remote) +:+ "'")]) s)) as [Hr _].
    rewrite H0 in Hr. cbn [snd _repos set_log] in Hr. now rewrite Hr.
  - pose proof (acquire_repo_clone host config remote s E) as Hc. cbv zeta in Hc.
    rewrite Hc in H.
    destruct (git_clone host (calls s) (fs s) (uri remote)
                (_get_repo_path host config (name remote)) (branch remote)) as [st|];
      [|discriminate].
    injection H as <- <-. unfold cloned. cbn [_repos set_repos]. apply od_get_set_eq.
  - unfold acquire_repo, _get_repo in H. cbv zeta in H.
    rewrite bind_assoc, bind_gets, E in H. discriminate.
Qed.

End PrepareRepoPost.

(** X8: when [_prepare_repo] returns normally for a repository with no
    fetch asked for, the store holds a repository object for it, and on disk
    that repository has the required branch among its local branches and
    checked out. *)
Theorem prepare_repo_success_postcondition host config remote s s' :
  fetch remote = false ->
  _prepare_repo host config remote s = (Ok tt, s') ->
  exists repo st t,
    od_get (name remote) (_repos s') = Some (Some repo)
    /\ fs s' !! working_dir repo = Some (mkNode (KRepo st) t)
    /\ In (branch remote) (heads st)
    /\ active_branch st = Some (branch remote).
Proof.
  intros Hf H. unfold _prepare_repo in H.
  apply bind_inv_ok in H as (repo & s1 & Ha & H).
  apply bind_inv_ok in H as ([] & s2 & He & Hs).
  apply acquire_post in Ha.
  destruct (switch_post host remote repo s2 s' Hf Hs) as (st & t & F & Hh & Hact).
  exists repo, st, t. repeat split; auto.
  pose proof (store_ensure_branch remote repo s1) as [R1 _].
  pose proof (store_switch_and_pull host remote repo s2) as [R2 _].
  rewrite He in R1. rewrite Hs in R2. cbn [snd] in R1, R2. congruence.
Qed.

Lemma prepare_repo_success_postcondition_witness :
  let host := Sample.host_walking [] in
  let r := _prepare_repo host (Sample.cfg "sd") Sample.linux_spec Sample.prepare_st in
  exists st t,
    fs (snd r) !! "/home/u/build/miner/linux" = Some (mkNode (KRepo st) t)
    /\ active_branch st = Some "master".
Proof.
  intros host r.
  destruct (prepare_repo_success_postcondition host (Sample.cfg "sd") Sample.linux_spec
              Sample.prepare_st (snd r)) as (repo & st & t & Hs & F & _ & A).
  - reflexivity.
  - vm_compute. reflexivity.
  - assert (Hrepo : od_get "linux" (_repos (snd r))
                    = Some (Some (mkRepo "/home/u/build/miner/linux")))
      by (vm_compute; reflexivity).
    change (name Sample.linux_spec) with "linux" in Hs.
    rewrite Hrepo in Hs. injection Hs as <-. eauto.
Defined.

(** X9: when the clone of a repository fails, [_prepare_repo] raises
    [GitCommandError] right after the attempt: the clone is the only call
    made, the store still has [None] for the repository, and the files are
    what the failed clone left. This holds also when it left a repository
    at the path; that repository is then neither recorded in the store nor
    given its branch. *)
Theorem failed_clone_is_not_recorded host config remote s :
  od_get (name remote) (_repos s) = Some None ->
  git_clone host (calls s) (fs s) (uri remote)
    (_get_repo_path host config (name remote)) (branch remote) = None ->
  let r := _prepare_repo host config remote s in
  fst r = Raise GitCommandError
  /\ _repos (snd r) = _repos s
  /\ calls (snd r)
     = calls s ++ [CGit (GClone (uri remote) (_get_repo_path host config (name remote))
                           (branch remote))]
  /\ fs (snd r)
     = git_clone_left host (calls s) (fs s) (uri remote)
         (_get_repo_path host config (name remote)) (branch remote).
Proof.
  intros Hs Hc r. subst r.
  pose proof (prepare_repo_clone host config remote s Hs) as H. cbv zeta in H.
  rewrite Hc in H. rewrite H. repeat split.
Qed.

Lemma failed_clone_is_not_recorded_witness :
  let r := _prepare_repo Sample.half_clone_host (Sample.cfg "sd") Sample.linux_spec
             Sample.prepare_st in
  fst r = Raise GitCommandError
  /\ od_get "linux" (_repos (snd r)) = Some None
  /\ is_Some (fs (snd r) !! "/home/u/build/miner/linux").
Proof.
  intros r.
  destruct (failed_clone_is_not_recorded Sample.half_clone_host (Sample.cfg "sd")
              Sample.linux_spec Sample.prepare_st) as (E & R & _ & F).
  - reflexivity.
  - reflexivity.
  - split; [exact E|]. fold r in R, F. rewrite R, F. split; [reflexivity|].
    eexists. apply lookup_insert_eq.
Defined.

(** *** [_deploy_ssh_sd]: the shape of every run *)

Section DeployTrace.

Variable host : Host.
Variable config : Config.
Variable image : Image.

Ltac device_cases :=
  repeat match goal with
         | |- context [device_ok host ?h ?c] =>
             let E := fresh "E" in destruct (device_ok host h c) eqn:E; run
         | |- context [Py.mem MARKER ?l] =>
             let F := fresh "F" in destruct (Py.mem MARKER l) eqn:F; run
         end.

Ltac flag :=
  let H := fresh "H" in
  intros H; first [discriminate H | split; reflexivity | reflexivity].

Ltac shape :=
  rewrite <- ?app_assoc;
  cbn [app fst snd calls set_calls set_log fs _repos _working_dir];
  eexists; split; [reflexivity|];
  split; [reflexivity|]; split; [reflexivity|]; split; [reflexivity|];
  split; [reflexivity|]; split; [reflexivity|]; split; [reflexivity|];
  split; [reflexivity|]; split; [flag|]; split; [flag|];
  eexists; reflexivity.

Lemma deploy_ssh_sd_trace s :
  exists new,
    calls (snd (_deploy_ssh_sd host config image s)) = calls s ++ new
    /\ fs (snd (_deploy_ssh_sd host config image s)) = fs s
    /\ _repos (snd (_deploy_ssh_sd host config image s)) = _repos s
    /\ _working_dir (snd (_deploy_ssh_sd host config image s)) = _working_dir s
    /\ forallb is_remote new = true
    /\ session_bracket new = true
    /\ file_bracket false new = true
    /\ fst (_deploy_ssh_sd host config image s)
       = (if existsb is_failed new then Raise RemoteError else Ok tt)
    /\ (yes (deploy_remove_uuid config) = false ->
        existsb is_listdir new = false /\ removes new = [])
    /\ (yes (deploy_reboot config) = false -> existsb is_reboot new = false)
    /\ exists o,
         hd_error new
         = Some (CRemote (Connect (deploy_hostname host config) (deploy_ssh_username config)
                            (deploy_ssh_password config)) o).
Proof.
  unfold _deploy_ssh_sd, _write_uenv, sftp_listdir, remote_do, remote_call.
  change (match deploy_ssh_hostname config with
          | Some (String c h) => String c h
          | _ => _get_hostname host config
                 +:+ match deploy_ssh_hostname_suffix config with
                     | Some x => x
                     | None => ""
                     end
          end) with (deploy_hostname host config).
  generalize (deploy_hostname host config) as hostname. intros hostname.
  destruct (yes (deploy_remove_uuid config)), (yes (deploy_reboot config));
    run; device_cases; shape.
Qed.

End DeployTrace.

(** X10: every run of [_deploy_ssh_sd] releases what it acquired. Either the
    connection fails and nothing else is tried, or the session is left
    exactly once, as the last operation, whatever failed in between; and a
    remote file that was opened is closed again. *)
Theorem deploy_sd_releases_session host config image s :
  exists new,
    calls (snd (_deploy_ssh_sd host config image s)) = calls s ++ new
    /\ session_bracket new = true
    /\ file_bracket false new = true.
Proof.
  destruct (deploy_ssh_sd_trace host config image s)
    as (new & Hc & _ & _ & _ & _ & Hs & Hf & _).
  exists new. auto.
Qed.

(** X11: [_deploy_ssh_sd] returns normally exactly when no operation on the
    device failed; when one did, the error it raises is the device's. No
    failure is swallowed and none is invented. *)
Theorem deploy_sd_fails_with_device host config image s :
  let r := _deploy_ssh_sd host config image s in
  exists new,
    calls (snd r) = calls s ++ new
    /\ fst r = (if existsb is_failed new then Raise RemoteError else Ok tt).
Proof.
  destruct (deploy_ssh_sd_trace host config image s)
    as (new & Hc & _ & _ & _ & _ & _ & _ & Hr & _).
  exists new. auto.
Qed.

(** X12: unless [deploy.remove_uuid] is [yes], the deployment neither lists
    the [etc] directory of the card nor removes anything from it. *)
Theorem deploy_sd_without_removal host config image s :
  yes (deploy_remove_uuid config) = false ->
  exists new,
    calls (snd (_deploy_ssh_sd host config image s)) = calls s ++ new
    /\ existsb is_listdir new = false
    /\ removes new = [].
Proof.
  intros Hy.
  destruct (deploy_ssh_sd_trace host config image s)
    as (new & Hc & _ & _ & _ & _ & _ & _ & _ & Hrm & _).
  exists new. destruct (Hrm Hy). auto.
Qed.

Lemma deploy_sd_without_removal_witness :
  removes (calls (snd (_deploy_ssh_sd (Sample.host None) Sample.keep_uuid_cfg
                         (mkImage "/img/BOOT.bin" "/img/fit.itb")
                         (Sample.st Sample.files)))) = [].
Proof.
  destruct (deploy_sd_without_removal (Sample.host None) Sample.keep_uuid_cfg
              (mkImage "/img/BOOT.bin" "/img/fit.itb") (Sample.st Sample.files))
    as (new & Hc & _ & Hr); [reflexivity|].
  rewrite Hc. exact Hr.
Defined.

(** X13: unless [deploy.reboot] is [yes], the deployment never runs [reboot]
    on the device. *)
Theorem deploy_sd_without_reboot host config image s :
  yes (deploy_reboot config) = false ->
  exists new,
    calls (snd (_deploy_ssh_sd host config image s)) = calls s ++ new
    /\ existsb is_reboot new = false.
Proof.
  intros Hy.
  destruct (deploy_ssh_sd_trace host config image s)
    as (new & Hc & _ & _ & _ & _ & _ & _ & _ & _ & Hrb & _).
  exists new. auto.
Qed.

Lemma deploy_sd_without_reboot_witness :
  existsb is_reboot
    (calls (snd (_deploy_ssh_sd (Sample.host None) (Sample.cfg "sd")
                   (mkImage "/img/BOOT.bin" "/img/fit.itb")
                   (Sample.st Sample.files)))) = false.
Proof.
  destruct (deploy_sd_without_reboot (Sample.host None) (Sample.cfg "sd")
              (mkImage "/img/BOOT.bin" "/img/fit.itb") (Sample.st Sample.files))
    as (new & Hc & Hr); [reflexivity|].
  rewrite Hc. exact Hr.
Defined.

(** X14: a hostname that is not configured, or configured as the empty
    string, is replaced by the name derived from the MAC address followed by
    the configured suffix; the first operation of the deployment is the
    connection to that host. *)
Theorem deploy_sd_default_hostname host config image s :
  deploy_ssh_hostname config = None \/ deploy_ssh_hostname config = Some "" ->
  exists o rest,
    calls (snd (_deploy_ssh_sd host config image s))
    = calls s
      ++ CRemote (Connect (_get_hostname host config
                           +:+ match deploy_ssh_hostname_suffix config with
                               | Some x => x
                               | None => ""
                               end)
                    (deploy_ssh_username config) (deploy_ssh_password config)) o
         :: rest.
Proof.
  intros Hh.
  destruct (deploy_ssh_sd_trace host config image s)
    as (new & Hc & _ & _ & _ & _ & _ & _ & _ & _ & _ & o & Ho).
  assert (Hd : deploy_hostname host config
               = _get_hostname host config
                 +:+ match deploy_ssh_hostname_suffix config with
                     | Some x => x
                     | None => ""
                     end)
    by (unfold deploy_hostname; destruct Hh as [-> | ->]; reflexivity).
  rewrite Hd in Ho. destruct new as [|c rest]; [discriminate|].
  injection Ho as ->. exists o, rest. exact Hc.
Qed.

Lemma deploy_sd_default_hostname_witness :
  hd_error (calls (snd (_deploy_ssh_sd (Sample.host None) Sample.keep_uuid_cfg
                          (mkImage "/img/BOOT.bin" "/img/fit.itb")
                          (Sample.st Sample.files))))
  = Some (CRemote (Connect "miner-ffee01.lan" "root" None) Done).
Proof.
  destruct (deploy_sd_default_hostname (Sample.host None) Sample.keep_uuid_cfg
              (mkImage "/img/BOOT.bin" "/img/fit.itb") (Sample.st Sample.files))
    as (o & rest & Hc); [right; reflexivity|].
  rewrite Hc. cbn [Sample.st calls app hd_error].
  assert (Ho : exists v, hd_error (calls (snd (_deploy_ssh_sd (Sample.host None)
                 Sample.keep_uuid_cfg (mkImage "/img/BOOT.bin" "/img/fit.itb")
                 (Sample.st Sample.files)))) = v
               /\ v = Some (CRemote (Connect "miner-ffee01.lan" "root" None) Done))
    by (eexists; split; [vm_compute; reflexivity | reflexivity]).
  destruct Ho as (v & Hv & ->). rewrite Hc in Hv. cbn [Sample.st calls app hd_error] in Hv.
  exact Hv.
Defined.

(** ** [build] *)

Section BuildFacts.

Variable host : Host.
Variable keys : BuildKeys.
Variable expanduser : string -> string.

Lemma install_targets_ok targets al s :
  Forall2 (fun t a => od_get t (build_aliases keys) = Some a) targets al ->
  install_targets keys targets s = (Ok (map (fun a => a +:+ "/install") al), s).
Proof.
  intros H. induction H as [|t a targets al Ha _ IH]; [reflexivity|].
  cbn [install_targets map]. unfold alias_of. rewrite Ha.
  rewrite bind_ret. erewrite bind_ok by exact IH. reflexivity.
Qed.

Lemma install_targets_pure targets s :
  snd (install_targets keys targets s) = s
  /\ (fst (install_targets keys targets s) = Raise KeyError
      \/ exists l, fst (install_targets keys targets s) = Ok l).
Proof.
  induction targets as [|t targets [IHs IHr]]; [split; [reflexivity | right; eexists; reflexivity]|].
  cbn [install_targets]. unfold alias_of.
  destruct (od_get t (build_aliases keys)) as [a|]; [|split; [reflexivity | left; reflexivity]].
  rewrite bind_ret. unfold bind.
  destruct (install_targets keys targets s) as [[l|e] s1]; cbn [fst snd] in *.
  - split; [exact IHs | right; eexists; reflexivity].
  - split; [exact IHs|]. destruct IHr as [Hr|[l Hr]]; [left; exact Hr | discriminate Hr].
Qed.

Lemma install_targets_missing targets t s :
  In t targets -> od_get t (build_aliases keys) = None ->
  install_targets keys targets s = (Raise KeyError, s).
Proof.
  intros Hin Hn. induction targets as [|t' targets IH]; [destruct Hin|].
  cbn [install_targets]. unfold alias_of.
  destruct (od_get t' (build_aliases keys)) as [a|] eqn:E.
  - destruct Hin as [->|Hin]; [congruence|].
    rewrite bind_ret. erewrite bind_raise by exact (IH Hin). reflexivity.
  - reflexivity.
Qed.

End BuildFacts.

(** X15: [build] starts nothing unless it can start [make] as asked: when
    the environment has no PATH to extend, or one of the targets has no
    alias in the configuration (whatever its place in the list), the method
    raises [KeyError] before any process is run, and no file has changed. *)
Theorem build_stops_before_make host keys expanduser targets verbose s :
  environ_PATH host = None
  \/ (exists t, In t targets /\ od_get t (build_aliases keys) = None) ->
  let r := build host keys expanduser targets verbose s in
  fst r = Raise KeyError /\ calls (snd r) = calls s /\ fs (snd r) = fs s.
Proof.
  intros H r. subst r. unfold build.
  rewrite (bind_ok _ _ _ _ _ (logging_eq _ _ s)). cbv zeta.
  set (s0 := set_log _ s).
  destruct (install_targets_pure keys targets s0) as [Hs Hr].
  destruct (install_targets keys targets s0) as [[l|e] s1] eqn:E; cbn [fst snd] in Hs, Hr.
  - subst s1. destruct H as [Hp | (t & Hin & Hn)].
    + erewrite bind_ok by exact E. unfold _run. rewrite Hp. run. auto.
    + rewrite (install_targets_missing keys targets t s0 Hin Hn) in E. discriminate E.
  - subst s1. destruct Hr as [Hr|[l Hl]]; [|discriminate Hl].
    injection Hr as ->. erewrite bind_raise by exact E. auto.
Qed.

Lemma build_stops_before_make_witness :
  let keys := mkBuildKeys (Some 4%Z) None "/opt/sdk" [("fw", "target/firmware")] in
  fst (build (Sample.host (Some "/usr/bin")) keys (fun p => p) ["fw"; "docs"] false
         (Sample.st Sample.files))
  = Raise KeyError.
Proof.
  intros keys.
  apply (build_stops_before_make (Sample.host (Some "/usr/bin")) keys (fun p => p)
           ["fw"; "docs"] false (Sample.st Sample.files)).
  right. exists "docs". split; [right; left; reflexivity | reflexivity].
Defined.

(** X16: when PATH is set and every target has an alias, [build] runs exactly
    one process: [make -j<jobs>] with one job unless configured, [V=s] when
    verbosity is asked for by the caller or by the configuration, then
    [<alias>/install] for each target in the order given. It runs in the
    working directory, with the [bin] directory of the SDK put before the
    inherited PATH and the file-mode mask set to 022, and [build] fails
    exactly when that process does. *)
Theorem build_command_line host keys expanduser targets verbose s p al :
  environ_PATH host = Some p ->
  Forall2 (fun t a => od_get t (build_aliases keys) = Some a) targets al ->
  let r := build host keys expanduser targets verbose s in
  let bin :=
    Path.join (Path.abspath (getcwd host) (expanduser (build_xilinx_sdk keys))) ["bin"] in
  exists call,
    calls (snd r) = calls s ++ [CProc call]
    /\ pc_args call
       = ["make"; "-j" +:+ str_of_int (match build_jobs keys with Some j => j | None => 1%Z end)]
         ++ (if verbose || yes (match build_verbose keys with Some v => v | None => "no" end)
             then ["V=s"] else [])
         ++ map (fun a => a +:+ "/install") al
    /\ pc_cwd call = _working_dir s
    /\ pc_env_path call = Some (bin +:+ ":" +:+ p)
    /\ pc_capture call = false
    /\ pc_umask call = Some 18%Z
    /\ fs (snd r) = snd (run_process host (calls s) call (fs s))
    /\ fst r = (if fst (fst (run_process host (calls s) call (fs s)))
                then Ok tt else Raise CalledProcessError).
Proof.
  intros Hp Hal r bin. subst r. unfold build.
  rewrite (bind_ok _ _ _ _ _ (logging_eq _ _ s)). cbv zeta.
  erewrite bind_ok by (apply install_targets_ok; exact Hal).
  unfold _run. rewrite Hp. cbn [app]. run. fold bin.
  match goal with
  | |- context [run_process host (calls s) ?c (fs s)] => set (call := c)
  end.
  exists call.
  assert (Hj : Py.join ":" [bin; p] = bin +:+ ":" +:+ p).
  { reflexivity. }
  destruct (fst (fst (run_process host (calls s) call (fs s)))); run;
    (split; [reflexivity|]);
    subst call; cbn [pc_args pc_cwd pc_env_path pc_capture pc_umask];
    rewrite Hj; repeat split.
Qed.

Lemma build_command_line_witness :
  let keys := mkBuildKeys None (Some "yes") "/opt/sdk" [("fw", "target/firmware")] in
  calls (snd (build (Sample.host (Some "/usr/bin")) keys (fun p => p) ["fw"] false
                (Sample.st Sample.files)))
  = [CProc (mkProcCall ["make"; "-j1"; "V=s"; "target/firmware/install"]
              (Some Sample.lede_dir) (Some "/opt/sdk/bin:/usr/bin") false (Some 18%Z))].
Proof.
  intros keys.
  destruct (build_command_line (Sample.host (Some "/usr/bin")) keys (fun p => p) ["fw"] false
              (Sample.st Sample.files) "/usr/bin" ["target/firmware"])
    as (call & Hc & Ha & Hw & He & Hcap & Hu & _).
  - reflexivity.
  - repeat constructor.
  - rewrite Hc. destruct call as [a c e o u].
    cbn [pc_args pc_cwd pc_env_path pc_capture pc_umask] in *.
    rewrite Ha, Hw, He, Hcap, Hu. vm_compute. reflexivity.
Defined.

(** ** [clean] *)

Section CleanFacts.

Variable host : Host.

Lemma purge_repo_cloned name repo s :
  let call := mkProcCall ["git"; "clean"; "-dxf"] (Some (working_dir repo)) None true None in
  purge_repo host (name, Some repo) s
  = (if fst (fst (run_process host (calls s) call (fs s)))
     then Ok tt else Raise GitCommandError,
     set_fs (snd (run_process host (calls s) call (fs s)))
       (set_calls (calls s ++ [CProc call])
          (set_log (log s ++ [(DEBUG, "Purging '" +:+ name +:+ "'")]) s))).
Proof.
  intros call. unfold purge_repo, git_clean. cbn [snd fst]. run. fold call.
  destruct (fst (fst (run_process host (calls s) call (fs s)))); reflexivity.
Qed.

Lemma exits_ok_first h files c cs :
  exits_ok host h files (c :: cs) 0 = fst (fst (run_process host h c files)).
Proof. unfold exits_ok. cbn [nth_error take map files_after]. now rewrite app_nil_r. Qed.

Lemma exits_ok_next h files c cs i :
  exits_ok host h files (c :: cs) (S i)
  = exits_ok host (h ++ [CProc c]) (snd (run_process host h c files)) cs i.
Proof.
  unfold exits_ok. cbn [nth_error take map files_after]. now rewrite <- app_assoc.
Qed.

Lemma purge_loop items : forall s,
  let all := map git_clean_call (omap snd items) in
  let ok := exits_ok host (calls s) (fs s) all in
  exists k,
    calls (snd (for_ items (purge_repo host) s)) = calls s ++ map CProc (take k all)
    /\ fs (snd (for_ items (purge_repo host) s))
       = files_after host (calls s) (take k all) (fs s)
    /\ same_store s (snd (for_ items (purge_repo host) s))
    /\ (forall i, (i + 1 < k)%nat -> ok i = true)
    /\ ((fst (for_ items (purge_repo host) s) = Ok tt
         /\ k = length all /\ forall i, ok i = true)
        \/ (fst (for_ items (purge_repo host) s) = Raise GitCommandError
            /\ (0 < k <= length all)%nat /\ ok (k - 1)%nat = false)).
Proof.
  induction items as [|[name [repo|]] items IH]; intros s all ok.
  - exists 0%nat. cbn. rewrite app_nil_r. split; [reflexivity|]. split; [reflexivity|].
    split; [apply same_store_refl|]. split; [intros i Hi; lia|].
    left. split; [reflexivity|]. split; [reflexivity|].
    intros i. subst ok all. unfold exits_ok. cbn. now destruct i.
  - subst ok all. cbn [omap list_omap snd map]. cbn [for_].
    pose proof (purge_repo_cloned name repo s) as Hp. cbv zeta in Hp.
    change (mkProcCall ["git"; "clean"; "-dxf"] (Some (working_dir repo)) None true None)
      with (git_clean_call repo) in Hp.
    set (c := git_clean_call repo) in *.
    set (all := map git_clean_call (omap snd items)).
    destruct (fst (fst (run_process host (calls s) c (fs s)))) eqn:Hok.
    + rewrite (bind_ok _ _ _ _ _ Hp).
      match goal with
      | |- context [for_ items _ ?s1] => destruct (IH s1) as (k & Hc & Hf & Hs & Hpre & Hres)
      end.
      unfold same_store in Hs.
      cbn [calls fs set_fs set_calls set_log _repos _working_dir] in Hc, Hf, Hs, Hpre, Hres.
      fold all in Hc, Hf, Hpre, Hres.
      exists (S k). cbn [take map files_after]. rewrite Hc, Hf, <- app_assoc. cbn [app].
      split; [reflexivity|]. split; [reflexivity|]. split; [exact Hs|]. split.
      * intros [|i] Hi; [now rewrite exits_ok_first|].
        rewrite exits_ok_next. apply Hpre. lia.
      * destruct Hres as [(-> & -> & Hall)|(-> & Hk & Hbad)].
        -- left. split; [reflexivity|]. split; [reflexivity|].
           intros [|i]; [now rewrite exits_ok_first|]. rewrite exits_ok_next. apply Hall.
        -- right. split; [reflexivity|]. split; [cbn [length]; lia|].
           replace (S k - 1)%nat with (S (k - 1)) by lia.
           rewrite exits_ok_next. exact Hbad.
    + rewrite (bind_raise _ _ _ _ _ Hp).
      exists 1%nat. cbn [take map files_after]. rewrite take_0. cbn [map files_after].
      split; [reflexivity|]. split; [reflexivity|]. split; [split; reflexivity|].
      split; [intros i Hi; lia|].
      right. split; [reflexivity|]. split; [cbn [length]; lia|].
      cbn [Nat.sub]. now rewrite exits_ok_first.
  - subst ok all. cbn [omap list_omap snd map]. cbn [for_]. unfold purge_repo at 1. cbn [snd].
    rewrite bind_ret. apply IH.
Qed.

End CleanFacts.

(** X17: [clean] with [purge] runs [git clean -dxf] in the working tree of
    each cloned repository, in the order of the store, and nothing else;
    repositories that are not cloned are passed over. It stops at the first
    clean that fails: every clean it ran before the last one succeeded, and
    it either ran them all, all with success, and returns, or the last one
    it ran failed and it raises that error. The store is what it was. *)
Theorem clean_purge_cleans_cloned_repositories host s :
  let r := clean host true s in
  let all := map git_clean_call (omap snd (_repos s)) in
  let ok := exits_ok host (calls s) (fs s) all in
  exists k,
    calls (snd r) = calls s ++ map CProc (take k all)
    /\ fs (snd r) = files_after host (calls s) (take k all) (fs s)
    /\ same_store s (snd r)
    /\ (forall i, (i + 1 < k)%nat -> ok i = true)
    /\ ((fst r = Ok tt /\ k = length all /\ forall i, ok i = true)
        \/ (fst r = Raise GitCommandError
            /\ (0 < k <= length all)%nat /\ ok (k - 1)%nat = false)).
Proof.
  intros r all ok. subst r. unfold clean. cbn [negb].
  rewrite (bind_ok _ _ _ _ _ (logging_eq _ _ s)), bind_gets.
  cbn [_repos set_log].
  destruct (purge_loop host (_repos s)
              (set_log (log s ++ [(INFO, "Start cleaning LEDE build directory...'")]) s))
    as (k & Hc & Hf & Hs & Hpre & Hr).
  exists k. auto.
Qed.

(** With four cloned repositories and a clean that fails in the second,
    the third and the fourth are not cleaned. *)
Example clean_stops_at_failed_clean :
  let r := clean Sample.failing_clean_host true Sample.prepared_st in
  fst r = Raise GitCommandError
  /\ calls (snd r)
     = [CProc (git_clean_call (mkRepo "/home/u/build/miner/lede"));
        CProc (git_clean_call (mkRepo "/home/u/build/miner/luci"))].
Proof. split; vm_compute; reflexivity. Qed.

(** ** [prepare] *)

Section PrepareFacts.

Variable host : Host.
Variable config : Config.

Lemma store_prepare_feeds : stepwise same_store (_prepare_feeds host config).
Proof.
  unfold _prepare_feeds, open_w, file_write, put_file, _get_repo, attr_working_dir,
    os_path_exists, open_r.
  keeps_store; apply store_run.
Qed.

Lemma store_prepare_config : stepwise same_store (_prepare_config host config).
Proof.
  unfold _prepare_config, shutil_copy, open_w, open_a, file_write, put_file, _get_repo,
    attr_working_dir, _get_config_paths, os_path_exists, os_path_getmtime, open_r.
  keeps_store; apply store_run.
Qed.

End PrepareFacts.

(** X18: when [prepare] returns normally, the working directory of the
    builder is the working tree of the LEDE repository found in the store,
    which is therefore cloned; the feeds and the configuration were prepared
    with that directory set. *)
Theorem prepare_sets_working_directory host config fetch s s' :
  prepare host config fetch s = (Ok tt, s') ->
  exists repo,
    od_get LEDE (_repos s') = Some (Some repo)
    /\ _working_dir s' = Some (working_dir repo).
Proof.
  intros H. unfold prepare in H.
  apply bind_inv_ok in H as (u1 & s1 & _ & H).
  apply bind_inv_ok in H as (u2 & s2 & _ & H).
  apply bind_inv_ok in H as (lede & s3 & Hl & H).
  apply bind_inv_ok in H as (dir & s4 & Hd & H).
  apply bind_inv_ok in H as (u3 & s5 & Hm & H).
  apply bind_inv_ok in H as (u4 & s6 & Hf & Hc).
  unfold _get_repo in Hl. rewrite bind_gets in Hl.
  destruct (od_get LEDE (_repos s2)) as [o|] eqn:E; [|discriminate].
  injection Hl as -> <-.
  destruct lede as [repo|]; [|discriminate]. injection Hd as <- <-.
  injection Hm as _ Hs5. subst s5.
  pose proof (store_prepare_feeds host config
                (set_working_dir (Some (working_dir repo)) s2)) as [R1 W1].
  pose proof (store_prepare_config host config s6) as [R2 W2].
  rewrite Hf in R1, W1. rewrite Hc in R2, W2. cbn [snd _repos _working_dir set_working_dir] in *.
  exists repo. split; congruence.
Qed.

Lemma prepare_sets_working_directory_witness :
  _working_dir (snd (prepare (Sample.host_walking [Sample.lede_spec]) (Sample.cfg "sd") false
                       Sample.ready_st))
  = Some Sample.lede_dir.
Proof.
  destruct (prepare_sets_working_directory (Sample.host_walking [Sample.lede_spec])
              (Sample.cfg "sd") false Sample.ready_st
              (snd (prepare (Sample.host_walking [Sample.lede_spec]) (Sample.cfg "sd") false
                      Sample.ready_st)))
    as (repo & Hr & Hw).
  - vm_compute. reflexivity.
  - assert (Hs : od_get LEDE (_repos (snd (prepare (Sample.host_walking [Sample.lede_spec])
                   (Sample.cfg "sd") false Sample.ready_st)))
                 = Some (Some (mkRepo Sample.lede_dir))) by (vm_compute; reflexivity).
    rewrite Hs in Hr. injection Hr as <-. exact Hw.
Defined.

(** ** [_prepare_config] *)

Section PrepareConfigFacts.

Variable host : Host.
Variable config : Config.

Lemma get_repo_cloned name repo s :
  od_get name (_repos s) = Some (Some repo) ->
  bind (_get_repo name) attr_working_dir s = (Ok (working_dir repo), s).
Proof. intros H. unfold _get_repo, attr_working_dir. run. rewrite H. reflexivity. Qed.

Lemma path_exists_eq path s :
  os_path_exists path s
  = (Ok (match fs s !! path with Some _ => true | None => false end), s).
Proof. reflexivity. Qed.

End PrepareConfigFacts.

(** X19: [_prepare_config] does nothing when the generated configuration
    exists, is not older than the authored one, and copying is not forced:
    no process is run, no file is opened and no file changes. *)
Theorem prepare_config_up_to_date host config s d linux cgminer nsrc ndst :
  _working_dir s = Some d ->
  od_get LINUX (_repos s) = Some (Some linux) ->
  od_get CGMINER (_repos s) = Some (Some cgminer) ->
  fs s !! Path.abspath (getcwd host) (build_config config) = Some nsrc ->
  fs s !! Path.join d [CONFIG_NAME] = Some ndst ->
  (mtime nsrc <= mtime ndst)%Z ->
  yes (build_config_always config) = false ->
  let r := _prepare_config host config s in
  fst r = Ok tt /\ fs (snd r) = fs s /\ calls (snd r) = calls s.
Proof.
  intros Hd Hl Hc Hsrc Hdst Ht Hy r. subst r. unfold _prepare_config.
  rewrite (bind_ok _ _ _ _ _ (logging_eq _ _ s)).
  set (s0 := set_log _ s).
  rewrite <- bind_assoc. rewrite (bind_ok _ _ _ _ _ (get_repo_cloned LINUX linux s0 Hl)).
  rewrite <- bind_assoc. rewrite (bind_ok _ _ _ _ _ (get_repo_cloned CGMINER cgminer s0 Hc)).
  rewrite (bind_ok _ _ _ _ _ (get_config_paths_ok host config s0 d Hd)).
  cbn [fst snd].
  rewrite (bind_ok _ _ _ _ _ (path_exists_eq _ s0)).
  change (fs s0) with (fs s). rewrite Hdst. cbn [negb when]. rewrite bind_ret.
  rewrite (bind_ok _ _ _ _ _ (getmtime_ok _ s0 nsrc Hsrc)).
  rewrite (bind_ok _ _ _ _ _ (getmtime_ok _ s0 ndst Hdst)).
  rewrite Hy. assert ((mtime ndst <? mtime nsrc)%Z = false) as -> by lia.
  cbn [orb when]. repeat split.
Qed.

Lemma prepare_config_up_to_date_witness :
  calls (snd (_prepare_config (Sample.host None) (Sample.cfg "sd") Sample.prepared_st)) = [].
Proof.
  destruct (prepare_config_up_to_date (Sample.host None) (Sample.cfg "sd") Sample.prepared_st
              Sample.lede_dir (mkRepo "/home/u/build/miner/linux")
              (mkRepo "/home/u/build/miner/cgminer")
              (Sample.file ("CONFIG_TARGET_zynq=y" +:+ Py.nl))
              (Sample.file ("CONFIG_TARGET_zynq=y" +:+ Py.nl)))
    as (_ & _ & Hc).
  - reflexivity.
  - reflexivity.
  - reflexivity.
  - vm_compute. reflexivity.
  - vm_compute. reflexivity.
  - vm_compute. discriminate.
  - reflexivity.
  - exact Hc.
Defined.

Section PrepareConfigCopy.

Variable host : Host.
Variable config : Config.

Lemma shutil_copy_file src dst s c t c' t' :
  src <> dst ->
  fs s !! src = Some (mkNode (KFile c) t) ->
  fs s !! dst = Some (mkNode (KFile c') t') ->
  exists s',
    shutil_copy src dst s = (Ok tt, s')
    /\ fs s' = <[dst := mkNode (KFile c) (clock s + 1)%Z]> (fs s)
    /\ calls s' = calls s ++ [COpen dst "w"]
    /\ clock s' = (clock s + 2)%Z
    /\ same_store s s'
    /\ log s' = log s.
Proof.
  intros Hne Hs Hd. unfold shutil_copy, open_r, open_w, file_write, put_file. run.
  rewrite Hd. apply String.eqb_neq in Hne. rewrite Hne. rewrite Hs.
  cbn [kind]. run. rewrite Hd. run. rewrite lookup_insert_eq. run.
  eexists. split; [reflexivity|]. cbn [fs calls clock _repos _working_dir log set_fs set_calls set_clock].
  rewrite insert_insert_eq. repeat split. lia.
Qed.

Lemma open_a_file path s c t :
  fs s !! path = Some (mkNode (KFile c) t) ->
  open_a path s = (Ok tt, set_calls (calls s ++ [COpen path "a"]) s).
Proof. intros H. unfold open_a. run. rewrite H. reflexivity. Qed.

Lemma derived_tree_lines dir :
  is_derived (kernel_tree_line dir) = true /\ is_derived (cgminer_tree_line dir) = true.
Proof. split; reflexivity. Qed.

End PrepareConfigCopy.

(** X20: when the generated configuration is older than the authored one, or
    copying is forced, [_prepare_config] replaces the generated file by the
    authored content followed by the two lines that point to the kernel and
    CGMiner trees, and then runs [make defconfig] once on that file; it
    fails exactly when that process does. The two lines start with the keys
    that [_config_lede] keeps out of the stored diff. *)
Theorem prepare_config_copies_stale host config s d linux cgminer c tsrc c' tdst :
  _working_dir s = Some d ->
  od_get LINUX (_repos s) = Some (Some linux) ->
  od_get CGMINER (_repos s) = Some (Some cgminer) ->
  let authored := Path.abspath (getcwd host) (build_config config) in
  let generated := Path.join d [CONFIG_NAME] in
  authored <> generated ->
  fs s !! authored = Some (mkNode (KFile c) tsrc) ->
  fs s !! generated = Some (mkNode (KFile c') tdst) ->
  (tdst < tsrc)%Z \/ yes (build_config_always config) = true ->
  let r := _prepare_config host config s in
  let content :=
    c +:+ kernel_tree_line (working_dir linux) +:+ cgminer_tree_line (working_dir cgminer) in
  let opened := calls s ++ [COpen generated "w"; COpen generated "a"] in
  exists t,
    let tool :=
      run_process host opened (defconfig_call d)
        (<[generated := mkNode (KFile content) t]> (fs s)) in
    calls (snd r) = opened ++ [CProc (defconfig_call d)]
    /\ fs (snd r) = snd tool
    /\ fst r = (if fst (fst tool) then Ok tt else Raise CalledProcessError)
    /\ is_derived (kernel_tree_line (working_dir linux)) = true
    /\ is_derived (cgminer_tree_line (working_dir cgminer)) = true.
Proof.
  intros Hd Hl Hc authored generated Hne Hsrc Hdst Hstale r content opened. subst r.
  unfold _prepare_config.
  rewrite (bind_ok _ _ _ _ _ (logging_eq _ _ s)).
  set (s0 := set_log _ s).
  rewrite <- bind_assoc. rewrite (bind_ok _ _ _ _ _ (get_repo_cloned LINUX linux s0 Hl)).
  rewrite <- bind_assoc. rewrite (bind_ok _ _ _ _ _ (get_repo_cloned CGMINER cgminer s0 Hc)).
  rewrite (bind_ok _ _ _ _ _ (get_config_paths_ok host config s0 d Hd)).
  cbn [fst snd]. fold authored generated.
  rewrite (bind_ok _ _ _ _ _ (path_exists_eq _ s0)).
  change (fs s0) with (fs s). rewrite Hdst. cbn [negb when]. rewrite bind_ret.
  rewrite (bind_ok _ _ _ _ _ (getmtime_ok _ s0 _ Hsrc)).
  rewrite (bind_ok _ _ _ _ _ (getmtime_ok _ s0 _ Hdst)).
  cbn [mtime orb].
  assert (((tdst <? tsrc)%Z || yes (build_config_always config)) = true) as ->.
  { destruct Hstale as [Hlt| ->]; [|apply orb_true_r].
    apply Z.ltb_lt in Hlt. now rewrite Hlt. }
  cbn [when].
  rewrite (bind_ok _ _ _ _ _ (logging_eq _ _ s0)).
  match goal with
  | |- context [bind (shutil_copy authored generated) _ ?st] => set (s1 := st)
  end.
  destruct (shutil_copy_file authored generated s1 c tsrc c' tdst Hne Hsrc Hdst)
    as (s2 & E2 & F2 & C2 & K2 & [R2 W2] & L2).
  rewrite (bind_ok _ _ _ _ _ E2).
  rewrite (bind_ok _ _ _ _ _ (logging_eq _ _ s2)).
  match goal with
  | |- context [bind (logging _ _) _ ?st] => rewrite (bind_ok _ _ _ _ _ (logging_eq _ _ st))
  end.
  match goal with
  | |- context [bind (open_a generated) _ ?st] => set (s3 := st)
  end.
  assert (F3 : fs s3 !! generated = Some (mkNode (KFile c) (clock s1 + 1)%Z)).
  { change (fs s3) with (fs s2). rewrite F2. apply lookup_insert_eq. }
  rewrite (bind_ok _ _ _ _ _ (open_a_file generated s3 _ _ F3)).
  match goal with
  | |- context [bind (file_write generated _) _ ?st] => set (s4 := st)
  end.
  rewrite (bind_ok _ _ _ _ _ (file_write_file generated _ s4 _ _ F3)).
  match goal with
  | |- context [bind (file_write generated _) _ ?st] => set (s5 := st)
  end.
  assert (F5 : fs s5 !! generated
               = Some (mkNode (KFile (c +:+ kernel_tree_line (working_dir linux))) (clock s4)))
    by apply lookup_insert_eq.
  rewrite (bind_ok _ _ _ _ _ (file_write_file generated _ s5 _ _ F5)).
  match goal with
  | |- context [bind (logging _ _) _ ?st] => rewrite (bind_ok _ _ _ _ _ (logging_eq _ _ st))
  end.
  match goal with
  | |- context [_run _ _ _ _ _] =>
      match goal with
      | |- context [bind _ _ ?st] => set (s6 := st)
      end
  end.
  pose proof (run_plain host "make" ["defconfig"] false s6) as R. cbv zeta in R.
  assert (W6 : _working_dir s6 = Some d).
  { cbn [s6 s5 s4 s3 _working_dir set_calls set_clock set_fs set_log]. rewrite W2. exact Hd. }
  assert (C6 : calls s6 = opened).
  { cbn [s6 s5 s4 s3 calls set_calls set_clock set_fs set_log]. rewrite C2.
    unfold opened. now rewrite <- app_assoc. }
  assert (F6 : fs s6 = <[generated := mkNode (KFile content) (clock s5)]> (fs s)).
  { cbn [s6 s5 s4 s3 fs set_calls set_clock set_fs set_log]. rewrite F2.
    rewrite !insert_insert_eq. unfold content, cgminer_tree_line.
    now rewrite append_assoc. }
  rewrite W6, C6, F6 in R. fold (defconfig_call d) in R.
  exists (clock s5). cbv zeta.
  destruct (fst (fst (run_process host opened (defconfig_call d)
                        (<[generated := mkNode (KFile content) (clock s5)]> (fs s))))).
  - rewrite (bind_ok _ _ _ _ _ R). cbn [ret fst snd calls fs set_fs set_calls set_log].
    repeat split.
  - rewrite (bind_raise _ _ _ _ _ R). cbn [fst snd calls fs set_fs set_calls set_log].
    repeat split.
Qed.

Lemma prepare_config_copies_stale_witness :
  exists t,
    fs (snd (_prepare_config (Sample.host None) (Sample.cfg "sd") Sample.stale_st))
    !! "/home/u/build/miner/lede/.config"
    = Some (mkNode (KFile ("CONFIG_TARGET_zynq=y" +:+ Py.nl +:+ Sample.glibc_line
                           +:+ kernel_tree_line "/home/u/build/miner/linux"
                           +:+ cgminer_tree_line "/home/u/build/miner/cgminer")) t).
Proof.
  destruct (prepare_config_copies_stale (Sample.host None) (Sample.cfg "sd") Sample.stale_st
              Sample.lede_dir (mkRepo "/home/u/build/miner/linux")
              (mkRepo "/home/u/build/miner/cgminer")
              ("CONFIG_TARGET_zynq=y" +:+ Py.nl +:+ Sample.glibc_line) 20
              ("CONFIG_TARGET_zynq=y" +:+ Py.nl) 10)
    as (t & _ & F & _).
  - reflexivity.
  - reflexivity.
  - reflexivity.
  - vm_compute. discriminate.
  - vm_compute. reflexivity.
  - vm_compute. reflexivity.
  - left. lia.
  - exists t. rewrite F. cbn [Sample.host run_process snd].
    etransitivity; [apply lookup_insert_eq|]. vm_compute. reflexivity.
Defined.

(** ** [_config_lede]: a diff that cannot be obtained *)

(** X21: [_config_lede] truncates the authored configuration before it runs
    the diff helper. When the helper then fails, or prints what is not
    UTF-8, the method raises and the authored file is left empty: what it
    held before is lost. *)
Theorem config_lede_failed_diff_empties_authored host config s d n0 n1 :
  _working_dir s = Some d ->
  let authored := Path.abspath (getcwd host) (build_config config) in
  let generated := Path.join d [CONFIG_NAME] in
  let tool := run_process host (calls s) (menuconfig_call d) (fs s) in
  fs s !! generated = Some n0 ->
  fst (fst tool) = true ->
  snd tool !! generated = Some n1 ->
  mtime n1 <> mtime n0 ->
  is_directory (snd tool) authored = false ->
  let truncated := <[authored := mkNode (KFile "") (clock s)]> (snd tool) in
  let helper :=
    run_process host (calls s ++ [CProc (menuconfig_call d); COpen authored "w"])
      (diffconfig_call d) truncated in
  fst (fst helper) = false \/ Py.utf8_valid (snd (fst helper)) = false ->
  snd helper !! authored = truncated !! authored ->
  let r := _config_lede host config s in
  fst r = Raise (if fst (fst helper) then UnicodeDecodeError else CalledProcessError)
  /\ fs (snd r) !! authored = Some (mkNode (KFile "") (clock s)).
Proof.
  intros Hd authored generated tool H0 Htool H1 NE Hdir truncated helper Hbad Hkeep r.
  subst r. unfold _config_lede.
  rewrite (bind_ok _ _ _ _ _ (get_config_paths_ok host config s d Hd)).
  cbn [fst snd]. fold authored generated.
  rewrite (bind_ok _ _ _ _ _ (getmtime_ok generated s n0 H0)).
  pose proof (run_plain host "make" ["menuconfig"] false s) as R.
  cbv zeta in R. rewrite Hd in R. fold (menuconfig_call d) in R. fold tool in R.
  rewrite Htool in R. rewrite (bind_ok _ _ _ _ _ R). clear R.
  match goal with
  | |- context [bind (os_path_getmtime generated) _ ?st] => set (s1 := st)
  end.
  assert (H1' : fs s1 !! generated = Some n1) by exact H1.
  rewrite (bind_ok _ _ _ _ _ (getmtime_ok generated s1 n1 H1')).
  apply Z.eqb_neq in NE. rewrite NE.
  rewrite (bind_ok _ _ _ _ _ (logging_eq _ _ s1)).
  match goal with
  | |- context [bind (open_w authored) _ ?st] => set (s2 := st)
  end.
  assert (Hdir2 : is_directory (fs s2) authored = false) by exact Hdir.
  rewrite (bind_ok _ _ _ _ _ (open_w_ok authored s2 Hdir2)).
  match goal with
  | |- context [bind (_run _ _ _ _ _) _ ?st] => set (s3 := st)
  end.
  pose proof (run_plain host (Path.join "scripts" ["diffconfig.sh"]) [] true s3) as R.
  cbv zeta in R.
  assert (W3 : _working_dir s3 = Some d) by exact Hd.
  assert (C3 : calls s3 = calls s ++ [CProc (menuconfig_call d); COpen authored "w"]).
  { unfold s3, s2, s1. cbn [calls set_calls set_clock set_fs set_log].
    now rewrite <- app_assoc. }
  assert (F3 : fs s3 = truncated) by reflexivity.
  rewrite W3, C3, F3 in R. fold (diffconfig_call d) in R. fold helper in R.
  assert (Ht : truncated !! authored = Some (mkNode (KFile "") (clock s)))
    by apply lookup_insert_eq.
  destruct (fst (fst helper)) eqn:Hh.
  - destruct Hbad as [Hbad|Hu]; [discriminate Hbad|].
    rewrite (bind_ok _ _ _ _ _ R). unfold decode_utf8. rewrite Hu.
    split; [reflexivity|]. cbn [bind raise snd fs set_fs]. now rewrite Hkeep.
  - rewrite (bind_raise _ _ _ _ _ R).
    split; [reflexivity|]. cbn [snd fs set_fs]. now rewrite Hkeep.
Qed.

Lemma config_lede_failed_diff_empties_authored_witness :
  let r := _config_lede Sample.broken_diff_host (Sample.cfg "sd") (Sample.st Sample.files) in
  fst r = Raise CalledProcessError
  /\ fs (snd r) !! "/home/u/configs/miner.config" = Some (mkNode (KFile "") 100).
Proof.
  exact (config_lede_failed_diff_empties_authored Sample.broken_diff_host (Sample.cfg "sd")
           (Sample.st Sample.files) Sample.lede_dir
           (Sample.file ("CONFIG_TARGET_zynq=y" +:+ Py.nl))
           (mkNode (KFile ("CONFIG_TARGET_zynq=y" +:+ Py.nl)) 50)
           eq_refl eq_refl eq_refl eq_refl
           ltac:(vm_compute; discriminate) eq_refl (or_introl eq_refl) eq_refl).
Defined.

(** ** [_prepare_feeds]: creating the manifest *)

Section FeedsCreate.

Variable host : Host.
Variable config : Config.

(** The loop that copies the lines of the template *)
Lemma copy_feed_lines p ls : forall s c t,
  fs s !! p = Some (mkNode (KFile c) t) ->
  exists s' t',
    for_ ls (fun line => when (negb (Py.contains LUCI line)) (file_write p line)) s
    = (Ok tt, s')
    /\ fs s' = <[p := mkNode (KFile (c +:+ concat_all
                     (List.filter (fun line => negb (Py.contains LUCI line)) ls))) t']> (fs s)
    /\ calls s' = calls s
    /\ same_store s s'.
Proof.
  induction ls as [|l ls IH]; intros s c t Hp.
  - exists s, t. cbn [for_ List.filter concat_all]. rewrite append_nil_r.
    split; [reflexivity|]. split; [|split; [reflexivity | apply same_store_refl]].
    symmetry. now apply insert_id.
  - cbn [for_ List.filter]. destruct (Py.contains LUCI l); cbn [negb when].
    + rewrite bind_ret. apply (IH s c t Hp).
    + rewrite (bind_ok _ _ _ _ _ (file_write_file p l s c t Hp)).
      match goal with
      | |- context [for_ ls _ ?st] => set (s1 := st)
      end.
      assert (H1 : fs s1 !! p = Some (mkNode (KFile (c +:+ l)) (clock s)))
        by apply lookup_insert_eq.
      destruct (IH s1 _ _ H1) as (s' & t' & E & F & C & S).
      exists s', t'. split; [exact E|]. cbn [concat_all].
      rewrite F, <- append_assoc. cbn [s1 fs set_fs set_clock].
      rewrite insert_insert_eq. auto.
Qed.

End FeedsCreate.

(** X22: when the feed manifest is missing, or creating it is forced,
    [_prepare_feeds] writes it from the template: the lines that do not
    mention [luci], in order, then one [src-link] line to the working tree
    of the LuCI repository. The feed update is then run whatever
    [update_always] says, and after a successful update the install step
    whatever [install_always] says. *)
Theorem prepare_feeds_creates_manifest host config s d luci c t :
  _working_dir s = Some d ->
  od_get LUCI (_repos s) = Some (Some luci) ->
  let src := Path.join d [FEEDS_CONF_SRC] in
  let dst := Path.join d [FEEDS_CONF_DST] in
  fs s !! src = Some (mkNode (KFile c) t) ->
  is_directory (fs s) dst = false ->
  fs s !! dst = None \/ yes (feeds_create_always config) = true ->
  let r := _prepare_feeds host config s in
  let opened := calls s ++ [COpen dst "w"] in
  exists t',
    let written := <[dst := mkNode (KFile (feeds_manifest c (working_dir luci))) t']> (fs s) in
    let update := run_process host opened (feeds_call d "update") written in
    let install :=
      run_process host (opened ++ [CProc (feeds_call d "update")]) (feeds_call d "install")
        (snd update) in
    if fst (fst update)
    then calls (snd r)
         = opened ++ [CProc (feeds_call d "update"); CProc (feeds_call d "install")]
         /\ fs (snd r) = snd install
         /\ fst r = (if fst (fst install) then Ok tt else Raise CalledProcessError)
    else calls (snd r) = opened ++ [CProc (feeds_call d "update")]
         /\ fs (snd r) = snd update
         /\ fst r = Raise CalledProcessError.
Proof.
  intros Hd Hl src dst Hsrc Hdir Hnew r opened. subst r.
  unfold _prepare_feeds.
  rewrite (bind_ok _ _ _ _ _ (logging_eq _ _ s)).
  set (s0 := set_log _ s).
  rewrite bind_gets. change (_working_dir s0) with (_working_dir s). rewrite Hd.
  rewrite <- bind_assoc. rewrite (bind_ok _ _ _ _ _ (get_repo_cloned LUCI luci s0 Hl)).
  cbn [fspath]. rewrite bind_ret. cbv zeta. fold src dst.
  rewrite (bind_ok _ _ _ _ _ (path_exists_eq _ s0)).
  change (fs s0) with (fs s).
  assert ((negb match fs s !! dst with Some _ => true | None => false end
           || yes (feeds_create_always config)) = true) as ->.
  { destruct Hnew as [-> | ->]; [reflexivity | apply orb_true_r]. }
  cbv iota. rewrite bind_assoc. rewrite (bind_ok _ _ _ _ _ (logging_eq _ _ s0)).
  rewrite bind_assoc.
  match goal with
  | |- context [bind (open_r src) _ ?st] => set (s1 := st)
  end.
  assert (Hr : open_r src s1 = (Ok c, s1)).
  { unfold open_r. run. change (fs s1) with (fs s). rewrite Hsrc. reflexivity. }
  rewrite (bind_ok _ _ _ _ _ Hr).
  assert (Hdir1 : is_directory (fs s1) dst = false) by exact Hdir.
  rewrite bind_assoc. rewrite (bind_ok _ _ _ _ _ (open_w_ok dst s1 Hdir1)).
  rewrite bind_assoc.
  match goal with
  | |- context [bind (for_ _ _) _ ?st] => set (s2 := st)
  end.
  assert (F2 : fs s2 !! dst = Some (mkNode (KFile "") (clock s1))) by apply lookup_insert_eq.
  destruct (copy_feed_lines dst (Py.readlines c) s2 _ _ F2) as (s3 & t3 & E3 & F3 & C3 & [R3 W3]).
  rewrite (bind_ok _ _ _ _ _ E3).
  assert (F3' : fs s3 !! dst = Some (mkNode (KFile (concat_all (kept_feeds c))) t3)).
  { rewrite F3. apply lookup_insert_eq. }
  rewrite bind_assoc. rewrite (bind_ok _ _ _ _ _ (file_write_file dst _ s3 _ _ F3')).
  rewrite bind_ret. cbn [fst snd when].
  rewrite bind_assoc.
  match goal with
  | |- context [bind (logging DEBUG "Updating feeds") _ ?st] => set (s4 := st)
  end.
  exists (clock s3). cbv zeta.
  assert (W4 : _working_dir s4 = Some d).
  { cbn [s4 _working_dir set_clock set_fs]. rewrite W3. exact Hd. }
  assert (C4 : calls s4 = opened).
  { cbn [s4 calls set_clock set_fs]. rewrite C3. reflexivity. }
  assert (F4 : fs s4 = <[dst := mkNode (KFile (feeds_manifest c (working_dir luci))) (clock s3)]>
                         (fs s)).
  { cbn [s4 fs set_clock set_fs]. rewrite F3. cbn [s2 fs set_clock set_fs s1 set_calls set_log].
    rewrite !insert_insert_eq. reflexivity. }
  rewrite (bind_ok _ _ _ _ _ (logging_eq _ _ s4)).
  rewrite bind_assoc.
  match goal with
  | |- context [bind (_run _ _ _ _ _) _ ?st] => set (s5 := st)
  end.
  pose proof (run_plain host (Path.join "scripts" ["feeds"]) ["update"; "-a"] false s5) as R.
  cbv zeta in R.
  change (_working_dir s5) with (_working_dir s4) in R.
  change (calls s5) with (calls s4) in R. change (fs s5) with (fs s4) in R.
  rewrite W4, C4, F4 in R. fold (feeds_call d "update") in R.
  destruct (fst (fst (run_process host opened (feeds_call d "update") _))) eqn:Hu.
  - rewrite (bind_ok _ _ _ _ _ R). rewrite bind_ret.
    match goal with
    | |- context [bind (logging DEBUG "Installing feeds") _ ?st] => set (s6 := st)
    end.
    rewrite (bind_ok _ _ _ _ _ (logging_eq _ _ s6)).
    match goal with
    | |- context [bind (_run _ _ _ _ _) _ ?st] => set (s7 := st)
    end.
    pose proof (run_plain host (Path.join "scripts" ["feeds"]) ["install"; "-a"] false s7) as R7.
    cbv zeta in R7.
    change (_working_dir s7) with (_working_dir s4) in R7.
    change (calls s7) with (opened ++ [CProc (feeds_call d "update")]) in R7.
    rewrite W4 in R7. fold (feeds_call d "install") in R7.
    change (fs s7) with (snd (run_process host opened (feeds_call d "update")
      (<[dst := mkNode (KFile (feeds_manifest c (working_dir luci))) (clock s3)]> (fs s)))) in R7.
    destruct (fst (fst (run_process host (opened ++ [CProc (feeds_call d "update")])
                          (feeds_call d "install") _))).
    + rewrite (bind_ok _ _ _ _ _ R7). cbn [ret fst snd calls fs set_fs set_calls set_log].
      rewrite <- app_assoc. repeat split.
    + rewrite (bind_raise _ _ _ _ _ R7). cbn [fst snd calls fs set_fs set_calls set_log].
      rewrite <- app_assoc. repeat split.
  - rewrite (bind_raise _ _ _ _ _ R).
    cbn [fst snd calls fs set_fs set_calls set_log]. repeat split.
Qed.

Lemma prepare_feeds_creates_manifest_witness :
  calls (snd (_prepare_feeds (Sample.host None) Sample.feeds_cfg Sample.fresh_feeds_st))
  = [COpen "/home/u/build/miner/lede/feeds.conf" "w";
     CProc (feeds_call Sample.lede_dir "update");
     CProc (feeds_call Sample.lede_dir "install")].
Proof.
  destruct (prepare_feeds_creates_manifest (Sample.host None) Sample.feeds_cfg
              Sample.fresh_feeds_st Sample.lede_dir (mkRepo "/home/u/build/miner/luci")
              ("src-git packages https://git.example/packages.git" +:+ Py.nl
               +:+ "src-git luci https://git.example/luci.git" +:+ Py.nl) 10)
    as (t' & H).
  - reflexivity.
  - reflexivity.
  - vm_compute. reflexivity.
  - vm_compute. reflexivity.
  - left. vm_compute. reflexivity.
  - cbv beta iota zeta delta [Sample.host run_process fst] in H.
    destruct H as (Hc & _). exact Hc.
Defined.

(** ** [deploy] as a whole *)

Lemma device_only_same s s' : same_world s s' -> device_only s s'.
Proof.
  intros (F & C & R & W & _). split; [now apply calls_all_same|]. split; [exact F|].
  split; assumption.
Qed.

Lemma device_only_trans a b c : device_only a b -> device_only b c -> device_only a c.
Proof.
  intros (C1 & F1 & S1) (C2 & F2 & S2). split; [|split].
  - eapply calls_all_trans; eassumption.
  - congruence.
  - eapply same_store_trans; eassumption.
Qed.

Lemma device_only_deploy_ssh_sd host config image :
  stepwise device_only (_deploy_ssh_sd host config image).
Proof.
  intros s.
  destruct (deploy_ssh_sd_trace host config image s)
    as (new & Hc & Hfs & Hr & Hw & Hall & _).
  split; [exists new; auto|]. split; [exact Hfs|]. split; assumption.
Qed.

Lemma reports_use_glibc host config : stepwise same_world (_use_glibc host config).
Proof. reports. Qed.

(** X23: [deploy] works on the device only, whatever the target and whatever
    fails: every call it makes is an operation of the SSH session, and the
    local files, the repository store and the working directory are what
    they were. *)
Theorem deploy_stays_on_device host config s :
  device_only s (snd (deploy host config s)).
Proof.
  unfold deploy. cbv zeta.
  rewrite (bind_ok _ _ _ _ _ (logging_eq _ _ s)). rewrite bind_gets.
  set (s0 := set_log _ s).
  assert (H0 : device_only s s0) by (apply device_only_same; repeat split).
  eapply device_only_trans; [exact H0|]. clear H0. clearbody s0.
  pose proof (reports_use_glibc host config s0) as Hg.
  unfold bind at 1. destruct (_use_glibc host config s0) as [[glibc|e] s1]; cbn [snd] in Hg.
  - eapply device_only_trans; [apply device_only_same; exact Hg|].
    destruct (_working_dir s0) as [d|]; cbn [fspath];
      [rewrite bind_ret | apply device_only_same; repeat split].
    destruct (String.eqb (deploy_target config) "sd").
    + apply device_only_deploy_ssh_sd.
    + apply device_only_same. repeat split.
  - apply device_only_same. exact Hg.
Qed.

(** ** Repository paths *)

(** X24: a repository name that starts with a slash is taken as the path of
    the repository as it stands: the build directory is not part of it. *)
Theorem absolute_repo_name_leaves_build_dir host config name :
  Py.startswith name "/" = true ->
  _get_repo_path host config name = name.
Proof.
  intros H. unfold _get_repo_path, Path.join. cbn [fold_left]. unfold Path.join2.
  now rewrite H.
Qed.

Lemma absolute_repo_name_leaves_build_dir_witness :
  _get_repo_path (Sample.host None) (Sample.cfg "sd") "/srv/linux" = "/srv/linux".
Proof.
  apply (absolute_repo_name_leaves_build_dir (Sample.host None) (Sample.cfg "sd") "/srv/linux").
  reflexivity.
Defined.
